(** * pglogical_ticker: worker lifecycle and dynamic launch

    A shallow embedding of [pglogical_ticker.c]: the two signal handlers,
    the worker entry point [pglogical_ticker_main] with its main loop, the
    module entry point [_PG_init] and the SQL-callable
    [pglogical_ticker_launch].

    The module talks to its host (PostgreSQL) only through calls of the
    host API.  Those calls are kept as data: every function of the module
    is modelled as a function that records the host calls it makes, in
    order, and that receives the host's answers from an explicit
    environment.  What the host does behind a call is not modelled beyond
    what is said at the definition that needs it. *)

From Stdlib Require Import ZArith List Bool String Lia DecimalString.
Import ListNotations.

Local Open Scope Z_scope.

(* ===================================================================== *)
(** * Host headers *)
(* ===================================================================== *)

(** Width of the host's [Datum] (an unsigned integer as wide as a
    pointer). *)
Inductive DatumSize := Datum4 | Datum8.

(** Width of the host's [long]: four bytes on 32-bit platforms and on
    64-bit Windows, eight bytes elsewhere. *)
Inductive LongSize := Long4 | Long8.

(** Constants that the source takes from the host's headers.  Their values
    are not part of the module, so the development is parametric in them;
    [pg11_headers] below is one concrete choice, used to run examples. *)
Class HostHeaders := {
  PG_VERSION_NUM : Z;
  SIZEOF_DATUM : DatumSize;
  SIZEOF_LONG : LongSize;
  USE_ASSERT_CHECKING : bool;
  BGW_MAXLEN : nat;
  BGWORKER_SHMEM_ACCESS : Z;
  BGWORKER_BACKEND_DATABASE_CONNECTION : Z;
  WL_LATCH_SET : Z;
  WL_TIMEOUT : Z;
  WL_POSTMASTER_DEATH : Z;
  PG_WAIT_EXTENSION : Z;
  ERRCODE_INSUFFICIENT_RESOURCES : Z
}.

(** The values of a PostgreSQL 11 build on a 64-bit platform, without
    assertion checking. *)
Definition pg11_headers : HostHeaders := {|
  PG_VERSION_NUM := 110000;
  SIZEOF_DATUM := Datum8;
  SIZEOF_LONG := Long8;
  USE_ASSERT_CHECKING := false;
  BGW_MAXLEN := 96;
  BGWORKER_SHMEM_ACCESS := 1;
  BGWORKER_BACKEND_DATABASE_CONNECTION := 2;
  WL_LATCH_SET := 1;
  WL_TIMEOUT := 8;
  WL_POSTMASTER_DEATH := 16;
  PG_WAIT_EXTENSION := 117440512;
  ERRCODE_INSUFFICIENT_RESOURCES := 197
|}.

(** The values of a PostgreSQL 9.6 build: shorter worker names, and none of
    the arguments that later versions added. *)
Definition pg96_headers : HostHeaders := {|
  PG_VERSION_NUM := 90600;
  SIZEOF_DATUM := Datum8;
  SIZEOF_LONG := Long8;
  USE_ASSERT_CHECKING := false;
  BGW_MAXLEN := 64;
  BGWORKER_SHMEM_ACCESS := 1;
  BGWORKER_BACKEND_DATABASE_CONNECTION := 2;
  WL_LATCH_SET := 1;
  WL_TIMEOUT := 8;
  WL_POSTMASTER_DEATH := 16;
  PG_WAIT_EXTENSION := 117440512;
  ERRCODE_INSUFFICIENT_RESOURCES := 197
|}.

(** [INT_MAX] of a 32-bit [int]. *)
Definition INT_MAX : Z := 2147483647.

Definition Oid := Z.
Definition Datum := Z.

(** [InvalidOid] is [((Oid) 0)]. *)
Definition InvalidOid : Oid := 0.

(** Host enumerations, as far as the module names their members. *)
Inductive BgWorkerStartTime :=
  | BgWorkerStart_PostmasterStart
  | BgWorkerStart_ConsistentState
  | BgWorkerStart_RecoveryFinished.

Inductive GucContext :=
  | PGC_INTERNAL | PGC_POSTMASTER | PGC_SIGHUP | PGC_SU_BACKEND
  | PGC_BACKEND | PGC_SUSET | PGC_USERSET.

Inductive GucSource := PGC_S_FILE | PGC_S_SESSION.

Inductive BackendState := STATE_IDLE | STATE_RUNNING.

Inductive ErrorLevel := LOG | ERROR.

Inductive BgwHandleStatus :=
  | BGWH_STARTED
  | BGWH_NOT_YET_STARTED
  | BGWH_STOPPED
  | BGWH_POSTMASTER_DIED.

Inductive Signal := SIGHUP | SIGTERM.

Definition Signal_eqb (a b : Signal) : bool :=
  match a, b with
  | SIGHUP, SIGHUP | SIGTERM, SIGTERM => true
  | _, _ => false
  end.

(** What [ereport] carries. *)
Record ErrorData := {
  elevel : ErrorLevel;
  sqlerrcode : Z;
  message : string;
  hint : string
}.

(** How a modelled function ends.  [ereport(ERROR, ...)] does not return to
    its caller: control leaves the function (the source relies on it in
    [pglogical_ticker_launch], where [Assert(status == BGWH_STARTED)]
    follows the two [ereport] calls).  [proc_exit] ends the process.
    [Blocked] is the end of a finite observation: the host has not yet
    answered the last recorded call. *)
Inductive Outcome (A : Type) :=
  | Return (a : A)
  | Error (e : ErrorData)
  | ProcExit (code : Z)
  | AssertionFailure
  | Blocked
  | OutOfFuel.

Arguments Return {A} a.
Arguments Error {A} e.
Arguments ProcExit {A} code.
Arguments AssertionFailure {A}.
Arguments Blocked {A}.
Arguments OutOfFuel {A}.

(* ===================================================================== *)
(** * Integer conversions *)
(* ===================================================================== *)

(** [(uint32) x] *)
Definition to_uint32 (x : Z) : Z := x mod 2 ^ 32.

(** [(int32) x] *)
Definition to_int32 (x : Z) : Z := (x + 2 ^ 31) mod 2 ^ 32 - 2 ^ 31.

Section Ticker.

Context {HH : HostHeaders}.

Definition datum_bits : Z :=
  match SIZEOF_DATUM with Datum4 => 32 | Datum8 => 64 end.

(** [(Datum) x] *)
Definition to_Datum (x : Z) : Datum := x mod 2 ^ datum_bits.

Definition long_bits : Z :=
  match SIZEOF_LONG with Long4 => 32 | Long8 => 64 end.

(** A result of [long] arithmetic: the host, and the modules built with
    its flags, are compiled with wrap-around signed arithmetic
    ([-fwrapv]). *)
Definition to_long (x : Z) : Z :=
  (x + 2 ^ (long_bits - 1)) mod 2 ^ long_bits - 2 ^ (long_bits - 1).

(** The conversions of [postgres.h], as plain casts.  (Host versions that
    mask an [int32] to four bytes before widening it give a datum that
    differs, for negative values only, in bits that [DatumGetInt32] does
    not read.) *)
Definition Int32GetDatum (x : Z) : Datum := to_Datum x.
Definition DatumGetInt32 (d : Datum) : Z := to_int32 d.
Definition ObjectIdGetDatum (x : Oid) : Datum := to_Datum x.
Definition DatumGetObjectId (d : Datum) : Oid := to_uint32 d.

(** [snprintf(dst, BGW_MAXLEN, ...)] keeps at most [BGW_MAXLEN - 1]
    characters. *)
Definition snprintf_bgw (s : string) : string :=
  String.substring 0 (BGW_MAXLEN - 1) s.

(** [%d] *)
Definition fmt_d (i : Z) : string := NilZero.string_of_int (Z.to_int (to_int32 i)).

(* ===================================================================== *)
(** * File-scope variables *)
(* ===================================================================== *)

(** The flags set by the signal handlers and the three GUC variables. *)
Record Statics := {
  got_sighup : bool;
  got_sigterm : bool;
  pglogical_ticker_naptime : Z;
  pglogical_ticker_database : option string;
  pglogical_ticker_restart_time : Z
}.

(** The initialisers of the source. *)
Definition statics_init : Statics := {|
  got_sighup := false;
  got_sigterm := false;
  pglogical_ticker_naptime := 10;
  pglogical_ticker_database := None;
  pglogical_ticker_restart_time := 10
|}.

Definition pglogical_ticker_total_workers : Z := 1.

Definition set_got_sighup (b : bool) (s : Statics) : Statics :=
  {| got_sighup := b;
     got_sigterm := got_sigterm s;
     pglogical_ticker_naptime := pglogical_ticker_naptime s;
     pglogical_ticker_database := pglogical_ticker_database s;
     pglogical_ticker_restart_time := pglogical_ticker_restart_time s |}.

Definition set_got_sigterm (b : bool) (s : Statics) : Statics :=
  {| got_sighup := got_sighup s;
     got_sigterm := b;
     pglogical_ticker_naptime := pglogical_ticker_naptime s;
     pglogical_ticker_database := pglogical_ticker_database s;
     pglogical_ticker_restart_time := pglogical_ticker_restart_time s |}.

Definition set_naptime (v : Z) (s : Statics) : Statics :=
  {| got_sighup := got_sighup s;
     got_sigterm := got_sigterm s;
     pglogical_ticker_naptime := v;
     pglogical_ticker_database := pglogical_ticker_database s;
     pglogical_ticker_restart_time := pglogical_ticker_restart_time s |}.

Definition set_database (v : option string) (s : Statics) : Statics :=
  {| got_sighup := got_sighup s;
     got_sigterm := got_sigterm s;
     pglogical_ticker_naptime := pglogical_ticker_naptime s;
     pglogical_ticker_database := v;
     pglogical_ticker_restart_time := pglogical_ticker_restart_time s |}.

Definition set_restart_time (v : Z) (s : Statics) : Statics :=
  {| got_sighup := got_sighup s;
     got_sigterm := got_sigterm s;
     pglogical_ticker_naptime := pglogical_ticker_naptime s;
     pglogical_ticker_database := pglogical_ticker_database s;
     pglogical_ticker_restart_time := v |}.

(* ===================================================================== *)
(** * Custom configuration variables *)
(* ===================================================================== *)

(** The address given to [DefineCustomIntVariable] as [valueAddr]. *)
Inductive IntVar := addr_naptime | addr_restart_time.

(** The arguments of one [DefineCustomIntVariable] call (the long
    description and the three hooks are [NULL] in every call of the
    module and are left out). *)
Record config_int := {
  ci_name : string;
  ci_short_desc : string;
  ci_variable : IntVar;
  ci_boot_val : Z;
  ci_min : Z;
  ci_max : Z;
  ci_context : GucContext;
  ci_flags : Z
}.

(** The arguments of one [DefineCustomStringVariable] call; the only
    string variable of the module is [pglogical_ticker_database]. *)
Record config_string := {
  cs_name : string;
  cs_short_desc : string;
  cs_boot_val : option string;
  cs_context : GucContext;
  cs_flags : Z
}.

Inductive config_generic :=
  | ConfigInt (d : config_int)
  | ConfigString (d : config_string).

(** A value the host has for a custom variable (from its configuration
    file), already parsed; [GucString None] is a string variable put back
    to a [NULL] value. *)
Inductive GucValue := GucInt (v : Z) | GucString (v : option string).

Definition Setting : Type := string * GucValue.

Definition store_int (a : IntVar) (v : Z) (s : Statics) : Statics :=
  match a with
  | addr_naptime => set_naptime v s
  | addr_restart_time => set_restart_time v s
  end.

(** The host's side of an integer variable: a value outside
    [[ci_min, ci_max]] is refused and the variable keeps what it had. *)
Definition int_in_range (d : config_int) (v : Z) : bool :=
  (ci_min d <=? v) && (v <=? ci_max d).

Definition assign_int (d : config_int) (v : Z) (s : Statics) : Statics :=
  if int_in_range d v then store_int (ci_variable d) v s else s.

Definition assign_string (d : config_string) (v : option string)
  (s : Statics) : Statics :=
  set_database v s.

Definition guc_name (g : config_generic) : string :=
  match g with
  | ConfigInt d => ci_name d
  | ConfigString d => cs_name d
  end.

Fixpoint find_guc (name : string) (table : list config_generic)
  : option config_generic :=
  match table with
  | [] => None
  | g :: table' =>
      if String.eqb (guc_name g) name then Some g else find_guc name table'
  end.

(** The host applies one setting to the variable defined under that name;
    a setting for an unknown name, or of the wrong type, changes
    nothing. *)
Definition apply_setting (table : list config_generic) (s : Statics)
  (st : Setting) : Statics :=
  match find_guc (fst st) table, snd st with
  | Some (ConfigInt d), GucInt v => assign_int d v s
  | Some (ConfigString d), GucString v => assign_string d v s
  | _, _ => s
  end.

Definition apply_settings (table : list config_generic)
  (sts : list Setting) (s : Statics) : Statics :=
  fold_left (apply_setting table) sts s.

(* ===================================================================== *)
(** * Worker descriptors *)
(* ===================================================================== *)

Record BackgroundWorker := {
  bgw_name : string;
  bgw_type : string;
  bgw_flags : Z;
  bgw_start_time : BgWorkerStartTime;
  bgw_restart_time : Z;
  bgw_library_name : string;
  bgw_function_name : string;
  bgw_main_arg : Datum;
  bgw_notify_pid : Z
}.

(** [memset(&worker, 0, sizeof(worker))]: the first member of the start
    time enumeration is the one with value 0. *)
Definition worker_zero : BackgroundWorker := {|
  bgw_name := EmptyString;
  bgw_type := EmptyString;
  bgw_flags := 0;
  bgw_start_time := BgWorkerStart_PostmasterStart;
  bgw_restart_time := 0;
  bgw_library_name := EmptyString;
  bgw_function_name := EmptyString;
  bgw_main_arg := 0;
  bgw_notify_pid := 0
|}.

Definition set_bgw_name (v : string) (w : BackgroundWorker)
  : BackgroundWorker :=
  {| bgw_name := v;
     bgw_type := bgw_type w;
     bgw_flags := bgw_flags w;
     bgw_start_time := bgw_start_time w;
     bgw_restart_time := bgw_restart_time w;
     bgw_library_name := bgw_library_name w;
     bgw_function_name := bgw_function_name w;
     bgw_main_arg := bgw_main_arg w;
     bgw_notify_pid := bgw_notify_pid w |}.

Definition set_bgw_type (v : string) (w : BackgroundWorker)
  : BackgroundWorker :=
  {| bgw_name := bgw_name w;
     bgw_type := v;
     bgw_flags := bgw_flags w;
     bgw_start_time := bgw_start_time w;
     bgw_restart_time := bgw_restart_time w;
     bgw_library_name := bgw_library_name w;
     bgw_function_name := bgw_function_name w;
     bgw_main_arg := bgw_main_arg w;
     bgw_notify_pid := bgw_notify_pid w |}.

Definition set_bgw_flags (v : Z) (w : BackgroundWorker)
  : BackgroundWorker :=
  {| bgw_name := bgw_name w;
     bgw_type := bgw_type w;
     bgw_flags := v;
     bgw_start_time := bgw_start_time w;
     bgw_restart_time := bgw_restart_time w;
     bgw_library_name := bgw_library_name w;
     bgw_function_name := bgw_function_name w;
     bgw_main_arg := bgw_main_arg w;
     bgw_notify_pid := bgw_notify_pid w |}.

Definition set_bgw_start_time (v : BgWorkerStartTime) (w : BackgroundWorker)
  : BackgroundWorker :=
  {| bgw_name := bgw_name w;
     bgw_type := bgw_type w;
     bgw_flags := bgw_flags w;
     bgw_start_time := v;
     bgw_restart_time := bgw_restart_time w;
     bgw_library_name := bgw_library_name w;
     bgw_function_name := bgw_function_name w;
     bgw_main_arg := bgw_main_arg w;
     bgw_notify_pid := bgw_notify_pid w |}.

Definition set_bgw_restart_time (v : Z) (w : BackgroundWorker)
  : BackgroundWorker :=
  {| bgw_name := bgw_name w;
     bgw_type := bgw_type w;
     bgw_flags := bgw_flags w;
     bgw_start_time := bgw_start_time w;
     bgw_restart_time := v;
     bgw_library_name := bgw_library_name w;
     bgw_function_name := bgw_function_name w;
     bgw_main_arg := bgw_main_arg w;
     bgw_notify_pid := bgw_notify_pid w |}.

Definition set_bgw_library_name (v : string) (w : BackgroundWorker)
  : BackgroundWorker :=
  {| bgw_name := bgw_name w;
     bgw_type := bgw_type w;
     bgw_flags := bgw_flags w;
     bgw_start_time := bgw_start_time w;
     bgw_restart_time := bgw_restart_time w;
     bgw_library_name := v;
     bgw_function_name := bgw_function_name w;
     bgw_main_arg := bgw_main_arg w;
     bgw_notify_pid := bgw_notify_pid w |}.

Definition set_bgw_function_name (v : string) (w : BackgroundWorker)
  : BackgroundWorker :=
  {| bgw_name := bgw_name w;
     bgw_type := bgw_type w;
     bgw_flags := bgw_flags w;
     bgw_start_time := bgw_start_time w;
     bgw_restart_time := bgw_restart_time w;
     bgw_library_name := bgw_library_name w;
     bgw_function_name := v;
     bgw_main_arg := bgw_main_arg w;
     bgw_notify_pid := bgw_notify_pid w |}.

Definition set_bgw_main_arg (v : Datum) (w : BackgroundWorker)
  : BackgroundWorker :=
  {| bgw_name := bgw_name w;
     bgw_type := bgw_type w;
     bgw_flags := bgw_flags w;
     bgw_start_time := bgw_start_time w;
     bgw_restart_time := bgw_restart_time w;
     bgw_library_name := bgw_library_name w;
     bgw_function_name := bgw_function_name w;
     bgw_main_arg := v;
     bgw_notify_pid := bgw_notify_pid w |}.

Definition set_bgw_notify_pid (v : Z) (w : BackgroundWorker)
  : BackgroundWorker :=
  {| bgw_name := bgw_name w;
     bgw_type := bgw_type w;
     bgw_flags := bgw_flags w;
     bgw_start_time := bgw_start_time w;
     bgw_restart_time := bgw_restart_time w;
     bgw_library_name := bgw_library_name w;
     bgw_function_name := bgw_function_name w;
     bgw_main_arg := bgw_main_arg w;
     bgw_notify_pid := v |}.

(** [#if PG_VERSION_NUM >= 110000  snprintf(worker.bgw_type, ...)  #endif] *)
Definition fill_bgw_type (w : BackgroundWorker) : BackgroundWorker :=
  if 110000 <=? PG_VERSION_NUM
  then set_bgw_type (snprintf_bgw "pglogical_ticker") w
  else w.


(* ===================================================================== *)
(** * [_PG_init] *)
(* ===================================================================== *)

(** The process that loads the library: the module's variables, the
    custom variables defined so far, and the descriptors handed to
    [RegisterBackgroundWorker] so far. *)
Record Loader := {
  l_vars : Statics;
  l_gucs : list config_generic;
  l_registered : list BackgroundWorker
}.

(** What the host shows to [_PG_init]: whether the library is loaded
    through [shared_preload_libraries], and the settings it holds for
    custom variables. *)
Record LoadEnv := {
  process_shared_preload_libraries_in_progress : bool;
  config_file : list Setting
}.

Definition loader_init : Loader :=
  {| l_vars := statics_init; l_gucs := []; l_registered := [] |}.

(** The host's side of a definition: the variable takes its boot value,
    then every setting the host holds under that name is applied. *)
Definition DefineCustomIntVariable (env : LoadEnv) (d : config_int)
  (p : Loader) : Loader :=
  let s0 := store_int (ci_variable d) (ci_boot_val d) (l_vars p) in
  {| l_vars := apply_settings [ConfigInt d] (config_file env) s0;
     l_gucs := l_gucs p ++ [ConfigInt d];
     l_registered := l_registered p |}.

Definition DefineCustomStringVariable (env : LoadEnv) (d : config_string)
  (p : Loader) : Loader :=
  let s0 := set_database (cs_boot_val d) (l_vars p) in
  {| l_vars := apply_settings [ConfigString d] (config_file env) s0;
     l_gucs := l_gucs p ++ [ConfigString d];
     l_registered := l_registered p |}.

Definition RegisterBackgroundWorker (worker : BackgroundWorker)
  (p : Loader) : Loader :=
  {| l_vars := l_vars p;
     l_gucs := l_gucs p;
     l_registered := l_registered p ++ [worker] |}.

Definition naptime_guc (s : Statics) : config_int := {|
  ci_name := "pglogical_ticker.naptime";
  ci_short_desc := "Duration between each tick (in seconds).";
  ci_variable := addr_naptime;
  ci_boot_val := pglogical_ticker_naptime s;
  ci_min := 1;
  ci_max := INT_MAX;
  ci_context := PGC_SIGHUP;
  ci_flags := 0
|}.

Definition database_guc (s : Statics) : config_string := {|
  cs_name := "pglogical_ticker.database";
  cs_short_desc := "Database to connect to.";
  cs_boot_val := pglogical_ticker_database s;
  cs_context := PGC_SIGHUP;
  cs_flags := 0
|}.

Definition restart_time_guc (s : Statics) : config_int := {|
  ci_name := "pglogical_ticker.restart_time";
  ci_short_desc :=
    "Seconds after which to restart ticker if it dies. -1 to disable";
  ci_variable := addr_restart_time;
  ci_boot_val := pglogical_ticker_restart_time s;
  ci_min := -1;
  ci_max := INT_MAX;
  ci_context := PGC_SIGHUP;
  ci_flags := 0
|}.

(** [for (i = 1; i <= pglogical_ticker_total_workers; i++)], [i] being an
    [unsigned int].  [n] bounds the number of tests of the loop
    condition. *)
Fixpoint register_loop (n : nat) (i : Z) (worker : BackgroundWorker)
  (p : Loader) : Loader :=
  match n with
  | O => p
  | S n' =>
      if i <=? to_uint32 pglogical_ticker_total_workers then
        let worker :=
          set_bgw_name
            (snprintf_bgw (String.append "pglogical_ticker worker " (fmt_d i)))
            worker in
        let worker := fill_bgw_type worker in
        let worker := set_bgw_main_arg (Int32GetDatum 0) worker in
        register_loop n' (to_uint32 (i + 1)) worker
          (RegisterBackgroundWorker worker p)
      else p
  end.

Definition _PG_init (env : LoadEnv) (p : Loader) : Loader :=
  let p := DefineCustomIntVariable env (naptime_guc (l_vars p)) p in
  let p := DefineCustomStringVariable env (database_guc (l_vars p)) p in
  let p := DefineCustomIntVariable env (restart_time_guc (l_vars p)) p in
  if negb (process_shared_preload_libraries_in_progress env) then p
  else
    match pglogical_ticker_database (l_vars p) with
    | Some _ =>
        let worker := worker_zero in
        let worker :=
          set_bgw_flags
            (Z.lor BGWORKER_SHMEM_ACCESS BGWORKER_BACKEND_DATABASE_CONNECTION)
            worker in
        let worker :=
          set_bgw_start_time BgWorkerStart_RecoveryFinished worker in
        let worker :=
          set_bgw_restart_time (pglogical_ticker_restart_time (l_vars p))
            worker in
        let worker := set_bgw_library_name "pglogical_ticker" worker in
        let worker := set_bgw_function_name "pglogical_ticker_main" worker in
        let worker := set_bgw_notify_pid 0 worker in
        register_loop
          (S (Z.to_nat (to_uint32 pglogical_ticker_total_workers)))
          1 worker p
    | None => p
    end.

(* ===================================================================== *)
(** * [pglogical_ticker_launch] *)
(* ===================================================================== *)

Definition BackgroundWorkerHandle := Z.

Inductive LaunchCall :=
  | RegisterDynamicBackgroundWorker (worker : BackgroundWorker)
  | WaitForBackgroundWorkerStartup (handle : BackgroundWorkerHandle).

(** The backend that runs the function, and the host's answers:
    [registration] is [None] when [RegisterDynamicBackgroundWorker]
    returns false, and the handle otherwise; [startup] is what
    [WaitForBackgroundWorkerStartup] does, a returned status with the
    process id stored through [&pid], or an error raised while waiting. *)
Record LaunchEnv := {
  MyProcPid : Z;
  registration : option BackgroundWorkerHandle;
  startup : Outcome (BgwHandleStatus * Z)
}.

(** What a function called through [fmgr] hands back. *)
Record FmgrResult := {
  isnull : bool;
  value : Datum
}.

Definition PG_RETURN_NULL : FmgrResult := {| isnull := true; value := 0 |}.
Definition PG_RETURN_INT32 (x : Z) : FmgrResult :=
  {| isnull := false; value := Int32GetDatum x |}.

Definition could_not_start : ErrorData := {|
  elevel := ERROR;
  sqlerrcode := ERRCODE_INSUFFICIENT_RESOURCES;
  message := "could not start background process";
  hint := "More details may be available in the server log."
|}.

Definition without_postmaster : ErrorData := {|
  elevel := ERROR;
  sqlerrcode := ERRCODE_INSUFFICIENT_RESOURCES;
  message := "cannot start background processes without postmaster";
  hint := "Kill all remaining database processes and restart the database."
|}.

(** [arg0] is the first argument of the call; the result is the list of
    host calls made and how the function ends.  [Assert(status ==
    BGWH_STARTED)] is compiled in a build with [USE_ASSERT_CHECKING]
    only; in any other build a status that is none of the three tested
    ones falls through to [PG_RETURN_INT32(pid)], with whatever [pid]
    holds. *)
Definition pglogical_ticker_launch (s : Statics) (env : LaunchEnv)
  (arg0 : Datum) : list LaunchCall * Outcome FmgrResult :=
  let db_oid := DatumGetObjectId arg0 in
  let worker := worker_zero in
  let worker :=
    set_bgw_flags
      (Z.lor BGWORKER_SHMEM_ACCESS BGWORKER_BACKEND_DATABASE_CONNECTION)
      worker in
  let worker := set_bgw_start_time BgWorkerStart_RecoveryFinished worker in
  let worker :=
    set_bgw_restart_time (pglogical_ticker_restart_time s) worker in
  let worker := set_bgw_library_name "pglogical_ticker" worker in
  let worker := set_bgw_function_name "pglogical_ticker_main" worker in
  let worker := set_bgw_name (snprintf_bgw "pglogical_ticker worker") worker in
  let worker := fill_bgw_type worker in
  let worker := set_bgw_main_arg (ObjectIdGetDatum db_oid) worker in
  let worker := set_bgw_notify_pid (MyProcPid env) worker in
  match registration env with
  | None => ([RegisterDynamicBackgroundWorker worker], Return PG_RETURN_NULL)
  | Some handle =>
      let calls :=
        [RegisterDynamicBackgroundWorker worker;
         WaitForBackgroundWorkerStartup handle] in
      match startup env with
      | Return (status, pid) =>
          match status with
          | BGWH_STOPPED => (calls, Error could_not_start)
          | BGWH_POSTMASTER_DIED => (calls, Error without_postmaster)
          | BGWH_STARTED => (calls, Return (PG_RETURN_INT32 pid))
          | BGWH_NOT_YET_STARTED =>
              (calls,
               if USE_ASSERT_CHECKING then AssertionFailure
               else Return (PG_RETURN_INT32 pid))
          end
      | Error e => (calls, Error e)
      | ProcExit c => (calls, ProcExit c)
      | AssertionFailure => (calls, AssertionFailure)
      | Blocked => (calls, Blocked)
      | OutOfFuel => (calls, OutOfFuel)
      end
  end.


(* ===================================================================== *)
(** * The worker process *)
(* ===================================================================== *)

(** The two handlers of the module, as the values given to [pqsignal]. *)
Inductive pqsigfunc :=
  | fn_pglogical_ticker_sighup
  | fn_pglogical_ticker_sigterm.

(** The host calls of [pglogical_ticker_main].  Arguments that are the
    same in every call ([MyLatch], the [NULL] user name) are left out; an
    argument that exists only from some host version on is an option. *)
Inductive HostCall :=
  | pqsignal (sig : Signal) (handler : pqsigfunc)
  | BackgroundWorkerUnblockSignals
  | BackgroundWorkerInitializeConnection (dbname : string) (flags : option Z)
  | BackgroundWorkerInitializeConnectionByOid (dboid useroid : Oid)
      (flags : option Z)
  | SetConfigOption (name value : string) (context : GucContext)
      (source : GucSource)
  | elog (level : ErrorLevel) (msg : string)
  | WaitLatch (wakeEvents timeout : Z) (wait_event_info : option Z)
  | ResetLatch
  | CHECK_FOR_INTERRUPTS
  | ProcessConfigFile (context : GucContext)
  | SetCurrentStatementStartTimestamp
  | StartTransactionCommand
  | SPI_connect
  | GetTransactionSnapshot
  | PushActiveSnapshot
  | pgstat_report_activity (state : BackendState) (cmd : option string)
  | SPI_execute (src : string) (read_only : bool) (tcount : Z)
  | SPI_finish
  | PopActiveSnapshot
  | CommitTransactionCommand
  | pgstat_report_stat (force : bool)
  | proc_exit (code : Z).

(** The host's answer to one call: the signals that reach the process
    while the call is in progress, whether the call raises an error
    instead of returning, its return value, and, for
    [ProcessConfigFile], the assignments to custom variables that the
    host attempts while it processes the configuration file, in order (a
    setting found in the file, or the reset of a variable whose setting
    is gone from it). *)
Record Response := {
  delivered : list Signal;
  raises : option ErrorData;
  rv : Z;
  reread : list Setting
}.

(** The worker process: the module's variables, what the host keeps for
    the process (its registration entry, the custom variables defined when
    the library was loaded, the latch, the signal mask and dispositions),
    the host calls made so far, oldest first, and the answers the host is
    still going to give. *)
Record Worker := {
  vars : Statics;
  MyBgworkerEntry : BackgroundWorker;
  gucs : list config_generic;
  latch_is_set : bool;
  sig_blocked : bool;
  sig_pending : list Signal;
  sighup_handler : option pqsigfunc;
  sigterm_handler : option pqsigfunc;
  trace : list HostCall;
  script : list Response
}.

Definition set_vars (v : Statics) (w : Worker) : Worker :=
  {| vars := v;
     MyBgworkerEntry := MyBgworkerEntry w;
     gucs := gucs w;
     latch_is_set := latch_is_set w;
     sig_blocked := sig_blocked w;
     sig_pending := sig_pending w;
     sighup_handler := sighup_handler w;
     sigterm_handler := sigterm_handler w;
     trace := trace w;
     script := script w |}.

Definition set_latch_is_set (v : bool) (w : Worker) : Worker :=
  {| vars := vars w;
     MyBgworkerEntry := MyBgworkerEntry w;
     gucs := gucs w;
     latch_is_set := v;
     sig_blocked := sig_blocked w;
     sig_pending := sig_pending w;
     sighup_handler := sighup_handler w;
     sigterm_handler := sigterm_handler w;
     trace := trace w;
     script := script w |}.

Definition set_sig_blocked (v : bool) (w : Worker) : Worker :=
  {| vars := vars w;
     MyBgworkerEntry := MyBgworkerEntry w;
     gucs := gucs w;
     latch_is_set := latch_is_set w;
     sig_blocked := v;
     sig_pending := sig_pending w;
     sighup_handler := sighup_handler w;
     sigterm_handler := sigterm_handler w;
     trace := trace w;
     script := script w |}.

Definition set_sig_pending (v : list Signal) (w : Worker) : Worker :=
  {| vars := vars w;
     MyBgworkerEntry := MyBgworkerEntry w;
     gucs := gucs w;
     latch_is_set := latch_is_set w;
     sig_blocked := sig_blocked w;
     sig_pending := v;
     sighup_handler := sighup_handler w;
     sigterm_handler := sigterm_handler w;
     trace := trace w;
     script := script w |}.

Definition set_sighup_handler (v : option pqsigfunc) (w : Worker) : Worker :=
  {| vars := vars w;
     MyBgworkerEntry := MyBgworkerEntry w;
     gucs := gucs w;
     latch_is_set := latch_is_set w;
     sig_blocked := sig_blocked w;
     sig_pending := sig_pending w;
     sighup_handler := v;
     sigterm_handler := sigterm_handler w;
     trace := trace w;
     script := script w |}.

Definition set_sigterm_handler (v : option pqsigfunc) (w : Worker) : Worker :=
  {| vars := vars w;
     MyBgworkerEntry := MyBgworkerEntry w;
     gucs := gucs w;
     latch_is_set := latch_is_set w;
     sig_blocked := sig_blocked w;
     sig_pending := sig_pending w;
     sighup_handler := sighup_handler w;
     sigterm_handler := v;
     trace := trace w;
     script := script w |}.

Definition set_trace (v : list HostCall) (w : Worker) : Worker :=
  {| vars := vars w;
     MyBgworkerEntry := MyBgworkerEntry w;
     gucs := gucs w;
     latch_is_set := latch_is_set w;
     sig_blocked := sig_blocked w;
     sig_pending := sig_pending w;
     sighup_handler := sighup_handler w;
     sigterm_handler := sigterm_handler w;
     trace := v;
     script := script w |}.

Definition set_script (v : list Response) (w : Worker) : Worker :=
  {| vars := vars w;
     MyBgworkerEntry := MyBgworkerEntry w;
     gucs := gucs w;
     latch_is_set := latch_is_set w;
     sig_blocked := sig_blocked w;
     sig_pending := sig_pending w;
     sighup_handler := sighup_handler w;
     sigterm_handler := sigterm_handler w;
     trace := trace w;
     script := v |}.

(** ** Signal handlers *)

Definition SetLatch (w : Worker) : Worker := set_latch_is_set true w.

(** [errno] is saved on entry and restored on exit, so a handler leaves it
    as it was; it is not part of the state. *)
Definition pglogical_ticker_sigterm (w : Worker) : Worker :=
  let w := set_vars (set_got_sigterm true (vars w)) w in
  SetLatch w.

Definition pglogical_ticker_sighup (w : Worker) : Worker :=
  let w := set_vars (set_got_sighup true (vars w)) w in
  SetLatch w.

Definition run_handler (h : pqsigfunc) (w : Worker) : Worker :=
  match h with
  | fn_pglogical_ticker_sighup => pglogical_ticker_sighup w
  | fn_pglogical_ticker_sigterm => pglogical_ticker_sigterm w
  end.

Definition handler_of (sig : Signal) (w : Worker) : option pqsigfunc :=
  match sig with
  | SIGHUP => sighup_handler w
  | SIGTERM => sigterm_handler w
  end.

(** A signal that arrives while signals are blocked stays pending.  A
    signal for which the module has installed no handler yet is left to
    the host's own disposition and does not touch the module's state; the
    case does not arise in a run that starts with signals blocked, since
    both handlers are installed before signals are unblocked. *)
Definition deliver (w : Worker) (sig : Signal) : Worker :=
  if sig_blocked w then set_sig_pending (sig_pending w ++ [sig]) w
  else
    match handler_of sig w with
    | Some h => run_handler h w
    | None => w
    end.

Definition deliver_all (sigs : list Signal) (w : Worker) : Worker :=
  fold_left deliver sigs w.

(** ** Sequencing *)

Definition M (A : Type) : Type := Worker -> Outcome A * Worker.

Definition ret {A} (a : A) : M A := fun w => (Return a, w).

Definition bind {A B} (m : M A) (k : A -> M B) : M B := fun w =>
  match m w with
  | (Return a, w') => k a w'
  | (Error e, w') => (Error e, w')
  | (ProcExit c, w') => (ProcExit c, w')
  | (AssertionFailure, w') => (AssertionFailure, w')
  | (Blocked, w') => (Blocked, w')
  | (OutOfFuel, w') => (OutOfFuel, w')
  end.

Notation "x <- m ;; k" := (bind m (fun x => k))
  (at level 61, m at next level, right associativity).
Notation "m ;; k" := (bind m (fun _ => k))
  (at level 61, right associativity).

Definition gets {A} (f : Worker -> A) : M A := fun w => (Return (f w), w).

Definition modify (f : Worker -> Worker) : M unit :=
  fun w => (Return tt, f w).

Definition log (c : HostCall) (w : Worker) : Worker :=
  set_trace (trace w ++ [c]) w.

(** One host call: it is recorded; if the host has no answer left the
    observation ends inside the call; otherwise the signals of the answer
    are delivered and the call returns or raises. *)
Definition call (c : HostCall) : M Response := fun w =>
  let w := log c w in
  match script w with
  | [] => (Blocked, w)
  | r :: rest =>
      let w := deliver_all (delivered r) (set_script rest w) in
      match raises r with
      | None => (Return r, w)
      | Some e => (Error e, w)
      end
  end.

(** [proc_exit(code)] does not return. *)
Definition terminate {A} (code : Z) : M A :=
  fun w => (ProcExit code, log (proc_exit code) w).

(** ** [pglogical_ticker_main] *)

(** From the entry of the function to the loop; the result is the
    statement text built in [buf]. *)
Definition main_startup (main_arg : Datum) : M string :=
  let db_oid_main := DatumGetObjectId main_arg in
  modify (set_sighup_handler (Some fn_pglogical_ticker_sighup)) ;;
  call (pqsignal SIGHUP fn_pglogical_ticker_sighup) ;;
  modify (set_sigterm_handler (Some fn_pglogical_ticker_sigterm)) ;;
  call (pqsignal SIGTERM fn_pglogical_ticker_sigterm) ;;
  modify (fun w =>
    deliver_all (sig_pending w) (set_sig_pending [] (set_sig_blocked false w))) ;;
  call BackgroundWorkerUnblockSignals ;;
  database <- gets (fun w => pglogical_ticker_database (vars w)) ;;
  match database with
  | Some name =>
      call (BackgroundWorkerInitializeConnection name
              (if 110000 <=? PG_VERSION_NUM then Some 0 else None))
  | None =>
      call (BackgroundWorkerInitializeConnectionByOid db_oid_main InvalidOid
              (if 110000 <=? PG_VERSION_NUM then Some 0 else None))
  end ;;
  name <- gets (fun w => bgw_name (MyBgworkerEntry w)) ;;
  call (SetConfigOption "application_name" name PGC_USERSET PGC_S_SESSION) ;;
  call (elog LOG (String.append name " initialized")) ;;
  let buf := EmptyString in
  let buf := String.append buf "SELECT pglogical_ticker.tick();" in
  ret buf.

(** The transaction of one iteration. *)
Definition main_tick (buf : string) : M unit :=
  call SetCurrentStatementStartTimestamp ;;
  call StartTransactionCommand ;;
  call SPI_connect ;;
  call GetTransactionSnapshot ;;
  call PushActiveSnapshot ;;
  call (pgstat_report_activity STATE_RUNNING (Some buf)) ;;
  call (SPI_execute buf false 0) ;;
  call SPI_finish ;;
  call PopActiveSnapshot ;;
  call CommitTransactionCommand ;;
  call (pgstat_report_stat false) ;;
  call (pgstat_report_activity STATE_IDLE None) ;;
  ret tt.

(** The loop body up to the interrupt check: the wait on the latch and
    the bailout when the postmaster has died.  In
    [pglogical_ticker_naptime * 1000L] the [int] is converted to [long]
    and the product is a [long]. *)
Definition main_wait : M unit :=
  naptime <- gets (fun w => pglogical_ticker_naptime (vars w)) ;;
  r <- call (WaitLatch
               (Z.lor (Z.lor WL_LATCH_SET WL_TIMEOUT) WL_POSTMASTER_DEATH)
               (to_long (naptime * 1000))
               (if 100000 <=? PG_VERSION_NUM
                then Some PG_WAIT_EXTENSION else None)) ;;
  let rc := rv r in
  modify (set_latch_is_set false) ;;
  call ResetLatch ;;
  (if negb (Z.land rc WL_POSTMASTER_DEATH =? 0)
   then terminate 1 else ret tt) ;;
  call CHECK_FOR_INTERRUPTS ;;
  ret tt.

(** [if (got_sighup) { got_sighup = false; ProcessConfigFile(PGC_SIGHUP); }]:
    the host applies the settings it reads to the variables defined by
    the library. *)
Definition main_reload : M unit :=
  sighup <- gets (fun w => got_sighup (vars w)) ;;
  if sighup
  then
    modify (fun w => set_vars (set_got_sighup false (vars w)) w) ;;
    r <- call (ProcessConfigFile PGC_SIGHUP) ;;
    modify (fun w =>
      set_vars (apply_settings (gucs w) (reread r) (vars w)) w)
  else ret tt.

(** The body of the [while] loop. *)
Definition main_cycle (buf : string) : M unit :=
  main_wait ;;
  main_reload ;;
  main_tick buf.

(** [while (!got_sigterm) { ... }].  [fuel] bounds the number of
    iterations; [main_loop_fuel] shows that the bound chosen in
    [main_run] is never reached. *)
Fixpoint main_loop (fuel : nat) (buf : string) (w : Worker)
  : Outcome unit * Worker :=
  if got_sigterm (vars w) then (Return tt, w)
  else
    match fuel with
    | O => (OutOfFuel, w)
    | S fuel' => (main_cycle buf ;; main_loop fuel' buf) w
    end.

(** The loop and the [proc_exit(1)] after it.  Each iteration takes at
    least one answer of the host, so there are at most as many iterations
    as answers. *)
Definition main_run (buf : string) : M Empty_set :=
  fuel <- gets (fun w => S (List.length (script w))) ;;
  main_loop fuel buf ;;
  terminate 1.

(** The function does not return ([pg_attribute_noreturn]). *)
Definition pglogical_ticker_main (main_arg : Datum) : M Empty_set :=
  buf <- main_startup main_arg ;;
  main_run buf.

(** The worker process when the host calls [pglogical_ticker_main]:
    signals are blocked, the module has installed no handler, no call has
    been made. *)
Definition worker_entry (s : Statics) (entry : BackgroundWorker)
  (table : list config_generic) (answers : list Response) : Worker := {|
  vars := s;
  MyBgworkerEntry := entry;
  gucs := table;
  latch_is_set := false;
  sig_blocked := true;
  sig_pending := [];
  sighup_handler := None;
  sigterm_handler := None;
  trace := [];
  script := answers
|}.



(* ===================================================================== *)
(** * Vocabulary of the statements *)
(* ===================================================================== *)

(** The range that the definitions of [_PG_init] give to the two integer
    variables. *)
Definition in_bounds (s : Statics) : Prop :=
  1 <= pglogical_ticker_naptime s <= INT_MAX
  /\ -1 <= pglogical_ticker_restart_time s <= INT_MAX.

(** A definition whose range lies within the range [_PG_init] gives to
    the variable it writes. *)
Definition narrow (g : config_generic) : Prop :=
  match g with
  | ConfigInt d =>
      match ci_variable d with
      | addr_naptime => 1 <= ci_min d /\ ci_max d <= INT_MAX
      | addr_restart_time => -1 <= ci_min d /\ ci_max d <= INT_MAX
      end
  | ConfigString _ => True
  end.

(** What the host holds for an integer variable after the assignments
    [sts], attempted in order: the value of the last one made under the
    variable's name and within its range, or [v0] when there is none. *)
Definition last_int (name : string) (lo hi : Z) (sts : list Setting)
  (v0 : Z) : Z :=
  fold_left
    (fun v st =>
       if String.eqb name (fst st) then
         match snd st with
         | GucInt x => if (lo <=? x) && (x <=? hi) then x else v
         | GucString _ => v
         end
       else v)
    sts v0.

(** The same for a string variable, which has no range. *)
Definition last_string (name : string) (sts : list Setting)
  (v0 : option string) : option string :=
  fold_left
    (fun v st =>
       if String.eqb name (fst st) then
         match snd st with
         | GucString x => x
         | GucInt _ => v
         end
       else v)
    sts v0.

(** The three definitions, applied to a loader. *)
Definition defined (env : LoadEnv) (p : Loader) : Loader :=
  let p := DefineCustomIntVariable env (naptime_guc (l_vars p)) p in
  let p := DefineCustomStringVariable env (database_guc (l_vars p)) p in
  DefineCustomIntVariable env (restart_time_guc (l_vars p)) p.

(** The worker descriptor as [_PG_init] has filled it before its loop. *)
Definition static_common (restart_time : Z) : BackgroundWorker :=
  set_bgw_notify_pid 0
    (set_bgw_function_name "pglogical_ticker_main"
       (set_bgw_library_name "pglogical_ticker"
          (set_bgw_restart_time restart_time
             (set_bgw_start_time BgWorkerStart_RecoveryFinished
                (set_bgw_flags
                   (Z.lor BGWORKER_SHMEM_ACCESS
                      BGWORKER_BACKEND_DATABASE_CONNECTION)
                   worker_zero))))).

(** Signals reach the module's handlers. *)
Definition ready (w : Worker) : Prop :=
  sig_blocked w = false
  /\ sighup_handler w = Some fn_pglogical_ticker_sighup
  /\ sigterm_handler w = Some fn_pglogical_ticker_sigterm.

Definition has_signal (sig : Signal) (sigs : list Signal) : bool :=
  existsb (Signal_eqb sig) sigs.

(** What the two handlers, run for the signals [sigs], leave in the
    flags. *)
Definition signal_flags (sigs : list Signal) (s : Statics) : Statics :=
  {| got_sighup := got_sighup s || has_signal SIGHUP sigs;
     got_sigterm := got_sigterm s || has_signal SIGTERM sigs;
     pglogical_ticker_naptime := pglogical_ticker_naptime s;
     pglogical_ticker_database := pglogical_ticker_database s;
     pglogical_ticker_restart_time := pglogical_ticker_restart_time s |}.

(** Signal delivery touches the flags, the latch and the pending set
    only. *)
Definition same_frame (w w' : Worker) : Prop :=
  trace w' = trace w
  /\ script w' = script w
  /\ gucs w' = gucs w
  /\ MyBgworkerEntry w' = MyBgworkerEntry w
  /\ pglogical_ticker_naptime (vars w') = pglogical_ticker_naptime (vars w)
  /\ pglogical_ticker_database (vars w') = pglogical_ticker_database (vars w)
  /\ pglogical_ticker_restart_time (vars w')
     = pglogical_ticker_restart_time (vars w).

(** ... and leaves the signal mask and the dispositions as they are. *)
Definition same_signals (w w' : Worker) : Prop :=
  sig_blocked w' = sig_blocked w
  /\ sighup_handler w' = sighup_handler w
  /\ sigterm_handler w' = sigterm_handler w.

Definition returns (r : Response) : Prop := raises r = None.

Definition signals_of (rs : list Response) : list Signal :=
  List.concat (map delivered rs).

(** The unit of work is the [SPI_execute] call. *)
Definition is_tick (c : HostCall) : bool :=
  match c with SPI_execute _ _ _ => true | _ => false end.

Definition is_wait (c : HostCall) : bool :=
  match c with WaitLatch _ _ _ => true | _ => false end.

Definition is_connect (c : HostCall) : bool :=
  match c with
  | BackgroundWorkerInitializeConnection _ _
  | BackgroundWorkerInitializeConnectionByOid _ _ _ => true
  | _ => false
  end.

Definition not_connect (c : HostCall) : Prop := is_connect c = false.

Definition ticks (calls : list HostCall) : nat :=
  List.length (filter is_tick calls).

Definition waits (calls : list HostCall) : nat :=
  List.length (filter is_wait calls).



(** The host calls of [main_tick], in order. *)
Definition tick_calls (buf : string) : list HostCall :=
  [SetCurrentStatementStartTimestamp; StartTransactionCommand; SPI_connect;
   GetTransactionSnapshot; PushActiveSnapshot;
   pgstat_report_activity STATE_RUNNING (Some buf);
   SPI_execute buf false 0;
   SPI_finish; PopActiveSnapshot; CommitTransactionCommand;
   pgstat_report_stat false;
   pgstat_report_activity STATE_IDLE None].

(** The [WaitLatch] call of [main_wait]. *)
Definition wait_call (naptime : Z) : HostCall :=
  WaitLatch (Z.lor (Z.lor WL_LATCH_SET WL_TIMEOUT) WL_POSTMASTER_DEATH)
    (to_long (naptime * 1000))
    (if 100000 <=? PG_VERSION_NUM then Some PG_WAIT_EXTENSION else None).

(** A sequence of host calls whose results are not used. *)
Fixpoint call_seq (cs : list HostCall) : M unit :=
  match cs with
  | [] => ret tt
  | c :: cs' => call c ;; call_seq cs'
  end.

(** The process after the host has answered call [c] with [r]. *)
Definition answered (c : HostCall) (r : Response) (rs : list Response)
  (w : Worker) : Worker :=
  deliver_all (delivered r) (set_script rs (log c w)).

(** A computation that never runs out of fuel, that exits, when it does,
    with status 1, and that does not add to the answers still to come. *)
Definition sane {A} (m : M A) : Prop :=
  forall w o w',
    m w = (o, w') ->
    o <> OutOfFuel
    /\ (forall c, o = ProcExit c -> c = 1)
    /\ (List.length (script w') <= List.length (script w))%nat.

(** A computation that takes at least one answer when it returns. *)
Definition strict {A} (m : M A) : Prop :=
  forall w a w',
    m w = (Return a, w') ->
    (List.length (script w') < List.length (script w))%nat.

(** A computation that only adds calls satisfying [P] to the trace. *)
Definition emits (P : HostCall -> Prop) {A} (m : M A) : Prop :=
  forall w o w',
    m w = (o, w') ->
    exists new, trace w' = trace w ++ new /\ Forall P new.

(* ===================================================================== *)
(** * Vocabulary of the further properties *)
(* ===================================================================== *)

(** The names under which [_PG_init] defines its variables. *)
Definition guc_names : list string :=
  ["pglogical_ticker.naptime"; "pglogical_ticker.database";
   "pglogical_ticker.restart_time"]%string.

(** Two states of the module's variables with the same configuration. *)
Definition same_gucs (s s' : Statics) : Prop :=
  pglogical_ticker_naptime s' = pglogical_ticker_naptime s
  /\ pglogical_ticker_database s' = pglogical_ticker_database s
  /\ pglogical_ticker_restart_time s' = pglogical_ticker_restart_time s.

(** The host calls of [main_startup], in order. *)
Definition startup_calls (main_arg : Datum) (database : option string)
  (name : string) : list HostCall :=
  [pqsignal SIGHUP fn_pglogical_ticker_sighup;
   pqsignal SIGTERM fn_pglogical_ticker_sigterm;
   BackgroundWorkerUnblockSignals;
   match database with
   | Some dbname =>
       BackgroundWorkerInitializeConnection dbname
         (if 110000 <=? PG_VERSION_NUM then Some 0 else None)
   | None =>
       BackgroundWorkerInitializeConnectionByOid (DatumGetObjectId main_arg)
         InvalidOid (if 110000 <=? PG_VERSION_NUM then Some 0 else None)
   end;
   SetConfigOption "application_name" name PGC_USERSET PGC_S_SESSION;
   elog LOG (String.append name " initialized")].

(** A trace is paced when every unit of work comes after a [WaitLatch]
    that no earlier unit of work has used: [armed] tells whether such a
    wait has been seen. *)
Fixpoint paced (armed : bool) (calls : list HostCall) : bool :=
  match calls with
  | [] => true
  | c :: calls' =>
      if is_wait c then paced true calls'
      else if is_tick c then armed && paced false calls'
      else paced armed calls'
  end.

(** A [WaitLatch] call whose timeout is at least one second and below
    2^63. *)
Definition good_wait (c : HostCall) : Prop :=
  match c with
  | WaitLatch _ timeout _ => 1000 <= timeout < 2 ^ 63
  | _ => True
  end.

(** The configuration is within the declared ranges, and so is whatever a
    reload can make of it. *)
Definition configured (w : Worker) : Prop :=
  in_bounds (vars w) /\ Forall narrow (gucs w).

(** A computation that keeps the configuration within the declared ranges
    and only waits with a good timeout. *)
Definition keeps {A} (m : M A) : Prop :=
  forall w o w',
    configured w ->
    m w = (o, w') ->
    configured w'
    /\ exists new, trace w' = trace w ++ new /\ Forall good_wait new.

(** Whether the iteration that starts in [w], the host answering with
    [rs], re-reads the configuration: [got_sighup] is set at the test
    when it was set before the iteration or a [SIGHUP] arrives during one
    of the three calls made before the test ([WaitLatch], [ResetLatch],
    [CHECK_FOR_INTERRUPTS]). *)
Definition reloads (w : Worker) (rs : list Response) : bool :=
  got_sighup (vars w) || has_signal SIGHUP (signals_of (firstn 3 rs)).

(** The number of host calls of an iteration whose calls all return. *)
Definition cycle_calls (reload : bool) : nat :=
  if reload then 16%nat else 15%nat.

(** Neither a wait nor a unit of work. *)
Definition quiet (c : HostCall) : Prop :=
  is_wait c = false /\ is_tick c = false.

(** A list of calls that is paced whether or not a wait is pending when
    it starts. *)
Definition steady (calls : list HostCall) : Prop :=
  forall armed, paced armed calls = true.

End Ticker.

(* ===================================================================== *)
(** * Concrete inputs *)
(* ===================================================================== *)

(** A host that preloads the library with
    [pglogical_ticker.database = 'postgres'] and restarts disabled. *)
Definition preload_env : LoadEnv := {|
  process_shared_preload_libraries_in_progress := true;
  config_file :=
    [("pglogical_ticker.database"%string, GucString (Some "postgres"%string));
     ("pglogical_ticker.restart_time"%string, GucInt (-1))]
|}.

Definition preloaded : Loader := @_PG_init pg11_headers preload_env loader_init.

(** A backend that loads the library on demand, with no setting for it. *)
Definition backend_env : LoadEnv := {|
  process_shared_preload_libraries_in_progress := false;
  config_file := []
|}.

(** The host's answer to a call during which nothing happens. *)
Definition ok : Response :=
  {| delivered := []; raises := None; rv := 0; reread := [] |}.

(** [WaitLatch] returning [WL_LATCH_SET] after signal [sig] has set the
    latch. *)
Definition woken_by (sig : Signal) : Response :=
  {| delivered := [sig]; raises := None; rv := 1; reread := [] |}.

(** [WaitLatch] returning [WL_TIMEOUT]. *)
Definition timed_out : Response :=
  {| delivered := []; raises := None; rv := 8; reread := [] |}.

(** [WaitLatch] returning [WL_POSTMASTER_DEATH]. *)
Definition postmaster_gone : Response :=
  {| delivered := []; raises := None; rv := 16; reread := [] |}.

Definition tick_failed : ErrorData := {|
  elevel := ERROR;
  sqlerrcode := 52461700;
  message := "function pglogical_ticker.tick() does not exist";
  hint := EmptyString
|}.

(** A call that raises [tick_failed]. *)
Definition failing : Response :=
  {| delivered := []; raises := Some tick_failed; rv := 0; reread := [] |}.

(** The statically registered worker at the entry of
    [pglogical_ticker_main], the host having [answers] to give. *)
Definition static_worker (answers : list Response) : Worker :=
  worker_entry (l_vars preloaded)
    (hd worker_zero (l_registered preloaded))
    (l_gucs preloaded) answers.

(** The same worker at the head of the loop: its six start-up calls have
    returned. *)
Definition looping_worker (answers : list Response) : Worker :=
  snd (@main_startup pg11_headers 0 (static_worker (repeat ok 6 ++ answers))).

Definition tick_sql : string := "SELECT pglogical_ticker.tick();".

(** [SIGTERM] arrives during the first wait. *)
Definition shutdown_run : Outcome Empty_set * Worker :=
  @pglogical_ticker_main pg11_headers 0
    (static_worker (repeat ok 6 ++ woken_by SIGTERM :: repeat ok 14)).


(** The first wait times out and [SPI_execute] raises an error; the host
    would have answered forty more calls. *)
Definition failing_run : Outcome Empty_set * Worker :=
  @pglogical_ticker_main pg11_headers 0
    (static_worker
       (repeat ok 6 ++ timed_out :: repeat ok 8 ++ failing :: repeat ok 40)).

(** A backend with process id 77 calls
    [pglogical_ticker.launch(16384)]. *)
Definition registry_full : LaunchEnv := {|
  MyProcPid := 77;
  registration := None;
  startup := Blocked
|}.

Definition started_4242 : LaunchEnv := {|
  MyProcPid := 77;
  registration := Some 1;
  startup := Return (BGWH_STARTED, 4242)
|}.

Definition stopped : LaunchEnv := {|
  MyProcPid := 77;
  registration := Some 1;
  startup := Return (BGWH_STOPPED, 0)
|}.

Definition postmaster_died : LaunchEnv := {|
  MyProcPid := 77;
  registration := Some 1;
  startup := Return (BGWH_POSTMASTER_DIED, 0)
|}.

(** The worker that [pglogical_ticker.launch(16384)] registers, at the
    entry of [pglogical_ticker_main], in a host where
    [pglogical_ticker.database] is not set. *)
Definition launched_descriptor : BackgroundWorker :=
  match fst (@pglogical_ticker_launch pg11_headers statics_init started_4242
               16384) with
  | RegisterDynamicBackgroundWorker worker :: _ => worker
  | _ => worker_zero
  end.

Definition launched_worker (answers : list Response) : Worker :=
  worker_entry
    (l_vars (@_PG_init pg11_headers backend_env loader_init))
    launched_descriptor
    (l_gucs (@_PG_init pg11_headers backend_env loader_init))
    answers.

(** The same preloading host, built against PostgreSQL 9.6. *)
Definition preloaded_96 : Loader := @_PG_init pg96_headers preload_env loader_init.

(** A host that preloads the library and holds a setting of its own
    only. *)
Definition unrelated_env : LoadEnv := {|
  process_shared_preload_libraries_in_progress := true;
  config_file := [("shared_buffers"%string, GucInt 16384)]
|}.

(** A call during which the host delivers signal [sig]. *)
Definition signalled (sig : Signal) : Response :=
  {| delivered := [sig]; raises := None; rv := 0; reread := [] |}.

(** [ProcessConfigFile] finding [pglogical_ticker.naptime = n]. *)
Definition naptime_read (n : Z) : Response :=
  {| delivered := [];
     raises := None;
     rv := 0;
     reread := [("pglogical_ticker.naptime"%string, GucInt n)] |}.

Definition query_cancelled : ErrorData := {|
  elevel := ERROR;
  sqlerrcode := 67371461;
  message := "canceling statement due to user request";
  hint := EmptyString
|}.

(** [CHECK_FOR_INTERRUPTS] raising [query_cancelled]. *)
Definition cancelling : Response :=
  {| delivered := []; raises := Some query_cancelled; rv := 0; reread := [] |}.

(** An iteration woken by [SIGHUP] in which the configuration file is
    found to set the nap time to 3 seconds. *)
Definition reload_to_3 : list Response :=
  woken_by SIGHUP :: ok :: ok :: naptime_read 3 :: repeat ok 12.

(** An iteration woken by [SIGHUP] in which the configuration file is
    found to set the nap time to 0 seconds. *)
Definition reload_to_0 : list Response :=
  woken_by SIGHUP :: ok :: ok :: naptime_read 0 :: repeat ok 12.

(** An iteration whose wait times out, with a [SIGHUP] during
    [ResetLatch] and another during [ProcessConfigFile]. *)
Definition reload_late : list Response :=
  timed_out :: signalled SIGHUP :: ok :: signalled SIGHUP :: repeat ok 12.

(** An iteration woken by [SIGHUP] in which [SIGTERM] arrives during the
    last call of the unit of work; the host would have answered four more
    calls. *)
Definition term_in_last_call : list Response :=
  woken_by SIGHUP :: repeat ok 14 ++ signalled SIGTERM :: repeat ok 4.

(** A PostgreSQL 11 build on 64-bit Windows, where [long] has 32 bits. *)
Definition win64_headers : HostHeaders := {|
  PG_VERSION_NUM := 110000;
  SIZEOF_DATUM := Datum8;
  SIZEOF_LONG := Long4;
  USE_ASSERT_CHECKING := false;
  BGW_MAXLEN := 96;
  BGWORKER_SHMEM_ACCESS := 1;
  BGWORKER_BACKEND_DATABASE_CONNECTION := 2;
  WL_LATCH_SET := 1;
  WL_TIMEOUT := 8;
  WL_POSTMASTER_DEATH := 16;
  PG_WAIT_EXTENSION := 117440512;
  ERRCODE_INSUFFICIENT_RESOURCES := 197
|}.

(** A PostgreSQL 11 build with assertion checking. *)
Definition cassert_headers : HostHeaders := {|
  PG_VERSION_NUM := 110000;
  SIZEOF_DATUM := Datum8;
  SIZEOF_LONG := Long8;
  USE_ASSERT_CHECKING := true;
  BGW_MAXLEN := 96;
  BGWORKER_SHMEM_ACCESS := 1;
  BGWORKER_BACKEND_DATABASE_CONNECTION := 2;
  WL_LATCH_SET := 1;
  WL_TIMEOUT := 8;
  WL_POSTMASTER_DEATH := 16;
  PG_WAIT_EXTENSION := 117440512;
  ERRCODE_INSUFFICIENT_RESOURCES := 197
|}.

(** A wait for the start that reports [BGWH_NOT_YET_STARTED], [pid]
    holding 0. *)
Definition not_yet_started : LaunchEnv := {|
  MyProcPid := 77;
  registration := Some 1;
  startup := Return (BGWH_NOT_YET_STARTED, 0)
|}.

(** A worker whose nap time is 2147484 seconds, at the head of the
    loop. *)
Definition long_nap (answers : list Response) : Worker :=
  worker_entry (set_naptime 2147484 statics_init) worker_zero [] answers.

(* ===================================================================== *)
(** * Properties *)
(* ===================================================================== *)

Section Properties.

Context {HH : HostHeaders}.

(* ===================================================================== *)
(** * Properties of [pglogical_ticker_launch] *)
(* ===================================================================== *)

Lemma to_int32_Datum (x : Z) :
  - 2 ^ 31 <= x < 2 ^ 31 -> DatumGetInt32 (Int32GetDatum x) = x.
Proof.
  intros Hx.
  unfold DatumGetInt32, Int32GetDatum, to_Datum, to_int32, datum_bits.
  change (2 ^ 31) with 2147483648 in *.
  change (2 ^ 32) with 4294967296.
  destruct SIZEOF_DATUM.
  - change (2 ^ 32) with 4294967296.
    Z.div_mod_to_equations. lia.
  - change (2 ^ 64) with 18446744073709551616.
    Z.div_mod_to_equations. lia.
Qed.

Lemma DatumGetObjectId_zero : DatumGetObjectId (Int32GetDatum 0) = InvalidOid.
Proof.
  unfold DatumGetObjectId, Int32GetDatum, to_Datum, to_uint32.
  rewrite Z.mod_0_l; [reflexivity |].
  unfold datum_bits. destruct SIZEOF_DATUM; compute; congruence.
Qed.

(** The Oid given to [pglogical_ticker_launch] is the Oid that the
    launched worker reads from its main argument. *)
Lemma launched_oid_roundtrip (arg0 : Datum) :
  DatumGetObjectId (ObjectIdGetDatum (DatumGetObjectId arg0))
  = DatumGetObjectId arg0.
Proof.
  unfold DatumGetObjectId, ObjectIdGetDatum, to_Datum, to_uint32, datum_bits.
  change (2 ^ 32) with 4294967296.
  destruct SIZEOF_DATUM.
  - change (2 ^ 32) with 4294967296.
    Z.div_mod_to_equations. lia.
  - change (2 ^ 64) with 18446744073709551616.
    Z.div_mod_to_equations. lia.
Qed.

(** C4 (as amended): when [RegisterDynamicBackgroundWorker] fails,
    [pglogical_ticker_launch] returns SQL NULL to its caller, without
    raising an error; the failed registration is the only host call it
    has made (it does not wait for a start acknowledgement). *)
Theorem launch_registration_failure_returns_null :
  forall (s : Statics) (env : LaunchEnv) (arg0 : Datum),
    registration env = None ->
    exists worker,
      pglogical_ticker_launch s env arg0 =
        ([RegisterDynamicBackgroundWorker worker], Return PG_RETURN_NULL)
      /\ isnull PG_RETURN_NULL = true.
Proof.
  intros s env arg0 Hreg. unfold pglogical_ticker_launch.
  rewrite Hreg. eexists. split; reflexivity.
Qed.

(** C5 (as amended): when the start-acknowledgement wait reports that the
    postmaster died, [pglogical_ticker_launch] fails with an error that
    has the same error code, [ERRCODE_INSUFFICIENT_RESOURCES], as the
    error raised when the wait reports [BGWH_STOPPED]; the two errors
    differ in their message and hint only. *)
Theorem launch_postmaster_died_same_errcode :
  forall (s : Statics) (env : LaunchEnv) (arg0 : Datum)
         (handle : BackgroundWorkerHandle) (pid : Z),
    registration env = Some handle ->
    startup env = Return (BGWH_POSTMASTER_DIED, pid) ->
    snd (pglogical_ticker_launch s env arg0) = Error without_postmaster
    /\ (forall env' handle' pid',
          registration env' = Some handle' ->
          startup env' = Return (BGWH_STOPPED, pid') ->
          snd (pglogical_ticker_launch s env' arg0) = Error could_not_start)
    /\ sqlerrcode without_postmaster = ERRCODE_INSUFFICIENT_RESOURCES
    /\ sqlerrcode could_not_start = ERRCODE_INSUFFICIENT_RESOURCES
    /\ message without_postmaster <> message could_not_start
    /\ hint without_postmaster <> hint could_not_start.
Proof.
  intros s env arg0 handle pid Hreg Hst.
  split; [| split; [| repeat split]].
  - unfold pglogical_ticker_launch. rewrite Hreg, Hst. reflexivity.
  - intros env' handle' pid' Hreg' Hst'.
    unfold pglogical_ticker_launch. rewrite Hreg', Hst'. reflexivity.
  - discriminate.
  - discriminate.
Qed.

(** C6: when registration succeeds and the start-acknowledgement wait
    reports [BGWH_STARTED] with process id [pid], [pglogical_ticker_launch]
    returns [pid] (a non-null int4), whatever database identity it was
    given; [pid] is any value of a 32-bit [pid_t]. *)
Theorem launch_started_returns_pid :
  forall (s : Statics) (env : LaunchEnv) (arg0 : Datum)
         (handle : BackgroundWorkerHandle) (pid : Z),
    registration env = Some handle ->
    startup env = Return (BGWH_STARTED, pid) ->
    - 2 ^ 31 <= pid < 2 ^ 31 ->
    exists result,
      snd (pglogical_ticker_launch s env arg0) = Return result
      /\ isnull result = false
      /\ DatumGetInt32 (value result) = pid.
Proof.
  intros s env arg0 handle pid Hreg Hst Hpid.
  exists (PG_RETURN_INT32 pid). split; [| split].
  - unfold pglogical_ticker_launch. rewrite Hreg, Hst. reflexivity.
  - reflexivity.
  - apply to_int32_Datum. exact Hpid.
Qed.


(* ===================================================================== *)
(** * Properties of [_PG_init] *)
(* ===================================================================== *)

Lemma find_guc_In name table g :
  find_guc name table = Some g -> In g table.
Proof.
  induction table as [| g' table IH]; simpl; [discriminate |].
  destruct (String.eqb (guc_name g') name).
  - intros [= ->]. now left.
  - intros H. right. now apply IH.
Qed.

Lemma assign_int_bounds d v s :
  narrow (ConfigInt d) -> in_bounds s -> in_bounds (assign_int d v s).
Proof.
  unfold narrow, in_bounds, assign_int, int_in_range.
  intros Hd Hs.
  destruct (ci_min d <=? v) eqn:Hlo; simpl; [| exact Hs].
  destruct (v <=? ci_max d) eqn:Hhi; simpl; [| exact Hs].
  apply Z.leb_le in Hlo, Hhi.
  destruct (ci_variable d); simpl; lia.
Qed.

Lemma apply_setting_bounds table s st :
  Forall narrow table -> in_bounds s -> in_bounds (apply_setting table s st).
Proof.
  intros Htable Hs. unfold apply_setting.
  destruct (find_guc (fst st) table) as [[d | d] |] eqn:Hfind;
    destruct (snd st); try exact Hs.
  apply assign_int_bounds; [| exact Hs].
  apply find_guc_In in Hfind.
  rewrite Forall_forall in Htable. exact (Htable _ Hfind).
Qed.

Lemma apply_settings_bounds table sts s :
  Forall narrow table -> in_bounds s -> in_bounds (apply_settings table sts s).
Proof.
  intros Htable. unfold apply_settings. revert s.
  induction sts as [| st sts IH]; intros s Hs; simpl; [exact Hs |].
  apply IH. now apply apply_setting_bounds.
Qed.

Lemma register_loop_vars n i worker p :
  l_vars (register_loop n i worker p) = l_vars p
  /\ l_gucs (register_loop n i worker p) = l_gucs p.
Proof.
  revert i worker p. induction n as [| n IH]; intros i worker p;
    cbn [register_loop].
  - split; reflexivity.
  - destruct (i <=? to_uint32 pglogical_ticker_total_workers);
      [| split; reflexivity].
    match goal with
    | |- context [register_loop n ?j ?wk ?q] =>
        destruct (IH j wk q) as [E1 E2]
    end.
    rewrite E1, E2. split; reflexivity.
Qed.

Lemma PG_init_eq env p :
  _PG_init env p =
    if negb (process_shared_preload_libraries_in_progress env)
    then defined env p
    else
      match pglogical_ticker_database (l_vars (defined env p)) with
      | Some _ =>
          register_loop
            (S (Z.to_nat (to_uint32 pglogical_ticker_total_workers))) 1
            (static_common
               (pglogical_ticker_restart_time (l_vars (defined env p))))
            (defined env p)
      | None => defined env p
      end.
Proof. reflexivity. Qed.

Lemma PG_init_vars env p :
  l_vars (_PG_init env p) = l_vars (defined env p)
  /\ l_gucs (_PG_init env p) = l_gucs (defined env p).
Proof.
  rewrite PG_init_eq. generalize (defined env p). intros q.
  destruct (negb (process_shared_preload_libraries_in_progress env));
    [split; reflexivity |].
  destruct (pglogical_ticker_database (l_vars q));
    [| split; reflexivity].
  apply register_loop_vars.
Qed.

Lemma PG_init_registered env p :
  l_registered (_PG_init env p) =
    l_registered (defined env p) ++
    (if process_shared_preload_libraries_in_progress env
     then
       match pglogical_ticker_database (l_vars (defined env p)) with
       | Some _ =>
           [set_bgw_main_arg (Int32GetDatum 0)
              (fill_bgw_type
                 (set_bgw_name (snprintf_bgw "pglogical_ticker worker 1")
                    (static_common
                       (pglogical_ticker_restart_time
                          (l_vars (defined env p))))))]
       | None => []
       end
     else []).
Proof.
  rewrite PG_init_eq. generalize (defined env p). intros q.
  destruct (process_shared_preload_libraries_in_progress env);
    cbn [negb]; [| now rewrite app_nil_r].
  destruct (pglogical_ticker_database (l_vars q)); [| now rewrite app_nil_r].
  reflexivity.
Qed.

Lemma defined_registered env p :
  l_registered (defined env p) = l_registered p.
Proof. reflexivity. Qed.

Lemma defined_gucs env p :
  l_gucs (defined env p) =
    l_gucs p ++
    [ConfigInt (naptime_guc (l_vars p));
     ConfigString
       (database_guc
          (l_vars (DefineCustomIntVariable env (naptime_guc (l_vars p)) p)));
     ConfigInt
       (restart_time_guc
          (l_vars
             (DefineCustomStringVariable env
                (database_guc
                   (l_vars
                      (DefineCustomIntVariable env (naptime_guc (l_vars p)) p)))
                (DefineCustomIntVariable env (naptime_guc (l_vars p)) p))))].
Proof.
  unfold defined. simpl. rewrite <- !app_assoc. reflexivity.
Qed.

Lemma defined_bounds env :
  in_bounds (l_vars (defined env loader_init))
  /\ Forall narrow (l_gucs (defined env loader_init)).
Proof.
  split.
  - unfold defined. simpl.
    apply apply_settings_bounds.
    { repeat constructor; simpl; unfold INT_MAX; lia. }
    match goal with
    | |- in_bounds (set_restart_time ?v ?s) =>
        assert (Hs : in_bounds s); [| assert (Hv : v = pglogical_ticker_restart_time s) by reflexivity ]
    end.
    + assert (H1 : in_bounds
                     (apply_settings
                        [ConfigInt (naptime_guc statics_init)]
                        (config_file env)
                        (set_naptime 10 statics_init))).
      { apply apply_settings_bounds.
        - repeat constructor; simpl; unfold INT_MAX; lia.
        - unfold in_bounds, INT_MAX; simpl; lia. }
      revert H1. simpl.
      generalize (apply_settings [ConfigInt (naptime_guc statics_init)]
                    (config_file env) (set_naptime 10 statics_init)).
      intros s1 H1.
      assert (H2 : in_bounds (set_database (pglogical_ticker_database s1) s1))
        by exact H1.
      revert H2.
      generalize (set_database (pglogical_ticker_database s1) s1).
      intros s2 H2.
      apply apply_settings_bounds; [repeat constructor; exact I | exact H2].
    + unfold in_bounds in *. simpl. exact Hs.
  - rewrite defined_gucs. simpl.
    repeat constructor; simpl; unfold INT_MAX; lia.
Qed.

(** ** The variables after the definitions *)

Lemma apply_settings_naptime d sts :
  ci_variable d = addr_naptime ->
  forall s,
    apply_settings [ConfigInt d] sts s =
      set_naptime
        (last_int (ci_name d) (ci_min d) (ci_max d) sts
           (pglogical_ticker_naptime s)) s.
Proof.
  intros Hd. unfold apply_settings, last_int.
  induction sts as [| st sts IH]; intros s; cbn [fold_left].
  - now destruct s.
  - rewrite IH. unfold apply_setting. cbn [find_guc guc_name].
    destruct (String.eqb (ci_name d) (fst st)); [| reflexivity].
    destruct (snd st) as [x | x]; [| reflexivity].
    unfold assign_int, int_in_range.
    destruct ((ci_min d <=? x) && (x <=? ci_max d)); [| reflexivity].
    rewrite Hd. reflexivity.
Qed.

Lemma apply_settings_restart_time d sts :
  ci_variable d = addr_restart_time ->
  forall s,
    apply_settings [ConfigInt d] sts s =
      set_restart_time
        (last_int (ci_name d) (ci_min d) (ci_max d) sts
           (pglogical_ticker_restart_time s)) s.
Proof.
  intros Hd. unfold apply_settings, last_int.
  induction sts as [| st sts IH]; intros s; cbn [fold_left].
  - now destruct s.
  - rewrite IH. unfold apply_setting. cbn [find_guc guc_name].
    destruct (String.eqb (ci_name d) (fst st)); [| reflexivity].
    destruct (snd st) as [x | x]; [| reflexivity].
    unfold assign_int, int_in_range.
    destruct ((ci_min d <=? x) && (x <=? ci_max d)); [| reflexivity].
    rewrite Hd. reflexivity.
Qed.

Lemma apply_settings_database d sts :
  forall s,
    apply_settings [ConfigString d] sts s =
      set_database
        (last_string (cs_name d) sts (pglogical_ticker_database s)) s.
Proof.
  unfold apply_settings, last_string.
  induction sts as [| st sts IH]; intros s; cbn [fold_left].
  - now destruct s.
  - rewrite IH. unfold apply_setting. cbn [find_guc guc_name].
    destruct (String.eqb (cs_name d) (fst st)); [| reflexivity].
    destruct (snd st) as [x | x]; reflexivity.
Qed.

(** The three variables after the definitions, from what the host holds
    for them. *)
Lemma defined_vars env p :
  pglogical_ticker_naptime (l_vars (defined env p)) =
    last_int "pglogical_ticker.naptime" 1 INT_MAX (config_file env)
      (pglogical_ticker_naptime (l_vars p))
  /\ pglogical_ticker_database (l_vars (defined env p)) =
       last_string "pglogical_ticker.database" (config_file env)
         (pglogical_ticker_database (l_vars p))
  /\ pglogical_ticker_restart_time (l_vars (defined env p)) =
       last_int "pglogical_ticker.restart_time" (-1) INT_MAX
         (config_file env) (pglogical_ticker_restart_time (l_vars p)).
Proof.
  unfold defined, DefineCustomIntVariable, DefineCustomStringVariable.
  cbn [l_vars].
  rewrite (apply_settings_restart_time (restart_time_guc _)) by reflexivity.
  rewrite apply_settings_database.
  rewrite (apply_settings_naptime (naptime_guc _)) by reflexivity.
  repeat split.
Qed.

(** The last assignment under a name is the one that counts. *)
Lemma last_int_last name lo hi pre v post v0 :
  lo <= v <= hi ->
  Forall (fun st => fst st <> name) post ->
  last_int name lo hi (pre ++ (name, GucInt v) :: post) v0 = v.
Proof.
  intros Hv Hpost. unfold last_int.
  rewrite fold_left_app. cbn [fold_left fst snd].
  rewrite String.eqb_refl.
  replace ((lo <=? v) && (v <=? hi)) with true
    by (symmetry; apply andb_true_iff; split; apply Z.leb_le; lia).
  clear Hv. revert v.
  induction Hpost as [| st post Hst _ IH]; intros x; cbn [fold_left];
    [reflexivity |].
  replace (String.eqb name (fst st)) with false; [apply IH |].
  symmetry. apply String.eqb_neq. congruence.
Qed.
(* ===================================================================== *)
(** * Properties of the worker process *)
(* ===================================================================== *)

(** ** Signals *)

Lemma same_frame_refl w : same_frame w w.
Proof. unfold same_frame. intuition. Qed.

Lemma same_frame_trans w1 w2 w3 :
  same_frame w1 w2 -> same_frame w2 w3 -> same_frame w1 w3.
Proof. unfold same_frame. intuition congruence. Qed.

Lemma deliver_frame w sig : same_frame w (deliver w sig).
Proof.
  unfold deliver. destruct (sig_blocked w).
  - unfold same_frame. cbn. intuition.
  - destruct (handler_of sig w) as [[] |];
      unfold same_frame; cbn; intuition.
Qed.

Lemma deliver_all_frame sigs w : same_frame w (deliver_all sigs w).
Proof.
  unfold deliver_all. revert w.
  induction sigs as [| sig sigs IH]; intros w; cbn [fold_left].
  - apply same_frame_refl.
  - eapply same_frame_trans; [apply deliver_frame | apply IH].
Qed.

Lemma deliver_signals w sig : same_signals w (deliver w sig).
Proof.
  unfold deliver. destruct (sig_blocked w) eqn:Hb.
  - unfold same_signals. cbn. intuition.
  - destruct (handler_of sig w) as [[] |];
      unfold same_signals; cbn; intuition.
Qed.

Lemma deliver_all_signals sigs w : same_signals w (deliver_all sigs w).
Proof.
  unfold deliver_all. revert w.
  induction sigs as [| sig sigs IH]; intros w; cbn [fold_left].
  - unfold same_signals. intuition.
  - destruct (deliver_signals w sig) as (B1 & H1 & T1).
    destruct (IH (deliver w sig)) as (B2 & H2 & T2).
    unfold same_signals. rewrite B2, H2, T2. intuition.
Qed.

Lemma signal_flags_nil s : signal_flags [] s = s.
Proof.
  destruct s. unfold signal_flags, has_signal. cbn.
  rewrite !orb_false_r. reflexivity.
Qed.

Lemma signal_flags_app a b s :
  signal_flags (a ++ b) s = signal_flags b (signal_flags a s).
Proof.
  destruct s. unfold signal_flags, has_signal. cbn.
  rewrite !existsb_app, !orb_assoc. reflexivity.
Qed.

Lemma deliver_ready w sig :
  ready w ->
  ready (deliver w sig) /\ vars (deliver w sig) = signal_flags [sig] (vars w).
Proof.
  intros (Hb & Hh & Ht). unfold deliver. rewrite Hb.
  destruct sig; cbn [handler_of]; rewrite ?Hh, ?Ht; cbn [run_handler];
    (split; [unfold ready; cbn; auto |]);
    destruct w as [[] ? ? ? ? ? ? ? ? ?]; cbn;
    unfold signal_flags, has_signal; cbn;
    rewrite !orb_false_r, ?orb_true_r; reflexivity.
Qed.

Lemma deliver_all_ready sigs w :
  ready w ->
  ready (deliver_all sigs w)
  /\ vars (deliver_all sigs w) = signal_flags sigs (vars w).
Proof.
  unfold deliver_all. revert w.
  induction sigs as [| sig sigs IH]; intros w Hw; cbn [fold_left].
  - split; [exact Hw | now rewrite signal_flags_nil].
  - destruct (deliver_ready w sig Hw) as [Hw1 E1].
    destruct (IH _ Hw1) as [Hw2 E2].
    split; [exact Hw2 |].
    rewrite E2, E1. change (sig :: sigs) with ([sig] ++ sigs).
    now rewrite signal_flags_app.
Qed.

(** ** One host call *)

Lemma answered_frame c r rs w :
  trace (answered c r rs w) = trace w ++ [c]
  /\ script (answered c r rs w) = rs
  /\ gucs (answered c r rs w) = gucs w
  /\ MyBgworkerEntry (answered c r rs w) = MyBgworkerEntry w
  /\ pglogical_ticker_naptime (vars (answered c r rs w))
     = pglogical_ticker_naptime (vars w)
  /\ pglogical_ticker_database (vars (answered c r rs w))
     = pglogical_ticker_database (vars w)
  /\ pglogical_ticker_restart_time (vars (answered c r rs w))
     = pglogical_ticker_restart_time (vars w).
Proof.
  unfold answered.
  destruct (deliver_all_frame (delivered r) (set_script rs (log c w)))
    as (E1 & E2 & E3 & E4 & E5 & E6 & E7).
  rewrite E1, E2, E3, E4, E5, E6, E7. cbn. intuition.
Qed.

Lemma answered_ready c r rs w :
  ready w ->
  ready (answered c r rs w)
  /\ vars (answered c r rs w) = signal_flags (delivered r) (vars w).
Proof.
  intros Hw. unfold answered.
  apply (deliver_all_ready (delivered r) (set_script rs (log c w))).
  exact Hw.
Qed.

Lemma call_returns c w r rs :
  script w = r :: rs -> returns r ->
  call c w = (Return r, answered c r rs w).
Proof.
  intros Hs Hr. unfold call, answered.
  cbn [script log set_trace]. rewrite Hs, Hr. reflexivity.
Qed.

Lemma call_raises c w r rs e :
  script w = r :: rs -> raises r = Some e ->
  call c w = (Error e, answered c r rs w).
Proof.
  intros Hs Hr. unfold call, answered.
  cbn [script log set_trace]. rewrite Hs, Hr. reflexivity.
Qed.

(** Every way a call can end. *)
Lemma call_cases c w :
  (script w = [] /\ call c w = (Blocked, log c w))
  \/ (exists r rs,
        script w = r :: rs
        /\ ((returns r /\ call c w = (Return r, answered c r rs w))
            \/ (exists e,
                  raises r = Some e
                  /\ call c w = (Error e, answered c r rs w)))).
Proof.
  destruct (script w) as [| r rs] eqn:Hs.
  - left. split; [reflexivity |]. unfold call. cbn [script log set_trace].
    rewrite Hs. reflexivity.
  - right. exists r, rs. split; [reflexivity |].
    destruct (raises r) as [e |] eqn:Hr.
    + right. exists e. split; [reflexivity |]. now apply call_raises.
    + left. split; [exact Hr |]. now apply call_returns.
Qed.

(** A call that returns has taken an answer and left the signal mask and
    the dispositions alone. *)
Lemma call_returned c w r w' :
  call c w = (Return r, w') -> same_signals w w'.
Proof.
  intros E.
  destruct (call_cases c w)
    as [[Hs E'] | (r' & rs & Hs & [[_ E'] | (e & _ & E')])];
    rewrite E' in E; try discriminate.
  injection E as _ <-. unfold answered.
  apply (deliver_all_signals (delivered r') (set_script rs (log c w))).
Qed.

(** ** Sequencing *)

Lemma bind_assoc {A B C} (m : M A) (f : A -> M B) (g : B -> M C) w :
  bind (bind m f) g w = bind m (fun a => bind (f a) g) w.
Proof.
  unfold bind. destruct (m w) as [[] ?]; reflexivity.
Qed.

Lemma bind_eq {A B} (m : M A) (k : A -> M B) w a w' :
  m w = (Return a, w') -> bind m k w = k a w'.
Proof. intros E. unfold bind. rewrite E. reflexivity. Qed.

Lemma bind_error {A B} (m : M A) (k : A -> M B) w e w' :
  m w = (Error e, w') -> bind m k w = (Error e, w').
Proof. intros E. unfold bind. rewrite E. reflexivity. Qed.

Lemma bind_exit {A B} (m : M A) (k : A -> M B) w c w' :
  m w = (ProcExit c, w') -> bind m k w = (ProcExit c, w').
Proof. intros E. unfold bind. rewrite E. reflexivity. Qed.

(** Every way a sequence can end. *)
Lemma bind_cases {A B} (m : M A) (k : A -> M B) w o w' :
  bind m k w = (o, w') ->
  (exists a w1, m w = (Return a, w1) /\ k a w1 = (o, w'))
  \/ (m w = (match o with
             | Return _ => Blocked
             | Error e => Error e
             | ProcExit c => ProcExit c
             | AssertionFailure => AssertionFailure
             | Blocked => Blocked
             | OutOfFuel => OutOfFuel
             end, w')
      /\ forall b, o <> Return b).
Proof.
  unfold bind. destruct (m w) as [[a | e | c | | |] w1]; intros E.
  - left. exists a, w1. split; [reflexivity | exact E].
  - right. injection E as <- <-. split; [reflexivity | discriminate].
  - right. injection E as <- <-. split; [reflexivity | discriminate].
  - right. injection E as <- <-. split; [reflexivity | discriminate].
  - right. injection E as <- <-. split; [reflexivity | discriminate].
  - right. injection E as <- <-. split; [reflexivity | discriminate].
Qed.

Lemma bind_returned {A B} (m : M A) (k : A -> M B) w b w' :
  bind m k w = (Return b, w') ->
  exists a w1, m w = (Return a, w1) /\ k a w1 = (Return b, w').
Proof.
  intros E. destruct (bind_cases m k w _ w' E) as [H | [_ Hn]];
    [exact H | now destruct (Hn b)].
Qed.

(** ** Start-up *)

(** When the start-up returns, signals reach the module's handlers, and
    the statement to run is the call of [pglogical_ticker.tick()]. *)
Lemma main_startup_ready main_arg w buf w' :
  main_startup main_arg w = (Return buf, w') ->
  ready w' /\ buf = "SELECT pglogical_ticker.tick();"%string.
Proof.
  intros E. unfold main_startup in E.
  apply bind_returned in E. destruct E as ([] & w0 & E0 & E).
  injection E0 as <-.
  apply bind_returned in E. destruct E as (a1 & w1 & E1 & E).
  apply call_returned in E1. destruct E1 as (B1 & H1 & T1).
  apply bind_returned in E. destruct E as ([] & w1' & E1' & E).
  injection E1' as <-.
  apply bind_returned in E. destruct E as (a2 & w2 & E2 & E).
  apply call_returned in E2. destruct E2 as (B2 & H2 & T2).
  apply bind_returned in E. destruct E as ([] & w2' & E2' & E).
  injection E2' as <-.
  apply bind_returned in E. destruct E as (a3 & w3 & E3 & E).
  apply call_returned in E3. destruct E3 as (B3 & H3 & T3).
  destruct (deliver_all_signals (sig_pending w2)
              (set_sig_pending [] (set_sig_blocked false w2)))
    as (B2' & H2' & T2').
  rewrite B2' in B3. rewrite H2' in H3. rewrite T2' in T3.
  cbn [sig_blocked sighup_handler sigterm_handler set_sig_pending
       set_sig_blocked] in B3, H3, T3.
  rewrite H2 in H3. rewrite T2 in T3.
  cbn [sighup_handler sigterm_handler set_sigterm_handler] in H3, T3.
  rewrite H1 in H3.
  cbn [sighup_handler set_sighup_handler] in H3.
  apply bind_returned in E. destruct E as (db & w3' & E3' & E).
  injection E3' as _ <-.
  apply bind_returned in E. destruct E as (a4 & w4 & E4 & E).
  assert (S4 : same_signals w3 w4).
  { destruct db; now apply call_returned in E4. }
  destruct S4 as (B4 & H4 & T4).
  apply bind_returned in E. destruct E as (name & w4' & E4' & E).
  injection E4' as _ <-.
  apply bind_returned in E. destruct E as (a5 & w5 & E5 & E).
  apply call_returned in E5. destruct E5 as (B5 & H5 & T5).
  apply bind_returned in E. destruct E as (a6 & w6 & E6 & E).
  apply call_returned in E6. destruct E6 as (B6 & H6 & T6).
  injection E as <- <-.
  split; [| reflexivity].
  unfold ready. rewrite B6, B5, B4, B3, H6, H5, H4, H3, T6, T5, T4, T3.
  repeat split.
Qed.

(** ** Fuel, exit status and the answers taken *)

Lemma sane_ret {A} (a : A) : sane (ret a).
Proof.
  intros w o w' [= <- <-]. split; [discriminate |].
  split; [discriminate | apply Nat.le_refl].
Qed.

Lemma sane_gets {A} (f : Worker -> A) : sane (gets f).
Proof.
  intros w o w' [= <- <-]. split; [discriminate |].
  split; [discriminate | apply Nat.le_refl].
Qed.

Lemma sane_modify (f : Worker -> Worker) :
  (forall w, script (f w) = script w) -> sane (modify f).
Proof.
  intros Hf w o w' [= <- <-]. split; [discriminate |].
  split; [discriminate | rewrite Hf; apply Nat.le_refl].
Qed.

Lemma sane_terminate {A} : sane (@terminate A 1).
Proof.
  intros w o w' [= <- <-]. split; [discriminate |].
  split; [now intros c [= <-] | apply Nat.le_refl].
Qed.

Lemma sane_call c : sane (call c).
Proof.
  intros w o w' E.
  destruct (call_cases c w)
    as [[Hs E'] | (r & rs & Hs & [[_ E'] | (e & _ & E')])];
    rewrite E' in E; injection E as <- <-;
    (split; [discriminate |]); (split; [discriminate |]).
  - cbn. rewrite Hs. apply Nat.le_refl.
  - destruct (answered_frame c r rs w) as (_ & -> & _).
    rewrite Hs. cbn. lia.
  - destruct (answered_frame c r rs w) as (_ & -> & _).
    rewrite Hs. cbn. lia.
Qed.

Lemma strict_call c : strict (call c).
Proof.
  intros w a w' E.
  destruct (call_cases c w)
    as [[Hs E'] | (r & rs & Hs & [[_ E'] | (e & _ & E')])];
    rewrite E' in E; try discriminate.
  injection E as <- <-.
  destruct (answered_frame c r rs w) as (_ & -> & _).
  rewrite Hs. cbn. lia.
Qed.

Lemma sane_bind {A B} (m : M A) (k : A -> M B) :
  sane m -> (forall a, sane (k a)) -> sane (bind m k).
Proof.
  intros Hm Hk w o w' E.
  destruct (bind_cases m k w o w' E) as [(a & w1 & E1 & E2) | [E1 Hn]].
  - destruct (Hm _ _ _ E1) as (_ & _ & L1).
    destruct (Hk a _ _ _ E2) as (N2 & X2 & L2).
    split; [exact N2 |]. split; [exact X2 | lia].
  - destruct (Hm _ _ _ E1) as (N1 & X1 & L1).
    split; [| split; [| exact L1]].
    + destruct o; solve [discriminate | congruence].
    + intros c ->. now apply X1.
Qed.

Lemma strict_bind_l {A B} (m : M A) (k : A -> M B) :
  strict m -> (forall a, sane (k a)) -> strict (bind m k).
Proof.
  intros Hm Hk w b w' E.
  destruct (bind_cases m k w _ w' E) as [(a & w1 & E1 & E2) | [_ Hn]].
  - specialize (Hm _ _ _ E1). destruct (Hk a _ _ _ E2) as (_ & _ & L2). lia.
  - exfalso. now apply (Hn b).
Qed.

Lemma strict_bind_r {A B} (m : M A) (k : A -> M B) :
  sane m -> (forall a, strict (k a)) -> strict (bind m k).
Proof.
  intros Hm Hk w b w' E.
  destruct (bind_cases m k w _ w' E) as [(a & w1 & E1 & E2) | [_ Hn]].
  - destruct (Hm _ _ _ E1) as (_ & _ & L1). specialize (Hk a _ _ _ E2). lia.
  - exfalso. now apply (Hn b).
Qed.

Lemma sane_if {A} (b : bool) (m1 m2 : M A) :
  sane m1 -> sane m2 -> sane (if b then m1 else m2).
Proof. now destruct b. Qed.

Create HintDb worker.

#[local] Hint Resolve sane_ret sane_gets sane_terminate sane_call sane_bind
  sane_if strict_call : worker.

Lemma sane_call_seq cs : sane (call_seq cs).
Proof. induction cs; cbn [call_seq]; auto with worker. Qed.

Lemma sane_main_tick buf : sane (main_tick buf).
Proof. apply (sane_call_seq (tick_calls buf)). Qed.

Lemma deliver_all_script sigs w : script (deliver_all sigs w) = script w.
Proof. now destruct (deliver_all_frame sigs w) as (_ & E & _). Qed.

Lemma sane_main_startup main_arg : sane (main_startup main_arg).
Proof.
  unfold main_startup.
  repeat (apply sane_bind; [| intros ?]);
    try (apply sane_modify; intros; rewrite ?deliver_all_script; reflexivity);
    try match goal with
        | |- sane (match ?x with _ => _ end) => destruct x
        end;
    auto with worker.
Qed.

Lemma sane_main_wait : sane main_wait.
Proof.
  unfold main_wait.
  repeat (apply sane_bind; [| intros ?]);
    try (apply sane_modify; intros; reflexivity); auto with worker.
Qed.

Lemma strict_main_wait : strict main_wait.
Proof.
  unfold main_wait. apply strict_bind_r; [auto with worker | intros nap].
  apply strict_bind_l; [auto with worker | intros r].
  repeat (apply sane_bind; [| intros ?]);
    try (apply sane_modify; intros; reflexivity); auto with worker.
Qed.

Lemma sane_main_reload : sane main_reload.
Proof.
  unfold main_reload. apply sane_bind; [auto with worker | intros sighup].
  apply sane_if; [| auto with worker].
  repeat (apply sane_bind; [| intros ?]);
    try (apply sane_modify; intros; reflexivity); auto with worker.
Qed.

Lemma sane_main_cycle buf : sane (main_cycle buf).
Proof.
  unfold main_cycle.
  auto using sane_main_wait, sane_main_reload, sane_main_tick with worker.
Qed.

Lemma strict_main_cycle buf : strict (main_cycle buf).
Proof.
  unfold main_cycle. apply strict_bind_l; [apply strict_main_wait |].
  intros _.
  auto using sane_main_reload, sane_main_tick with worker.
Qed.

(** The loop never runs out of fuel when it is given more fuel than the
    host has answers left. *)
Lemma main_loop_fuel fuel buf :
  forall w o w',
    (List.length (script w) < fuel)%nat ->
    main_loop fuel buf w = (o, w') ->
    o <> OutOfFuel
    /\ (forall c, o = ProcExit c -> c = 1)
    /\ (List.length (script w') <= List.length (script w))%nat.
Proof.
  induction fuel as [| fuel IH]; intros w o w' Hlen E; [lia |].
  cbn [main_loop] in E.
  destruct (got_sigterm (vars w)).
  - injection E as <- <-. split; [discriminate |].
    split; [discriminate | apply Nat.le_refl].
  - destruct (bind_cases _ _ _ _ _ E) as [(a & w1 & E1 & E2) | [E1 Hn]].
    + pose proof (strict_main_cycle buf _ _ _ E1) as L1.
      destruct (IH w1 o w' ltac:(lia) E2) as (N2 & X2 & L2).
      split; [exact N2 |]. split; [exact X2 | lia].
    + destruct (sane_main_cycle buf _ _ _ E1) as (N1 & X1 & L1).
      split; [| split; [| exact L1]].
      * destruct o; solve [discriminate | congruence].
      * intros c ->. now apply X1.
Qed.

Lemma sane_main_run buf : sane (main_run buf).
Proof.
  intros w o w' E. unfold main_run in E.
  destruct (bind_cases _ _ _ _ _ E) as [(fuel & w1 & E1 & E2) | [E1 _]];
    [| destruct o; discriminate].
  injection E1 as <- <-.
  destruct (bind_cases _ _ _ _ _ E2) as [(a & w1 & E1 & E3) | [E1 Hn]].
  - destruct (main_loop_fuel _ buf w _ _ (Nat.lt_succ_diag_r _) E1)
      as (_ & _ & L1).
    injection E3 as <- <-. split; [discriminate |].
    split; [now intros c [= <-] | exact L1].
  - destruct (main_loop_fuel _ buf w _ _ (Nat.lt_succ_diag_r _) E1)
      as (N1 & X1 & L1).
    split; [| split; [| exact L1]].
    + destruct o; solve [discriminate | congruence].
    + intros c ->. now apply X1.
Qed.

Lemma sane_pglogical_ticker_main main_arg :
  sane (pglogical_ticker_main main_arg).
Proof.
  unfold pglogical_ticker_main.
  apply sane_bind; [apply sane_main_startup | intros buf; apply sane_main_run].
Qed.

(** ** The calls added to the trace *)

Lemma emits_ret P {A} (a : A) : emits P (ret a).
Proof. intros w o w' [= <- <-]. exists []. now rewrite app_nil_r. Qed.

Lemma emits_gets P {A} (f : Worker -> A) : emits P (gets f).
Proof. intros w o w' [= <- <-]. exists []. now rewrite app_nil_r. Qed.

Lemma emits_modify P (f : Worker -> Worker) :
  (forall w, trace (f w) = trace w) -> emits P (modify f).
Proof.
  intros Hf w o w' [= <- <-]. exists []. now rewrite app_nil_r, Hf.
Qed.

Lemma emits_terminate (P : HostCall -> Prop) {A} code :
  P (proc_exit code) -> emits P (@terminate A code).
Proof.
  intros Hp w o w' [= <- <-]. exists [proc_exit code].
  split; [reflexivity | now repeat constructor].
Qed.

Lemma emits_call (P : HostCall -> Prop) c : P c -> emits P (call c).
Proof.
  intros Hp w o w' E. exists [c]. split; [| now repeat constructor].
  destruct (call_cases c w)
    as [[Hs E'] | (r & rs & Hs & [[_ E'] | (e & _ & E')])];
    rewrite E' in E; injection E as <- <-.
  - reflexivity.
  - now destruct (answered_frame c r rs w) as (-> & _).
  - now destruct (answered_frame c r rs w) as (-> & _).
Qed.

Lemma emits_bind P {A B} (m : M A) (k : A -> M B) :
  emits P m -> (forall a, emits P (k a)) -> emits P (bind m k).
Proof.
  intros Hm Hk w o w' E.
  destruct (bind_cases m k w o w' E) as [(a & w1 & E1 & E2) | [E1 _]].
  - destruct (Hm _ _ _ E1) as (n1 & T1 & F1).
    destruct (Hk a _ _ _ E2) as (n2 & T2 & F2).
    exists (n1 ++ n2). rewrite T2, T1, app_assoc.
    split; [reflexivity | now apply Forall_app].
  - exact (Hm _ _ _ E1).
Qed.

Lemma emits_if P {A} (b : bool) (m1 m2 : M A) :
  emits P m1 -> emits P m2 -> emits P (if b then m1 else m2).
Proof. now destruct b. Qed.

#[local] Hint Resolve emits_ret emits_gets emits_terminate emits_call
  emits_bind emits_if : worker.

Lemma emits_call_seq (P : HostCall -> Prop) cs :
  Forall P cs -> emits P (call_seq cs).
Proof.
  induction 1; cbn [call_seq]; auto with worker.
Qed.

Lemma emits_main_cycle buf : emits not_connect (main_cycle buf).
Proof.
  unfold main_cycle, main_wait, main_reload.
  repeat (apply emits_bind; [| intros ?]);
    try (apply emits_modify; intros; reflexivity);
    try (apply emits_if;
         repeat (apply emits_bind; [| intros ?]);
         try (apply emits_modify; intros; reflexivity));
    try (apply emits_call; reflexivity);
    try (apply emits_terminate; reflexivity);
    auto with worker.
Qed.

Lemma emits_main_loop fuel buf : emits not_connect (main_loop fuel buf).
Proof.
  induction fuel as [| fuel IH]; intros w o w' E; cbn [main_loop] in E.
  - destruct (got_sigterm (vars w)); injection E as <- <-;
      exists []; now rewrite app_nil_r.
  - destruct (got_sigterm (vars w)).
    + injection E as <- <-. exists []. now rewrite app_nil_r.
    + revert E. apply emits_bind; [apply emits_main_cycle | intros _; exact IH].
Qed.

Lemma emits_main_run buf : emits not_connect (main_run buf).
Proof.
  unfold main_run.
  apply emits_bind; [auto with worker | intros fuel].
  apply emits_bind; [apply emits_main_loop | intros _].
  apply emits_terminate. reflexivity.
Qed.

(** A call followed by computations that emit [P]: the call is
    recorded first, however it ends. *)
Lemma call_then_emits (P : HostCall -> Prop) {B} c (k : Response -> M B) :
  (forall r, emits P (k r)) ->
  forall w o w',
    bind (call c) k w = (o, w') ->
    exists rest, trace w' = trace w ++ c :: rest /\ Forall P rest.
Proof.
  intros Hk w o w' E.
  destruct (bind_cases _ _ _ _ _ E) as [(r & w1 & E1 & E2) | [E1 _]].
  - destruct (Hk r _ _ _ E2) as (rest & T & F).
    exists rest. split; [| exact F]. rewrite T.
    destruct (call_cases c w)
      as [[Hs E'] | (r' & rs & Hs & [[_ E'] | (e & _ & E')])];
      rewrite E' in E1; try discriminate.
    injection E1 as <- <-.
    destruct (answered_frame c r' rs w) as (-> & _).
    now rewrite <- app_assoc.
  - exists []. split; [| constructor].
    destruct (call_cases c w)
      as [[Hs E'] | (r' & rs & Hs & [[_ E'] | (e & _ & E')])];
      rewrite E' in E1; injection E1 as _ <-.
    + reflexivity.
    + now destruct (answered_frame c r' rs w) as (-> & _).
    + now destruct (answered_frame c r' rs w) as (-> & _).
Qed.

(** ** Sequences of calls *)

Lemma main_tick_seq buf : main_tick buf = call_seq (tick_calls buf).
Proof. reflexivity. Qed.

(** A sequence of calls that the host answers one by one. *)
Lemma call_seq_returns cs :
  forall w rs rest,
    script w = rs ++ rest ->
    List.length rs = List.length cs ->
    Forall returns rs ->
    exists w',
      call_seq cs w = (Return tt, w')
      /\ trace w' = trace w ++ cs
      /\ script w' = rest
      /\ gucs w' = gucs w
      /\ (ready w ->
          ready w' /\ vars w' = signal_flags (signals_of rs) (vars w)).
Proof.
  induction cs as [| c cs IH]; intros w rs rest Hs Hlen Hret.
  - destruct rs; [| discriminate]. exists w. cbn [call_seq app]. unfold ret.
    rewrite app_nil_r. do 4 (split; [solve [auto] |]).
    intros Hw. split; [exact Hw |].
    unfold signals_of. cbn [map List.concat]. now rewrite signal_flags_nil.
  - destruct rs as [| r rs]; [discriminate |].
    apply Forall_cons_iff in Hret. destruct Hret as [Hr Hret].
    cbn [call_seq].
    rewrite (bind_eq _ _ _ _ _ (call_returns c w r (rs ++ rest) Hs Hr)).
    destruct (answered_frame c r (rs ++ rest) w) as (E1 & E2 & E3 & _).
    destruct (IH (answered c r (rs ++ rest) w) rs rest E2
                (eq_add_S _ _ Hlen) Hret)
      as (w' & Hrun & Ht & Hsc & Hg & Hrd).
    exists w'. rewrite Hrun, Ht, Hsc, Hg, E1, E3.
    rewrite <- app_assoc. do 4 (split; [reflexivity |]).
    intros Hw.
    destruct (answered_ready c r (rs ++ rest) w Hw) as [Hw1 Ev].
    destruct (Hrd Hw1) as [Hw' Ev']. split; [exact Hw' |].
    rewrite Ev', Ev.
    unfold signals_of. cbn [map List.concat]. now rewrite signal_flags_app.
Qed.

(** A sequence of calls in which the host answers call number
    [length pre] with an error. *)
Lemma call_seq_raises cs :
  forall w pre r rest e,
    script w = pre ++ r :: rest ->
    (List.length pre < List.length cs)%nat ->
    Forall returns pre ->
    raises r = Some e ->
    exists w',
      call_seq cs w = (Error e, w')
      /\ trace w' = trace w ++ firstn (S (List.length pre)) cs
      /\ script w' = rest.
Proof.
  induction cs as [| c cs IH]; intros w pre r rest e Hs Hlen Hret Hr.
  - cbn in Hlen. lia.
  - destruct pre as [| p pre].
    + cbn [call_seq].
      rewrite (bind_error _ _ _ _ _ (call_raises c w r rest e Hs Hr)).
      destruct (answered_frame c r rest w) as (E1 & E2 & _).
      eexists. split; [reflexivity |]. rewrite E1, E2.
      split; reflexivity.
    + apply Forall_cons_iff in Hret. destruct Hret as [Hp Hret].
      cbn [call_seq].
      rewrite (bind_eq _ _ _ _ _
                 (call_returns c w p (pre ++ r :: rest) Hs Hp)).
      destruct (answered_frame c p (pre ++ r :: rest) w) as (E1 & E2 & _).
      cbn [List.length] in Hlen.
      destruct (IH (answered c p (pre ++ r :: rest) w) pre r rest e E2
                  (proj2 (Nat.succ_lt_mono _ _) Hlen) Hret Hr)
        as (w' & Hrun & Ht & Hsc).
      exists w'. rewrite Hrun, Ht, Hsc, E1. rewrite <- app_assoc.
      repeat split.
Qed.

(** ** The parts of the loop body *)

Lemma apply_setting_flags table s st :
  got_sighup (apply_setting table s st) = got_sighup s
  /\ got_sigterm (apply_setting table s st) = got_sigterm s.
Proof.
  unfold apply_setting.
  destruct (find_guc (fst st) table) as [[d | d] |]; destruct (snd st);
    try (split; reflexivity).
  unfold assign_int. destruct (int_in_range d v); [| split; reflexivity].
  destruct (ci_variable d); split; reflexivity.
Qed.

Lemma apply_settings_flags table sts s :
  got_sighup (apply_settings table sts s) = got_sighup s
  /\ got_sigterm (apply_settings table sts s) = got_sigterm s.
Proof.
  unfold apply_settings. revert s.
  induction sts as [| st sts IH]; intros s; cbn [fold_left].
  - split; reflexivity.
  - destruct (IH (apply_setting table s st)) as [-> ->].
    apply apply_setting_flags.
Qed.

Lemma main_wait_returns w r0 r1 r2 rest :
  script w = r0 :: r1 :: r2 :: rest ->
  returns r0 -> returns r1 -> returns r2 ->
  Z.land (rv r0) WL_POSTMASTER_DEATH = 0 ->
  exists w',
    main_wait w = (Return tt, w')
    /\ trace w' =
         trace w ++
         [wait_call (pglogical_ticker_naptime (vars w)); ResetLatch;
          CHECK_FOR_INTERRUPTS]
    /\ script w' = rest
    /\ gucs w' = gucs w
    /\ (ready w ->
        ready w'
        /\ vars w' = signal_flags (signals_of [r0; r1; r2]) (vars w)).
Proof.
  intros Hs H0 H1 H2 Hrc. unfold main_wait.
  erewrite bind_eq by reflexivity.
  erewrite bind_eq by (apply call_returns; eassumption).
  erewrite bind_eq by reflexivity.
  fold (wait_call (pglogical_ticker_naptime (vars w))).
  set (c0 := wait_call (pglogical_ticker_naptime (vars w))).
  set (w1 := answered c0 r0 (r1 :: r2 :: rest) w).
  destruct (answered_frame c0 r0 (r1 :: r2 :: rest) w)
    as (T1 & S1 & G1 & _). fold w1 in T1, S1, G1.
  set (w2 := set_latch_is_set false w1).
  assert (S2 : script w2 = r1 :: r2 :: rest) by exact S1.
  erewrite bind_eq by (apply call_returns; eassumption).
  set (w3 := answered ResetLatch r1 (r2 :: rest) w2).
  destruct (answered_frame ResetLatch r1 (r2 :: rest) w2)
    as (T3 & S3 & G3 & _). fold w3 in T3, S3, G3.
  rewrite Hrc. cbn [Z.eqb negb].
  erewrite bind_eq by reflexivity.
  erewrite bind_eq by (apply call_returns; eassumption).
  set (w4 := answered CHECK_FOR_INTERRUPTS r2 rest w3).
  destruct (answered_frame CHECK_FOR_INTERRUPTS r2 rest w3)
    as (T4 & S4 & G4 & _). fold w4 in T4, S4, G4.
  exists w4. split; [reflexivity |].
  split; [rewrite T4, T3; change (trace w2) with (trace w1);
          rewrite T1, <- !app_assoc; reflexivity |].
  split; [exact S4 |].
  split; [rewrite G4, G3; change (gucs w2) with (gucs w1); exact G1 |].
  intros Hw.
  destruct (answered_ready c0 r0 (r1 :: r2 :: rest) w Hw) as [R1 V1].
  fold w1 in R1, V1.
  assert (R2 : ready w2) by exact R1.
  destruct (answered_ready ResetLatch r1 (r2 :: rest) w2 R2) as [R3 V3].
  fold w3 in R3, V3.
  destruct (answered_ready CHECK_FOR_INTERRUPTS r2 rest w3 R3) as [R4 V4].
  fold w4 in R4, V4.
  split; [exact R4 |].
  rewrite V4, V3. change (vars w2) with (vars w1). rewrite V1.
  unfold signals_of. cbn [map List.concat].
  rewrite !signal_flags_app, signal_flags_nil. reflexivity.
Qed.

Lemma main_wait_postmaster_death w r0 r1 rest :
  script w = r0 :: r1 :: rest ->
  returns r0 -> returns r1 ->
  Z.land (rv r0) WL_POSTMASTER_DEATH <> 0 ->
  exists w',
    main_wait w = (ProcExit 1, w')
    /\ trace w' =
         trace w ++
         [wait_call (pglogical_ticker_naptime (vars w)); ResetLatch;
          proc_exit 1].
Proof.
  intros Hs H0 H1 Hrc. unfold main_wait.
  erewrite bind_eq by reflexivity.
  erewrite bind_eq by (apply call_returns; eassumption).
  erewrite bind_eq by reflexivity.
  fold (wait_call (pglogical_ticker_naptime (vars w))).
  set (c0 := wait_call (pglogical_ticker_naptime (vars w))).
  set (w1 := answered c0 r0 (r1 :: rest) w).
  destruct (answered_frame c0 r0 (r1 :: rest) w) as (T1 & S1 & _).
  fold w1 in T1, S1.
  set (w2 := set_latch_is_set false w1).
  assert (S2 : script w2 = r1 :: rest) by exact S1.
  erewrite bind_eq by (apply call_returns; eassumption).
  set (w3 := answered ResetLatch r1 rest w2).
  destruct (answered_frame ResetLatch r1 rest w2) as (T3 & _).
  fold w3 in T3.
  apply Z.eqb_neq in Hrc. rewrite Hrc. cbn [negb].
  erewrite bind_exit by reflexivity.
  eexists. split; [reflexivity |].
  cbn [trace log set_trace]. rewrite T3. change (trace w2) with (trace w1).
  rewrite T1, <- !app_assoc. reflexivity.
Qed.

Lemma main_reload_skips w :
  got_sighup (vars w) = false -> main_reload w = (Return tt, w).
Proof.
  intros Hh. unfold main_reload.
  erewrite bind_eq by reflexivity. rewrite Hh. reflexivity.
Qed.

Lemma main_reload_runs w r rest :
  got_sighup (vars w) = true ->
  script w = r :: rest -> returns r ->
  exists w',
    main_reload w = (Return tt, w')
    /\ trace w' = trace w ++ [ProcessConfigFile PGC_SIGHUP]
    /\ script w' = rest
    /\ gucs w' = gucs w
    /\ (ready w ->
        ready w'
        /\ got_sighup (vars w') = has_signal SIGHUP (delivered r)
        /\ got_sigterm (vars w')
           = got_sigterm (vars w) || has_signal SIGTERM (delivered r)).
Proof.
  intros Hh Hs Hr. unfold main_reload.
  erewrite bind_eq by reflexivity. rewrite Hh.
  erewrite bind_eq by reflexivity.
  set (w1 := set_vars (set_got_sighup false (vars w)) w).
  assert (S1 : script w1 = r :: rest) by exact Hs.
  erewrite bind_eq by (apply call_returns; eassumption).
  set (c := ProcessConfigFile PGC_SIGHUP).
  set (w2 := answered c r rest w1).
  destruct (answered_frame c r rest w1) as (T2 & S2 & G2 & _).
  fold w2 in T2, S2, G2.
  eexists. split; [reflexivity |].
  cbn [trace script gucs vars set_vars].
  split; [exact T2 |]. split; [exact S2 |]. split; [exact G2 |].
  intros Hw.
  assert (R1 : ready w1) by exact Hw.
  destruct (answered_ready c r rest w1 R1) as [R2 V2]. fold w2 in R2, V2.
  split; [exact R2 |].
  destruct (apply_settings_flags (gucs w2) (reread r) (vars w2)) as [-> ->].
  rewrite V2. split; reflexivity.
Qed.

(** ** The loop *)

Lemma main_loop_stops fuel buf w :
  got_sigterm (vars w) = true -> main_loop fuel buf w = (Return tt, w).
Proof. intros Ht. destruct fuel; cbn [main_loop]; now rewrite Ht. Qed.

Lemma main_loop_step fuel buf w :
  got_sigterm (vars w) = false ->
  main_loop (S fuel) buf w
  = bind (main_cycle buf) (fun _ => main_loop fuel buf) w.
Proof. intros Ht. cbn [main_loop]. now rewrite Ht. Qed.

Lemma main_run_stops buf w :
  got_sigterm (vars w) = true ->
  main_run buf w = (ProcExit 1, log (proc_exit 1) w).
Proof.
  intros Ht. unfold main_run.
  erewrite bind_eq by reflexivity.
  erewrite bind_eq by (now apply main_loop_stops).
  reflexivity.
Qed.

Lemma main_run_step buf w :
  got_sigterm (vars w) = false ->
  main_run buf w
  = bind (main_cycle buf)
      (fun _ =>
         bind (main_loop (List.length (script w)) buf)
           (fun _ => terminate 1)) w.
Proof.
  intros Ht. unfold main_run.
  erewrite bind_eq by reflexivity. cbv beta.
  unfold bind at 1. rewrite (main_loop_step _ buf w Ht).
  unfold bind. destruct (main_cycle buf w) as [[] ?]; reflexivity.
Qed.

(** ** The start-up when its calls return *)

Lemma deliver_all_blocked sigs :
  forall w,
    sig_blocked w = true ->
    vars (deliver_all sigs w) = vars w
    /\ sig_pending (deliver_all sigs w) = sig_pending w ++ sigs.
Proof.
  unfold deliver_all.
  induction sigs as [| sig sigs IH]; intros w Hb; cbn [fold_left].
  - split; [reflexivity | now rewrite app_nil_r].
  - assert (E : deliver w sig = set_sig_pending (sig_pending w ++ [sig]) w).
    { unfold deliver. now rewrite Hb. }
    rewrite E.
    destruct (IH (set_sig_pending (sig_pending w ++ [sig]) w) Hb) as [V P].
    rewrite V, P. cbn [vars sig_pending set_sig_pending].
    split; [reflexivity | now rewrite <- app_assoc].
Qed.

Lemma answered_blocked c r rs w :
  sig_blocked w = true ->
  vars (answered c r rs w) = vars w
  /\ sig_pending (answered c r rs w) = sig_pending w ++ delivered r
  /\ same_signals w (answered c r rs w).
Proof.
  intros Hb. unfold answered.
  destruct (deliver_all_blocked (delivered r) (set_script rs (log c w)) Hb)
    as [V P].
  split; [exact V |]. split; [exact P |].
  apply (deliver_all_signals (delivered r) (set_script rs (log c w))).
Qed.

Lemma call_match {X} (o : option X) (f : X -> HostCall) (c : HostCall) :
  match o with Some x => call (f x) | None => call c end
  = call (match o with Some x => f x | None => c end).
Proof. now destruct o. Qed.

(** The start-up of a worker that the host has just started, when its six
    calls return. *)
Lemma main_startup_entry main_arg s entry table r1 r2 r3 r4 r5 r6 rest :
  returns r1 -> returns r2 -> returns r3 ->
  returns r4 -> returns r5 -> returns r6 ->
  exists w',
    main_startup main_arg
      (worker_entry s entry table
         (r1 :: r2 :: r3 :: r4 :: r5 :: r6 :: rest))
    = (Return "SELECT pglogical_ticker.tick();"%string, w')
    /\ trace w' =
         startup_calls main_arg (pglogical_ticker_database s) (bgw_name entry)
    /\ script w' = rest
    /\ gucs w' = table
    /\ MyBgworkerEntry w' = entry
    /\ ready w'
    /\ vars w' = signal_flags (signals_of [r1; r2; r3; r4; r5; r6]) s.
Proof.
  intros H1 H2 H3 H4 H5 H6. unfold main_startup.
  set (w := worker_entry s entry table
              (r1 :: r2 :: r3 :: r4 :: r5 :: r6 :: rest)).
  (* pqsignal(SIGHUP, ...) *)
  erewrite bind_eq by reflexivity.
  set (w0 := set_sighup_handler (Some fn_pglogical_ticker_sighup) w).
  set (c1 := pqsignal SIGHUP fn_pglogical_ticker_sighup).
  rewrite (bind_eq _ _ _ _ _
             (call_returns c1 w0 r1 (r2 :: r3 :: r4 :: r5 :: r6 :: rest)
                eq_refl H1)).
  set (w1 := answered c1 r1 (r2 :: r3 :: r4 :: r5 :: r6 :: rest) w0).
  destruct (answered_frame c1 r1 (r2 :: r3 :: r4 :: r5 :: r6 :: rest) w0)
    as (T1 & S1 & G1 & M1 & _).
  destruct (answered_blocked c1 r1 (r2 :: r3 :: r4 :: r5 :: r6 :: rest) w0
              eq_refl) as (V1 & P1 & B1 & HH1 & HT1).
  fold w1 in T1, S1, G1, M1, V1, P1, B1, HH1, HT1.
  (* pqsignal(SIGTERM, ...) *)
  erewrite bind_eq by reflexivity.
  set (w1' := set_sigterm_handler (Some fn_pglogical_ticker_sigterm) w1).
  set (c2 := pqsignal SIGTERM fn_pglogical_ticker_sigterm).
  assert (S1' : script w1' = r2 :: r3 :: r4 :: r5 :: r6 :: rest) by exact S1.
  assert (Bl1 : sig_blocked w1' = true) by exact B1.
  rewrite (bind_eq _ _ _ _ _ (call_returns c2 w1' r2 _ S1' H2)).
  set (w2 := answered c2 r2 (r3 :: r4 :: r5 :: r6 :: rest) w1').
  destruct (answered_frame c2 r2 (r3 :: r4 :: r5 :: r6 :: rest) w1')
    as (T2 & S2 & G2 & M2 & _).
  destruct (answered_blocked c2 r2 (r3 :: r4 :: r5 :: r6 :: rest) w1' Bl1)
    as (V2 & P2 & B2 & HH2 & HT2).
  fold w2 in T2, S2, G2, M2, V2, P2, B2, HH2, HT2.
  (* BackgroundWorkerUnblockSignals() *)
  erewrite bind_eq by reflexivity.
  set (u := set_sig_pending [] (set_sig_blocked false w2)).
  assert (Ru : ready u).
  { unfold ready. cbn [u sig_blocked sighup_handler sigterm_handler
                        set_sig_pending set_sig_blocked].
    rewrite HH2, HT2. cbn [w1' sighup_handler sigterm_handler
                            set_sigterm_handler].
    rewrite HH1. repeat split. }
  destruct (deliver_all_ready (sig_pending w2) u Ru) as [R2' V2'].
  destruct (deliver_all_frame (sig_pending w2) u)
    as (T2' & S2' & G2' & M2' & _).
  set (w2' := deliver_all (sig_pending w2) u) in *.
  set (c3 := BackgroundWorkerUnblockSignals).
  assert (S2'' : script w2' = r3 :: r4 :: r5 :: r6 :: rest)
    by (rewrite S2'; exact S2).
  rewrite (bind_eq _ _ _ _ _ (call_returns c3 w2' r3 _ S2'' H3)).
  set (w3 := answered c3 r3 (r4 :: r5 :: r6 :: rest) w2').
  destruct (answered_frame c3 r3 (r4 :: r5 :: r6 :: rest) w2')
    as (T3 & S3 & G3 & M3 & _).
  destruct (answered_ready c3 r3 (r4 :: r5 :: r6 :: rest) w2' R2')
    as [R3 V3].
  fold w3 in T3, S3, G3, M3, R3, V3.
  (* the connection *)
  erewrite bind_eq by reflexivity. cbv beta.
  rewrite (call_match (pglogical_ticker_database (vars w3))
             (fun name =>
                BackgroundWorkerInitializeConnection name
                  (if 110000 <=? PG_VERSION_NUM then Some 0 else None))).
  assert (VV : vars w3
               = signal_flags (delivered r1 ++ delivered r2 ++ delivered r3)
                   s).
  { rewrite V3, V2'. cbn [u vars set_sig_pending set_sig_blocked].
    rewrite V2, P2. cbn [w1' vars sig_pending set_sigterm_handler].
    rewrite V1, P1. cbn [w0 w vars sig_pending set_sighup_handler
                           worker_entry app].
    rewrite <- !signal_flags_app, <- app_assoc. reflexivity. }
  assert (D : pglogical_ticker_database (vars w3)
              = pglogical_ticker_database s) by now rewrite VV.
  rewrite D.
  set (c4 := match pglogical_ticker_database s with
             | Some name =>
                 BackgroundWorkerInitializeConnection name
                   (if 110000 <=? PG_VERSION_NUM then Some 0 else None)
             | None =>
                 BackgroundWorkerInitializeConnectionByOid
                   (DatumGetObjectId main_arg) InvalidOid
                   (if 110000 <=? PG_VERSION_NUM then Some 0 else None)
             end).
  rewrite (bind_eq _ _ _ _ _ (call_returns c4 w3 r4 _ S3 H4)).
  set (w4 := answered c4 r4 (r5 :: r6 :: rest) w3).
  destruct (answered_frame c4 r4 (r5 :: r6 :: rest) w3)
    as (T4 & S4 & G4 & M4 & _).
  destruct (answered_ready c4 r4 (r5 :: r6 :: rest) w3 R3) as [R4 V4].
  fold w4 in T4, S4, G4, M4, R4, V4.
  (* SetConfigOption and elog *)
  erewrite bind_eq by reflexivity. cbv beta.
  assert (N : bgw_name (MyBgworkerEntry w4) = bgw_name entry).
  { rewrite M4, M3, M2'. cbn [u MyBgworkerEntry set_sig_pending
                                set_sig_blocked].
    rewrite M2. cbn [w1' MyBgworkerEntry set_sigterm_handler].
    rewrite M1. reflexivity. }
  rewrite N.
  set (c5 := SetConfigOption "application_name" (bgw_name entry) PGC_USERSET
               PGC_S_SESSION).
  rewrite (bind_eq _ _ _ _ _ (call_returns c5 w4 r5 _ S4 H5)).
  set (w5 := answered c5 r5 (r6 :: rest) w4).
  destruct (answered_frame c5 r5 (r6 :: rest) w4) as (T5 & S5 & G5 & M5 & _).
  destruct (answered_ready c5 r5 (r6 :: rest) w4 R4) as [R5 V5].
  fold w5 in T5, S5, G5, M5, R5, V5.
  set (c6 := elog LOG (String.append (bgw_name entry) " initialized")).
  rewrite (bind_eq _ _ _ _ _ (call_returns c6 w5 r6 _ S5 H6)).
  set (w6 := answered c6 r6 rest w5).
  destruct (answered_frame c6 r6 rest w5) as (T6 & S6 & G6 & M6 & _).
  destruct (answered_ready c6 r6 rest w5 R5) as [R6 V6].
  fold w6 in T6, S6, G6, M6, R6, V6.
  exists w6. split; [reflexivity |].
  split.
  { rewrite T6, T5, T4, T3, T2'. cbn [u trace set_sig_pending set_sig_blocked].
    rewrite T2. cbn [w1' trace set_sigterm_handler]. rewrite T1.
    reflexivity. }
  split; [exact S6 |].
  split.
  { rewrite G6, G5, G4, G3, G2'. cbn [u gucs set_sig_pending set_sig_blocked].
    rewrite G2. cbn [w1' gucs set_sigterm_handler]. rewrite G1.
    reflexivity. }
  split.
  { rewrite M6, M5, M4, M3, M2'. cbn [u MyBgworkerEntry set_sig_pending
                                       set_sig_blocked].
    rewrite M2. cbn [w1' MyBgworkerEntry set_sigterm_handler]. rewrite M1.
    reflexivity. }
  split; [exact R6 |].
  rewrite V6, V5, V4, VV. unfold signals_of. cbn [map List.concat].
  rewrite app_nil_r, <- !signal_flags_app, <- !app_assoc. reflexivity.
Qed.

(** ** Start of the worker *)

Lemma has_signal_app sig a b :
  has_signal sig (a ++ b) = has_signal sig a || has_signal sig b.
Proof. apply existsb_app. Qed.

Lemma Forall_returns_cons r rs :
  Forall returns (r :: rs) -> returns r /\ Forall returns rs.
Proof. apply Forall_cons_iff. Qed.

Ltac split_script rs Hlen :=
  let r := fresh "r" in
  destruct rs as [| r rs]; [cbn in Hlen; lia |];
  cbn [List.length] in Hlen.

Ltac split_returns H :=
  repeat match type of H with
         | Forall returns (_ :: _) =>
             let H1 := fresh "Hret" in
             apply Forall_returns_cons in H; destruct H as [H1 H]
         end.

(** C8: the worker connects by name when [pglogical_ticker.database] is
    set, whatever its main argument is, and by the Oid in its main
    argument otherwise; it makes this one connection call, after its
    handlers are installed and signals unblocked, and no other in the
    whole run. *)
Theorem connection_target :
  forall main_arg w r1 r2 r3 rs o w',
    script w = r1 :: r2 :: r3 :: rs ->
    returns r1 -> returns r2 -> returns r3 ->
    pglogical_ticker_main main_arg w = (o, w') ->
    exists rest,
      trace w' =
        trace w ++
        [pqsignal SIGHUP fn_pglogical_ticker_sighup;
         pqsignal SIGTERM fn_pglogical_ticker_sigterm;
         BackgroundWorkerUnblockSignals;
         match pglogical_ticker_database (vars w) with
         | Some name =>
             BackgroundWorkerInitializeConnection name
               (if 110000 <=? PG_VERSION_NUM then Some 0 else None)
         | None =>
             BackgroundWorkerInitializeConnectionByOid
               (DatumGetObjectId main_arg) InvalidOid
               (if 110000 <=? PG_VERSION_NUM then Some 0 else None)
         end] ++ rest
      /\ Forall not_connect rest.
Proof.
  intros main_arg w r1 r2 r3 rs o w' Hs H1 H2 H3 E.
  unfold pglogical_ticker_main, main_startup in E.
  rewrite bind_assoc in E. erewrite bind_eq in E by reflexivity.
  set (w0 := set_sighup_handler (Some fn_pglogical_ticker_sighup) w) in E.
  assert (S0 : script w0 = r1 :: r2 :: r3 :: rs) by exact Hs.
  rewrite bind_assoc in E.
  erewrite bind_eq in E by (apply call_returns; eassumption).
  set (c1 := pqsignal SIGHUP fn_pglogical_ticker_sighup) in E.
  destruct (answered_frame c1 r1 (r2 :: r3 :: rs) w0)
    as (T1 & S1 & _ & _ & _ & D1 & _).
  set (w1 := answered c1 r1 (r2 :: r3 :: rs) w0) in *.
  rewrite bind_assoc in E. erewrite bind_eq in E by reflexivity.
  set (w1' := set_sigterm_handler (Some fn_pglogical_ticker_sigterm) w1) in E.
  assert (S1' : script w1' = r2 :: r3 :: rs) by exact S1.
  rewrite bind_assoc in E.
  erewrite bind_eq in E by (apply call_returns; eassumption).
  set (c2 := pqsignal SIGTERM fn_pglogical_ticker_sigterm) in E.
  destruct (answered_frame c2 r2 (r3 :: rs) w1')
    as (T2 & S2 & _ & _ & _ & D2 & _).
  set (w2 := answered c2 r2 (r3 :: rs) w1') in *.
  rewrite bind_assoc in E. erewrite bind_eq in E by reflexivity.
  set (w2' := deliver_all (sig_pending w2)
                (set_sig_pending [] (set_sig_blocked false w2))) in E.
  destruct (deliver_all_frame (sig_pending w2)
              (set_sig_pending [] (set_sig_blocked false w2)))
    as (T2' & S2' & _ & _ & _ & D2' & _).
  fold w2' in T2', S2', D2'. cbn [trace script vars set_sig_pending
    set_sig_blocked] in T2', S2', D2'.
  rewrite S2 in S2'.
  rewrite bind_assoc in E.
  erewrite bind_eq in E by (apply call_returns; eassumption).
  set (c3 := BackgroundWorkerUnblockSignals) in E.
  destruct (answered_frame c3 r3 rs w2') as (T3 & S3 & _ & _ & _ & D3 & _).
  set (w3 := answered c3 r3 rs w2') in *.
  rewrite bind_assoc in E. erewrite bind_eq in E by reflexivity.
  assert (D : pglogical_ticker_database (vars w3)
              = pglogical_ticker_database (vars w)).
  { rewrite D3, D2', D2. change (vars w1') with (vars w1). rewrite D1.
    reflexivity. }
  rewrite D in E.
  assert (T : trace w3 = trace w ++ [c1; c2; c3]).
  { rewrite T3, T2', T2. change (trace w1') with (trace w1). rewrite T1.
    change (trace w0) with (trace w). rewrite <- !app_assoc. reflexivity. }
  rewrite bind_assoc in E.
  assert (K : forall c k,
             bind (call c) k w3 = (o, w') ->
             (forall r, emits not_connect (k r)) ->
             exists rest,
               trace w' = trace w ++ [c1; c2; c3; c] ++ rest
               /\ Forall not_connect rest).
  { intros c k Ec Hk.
    destruct (call_then_emits not_connect c k Hk _ _ _ Ec) as (rest & Tr & F).
    exists rest. split; [| exact F]. rewrite Tr, T, <- app_assoc.
    reflexivity. }
  assert (Hk : forall r : Response,
             emits not_connect
               (bind
                  (bind (gets (fun w => bgw_name (MyBgworkerEntry w)))
                     (fun name =>
                        bind
                          (call
                             (SetConfigOption "application_name" name
                                PGC_USERSET PGC_S_SESSION))
                          (fun _ =>
                             bind
                               (call
                                  (elog LOG
                                     (String.append name " initialized")))
                               (fun _ =>
                                  ret
                                    (String.append EmptyString
                                       "SELECT pglogical_ticker.tick();")))))
                  (fun buf => main_run buf))).
  { intros r. apply emits_bind; [| intros buf; apply emits_main_run].
    apply emits_bind; [apply emits_gets | intros name].
    apply emits_bind; [apply emits_call; reflexivity | intros _].
    apply emits_bind; [apply emits_call; reflexivity | intros _].
    apply emits_ret. }
  destruct (pglogical_ticker_database (vars w)) as [name |];
    exact (K _ _ E Hk).
Qed.

(** ** Exit *)

(** C7: whenever the worker process exits it does so with status 1: when
    the loop finds [got_sigterm] set it leaves the loop and calls
    [proc_exit(1)]; when [WaitLatch] reports the death of the postmaster
    it calls [proc_exit(1)] right after resetting the latch; and no run of
    [pglogical_ticker_main] exits with another status. *)
Theorem worker_exit_status :
  (forall main_arg w c w',
      pglogical_ticker_main main_arg w = (ProcExit c, w') ->
      c = 1 /\ c <> 0)
  /\ (forall buf w,
        got_sigterm (vars w) = true ->
        main_run buf w = (ProcExit 1, log (proc_exit 1) w))
  /\ (forall buf w r0 r1 rest,
        got_sigterm (vars w) = false ->
        script w = r0 :: r1 :: rest ->
        returns r0 -> returns r1 ->
        Z.land (rv r0) WL_POSTMASTER_DEATH <> 0 ->
        exists w',
          main_run buf w = (ProcExit 1, w')
          /\ trace w' =
               trace w ++
               [wait_call (pglogical_ticker_naptime (vars w)); ResetLatch;
                proc_exit 1]).
Proof.
  split; [| split].
  - intros main_arg w c w' E.
    destruct (sane_pglogical_ticker_main main_arg _ _ _ E) as (_ & X & _).
    rewrite (X c eq_refl). split; [reflexivity | discriminate].
  - intros buf w Ht. now apply main_run_stops.
  - intros buf w r0 r1 rest Ht Hs H0 H1 Hrc.
    destruct (main_wait_postmaster_death w r0 r1 rest Hs H0 H1 Hrc)
      as (w' & E & T).
    exists w'. split; [| exact T].
    rewrite (main_run_step buf w Ht). unfold main_cycle.
    rewrite bind_assoc. now apply bind_exit.
Qed.

(** ** Errors in the unit of work *)

(** C3 (as amended): when a host call of the unit of work raises an
    error, the error leaves the main loop, which has no handler for it:
    [pglogical_ticker_main] ends with that error, the raising call is the
    last call it makes (the rest of the transaction, later waits and
    later ticks are never reached), and the answers the host had for
    later calls stay unused. *)
Theorem tick_error_leaves_the_loop :
  forall buf w w1 pre r rs e,
    got_sigterm (vars w) = false ->
    bind main_wait (fun _ => main_reload) w = (Return tt, w1) ->
    script w1 = pre ++ r :: rs ->
    (List.length pre < 12)%nat ->
    Forall returns pre ->
    raises r = Some e ->
    exists w',
      main_run buf w = (Error e, w')
      /\ trace w' =
           trace w1 ++ firstn (S (List.length pre)) (tick_calls buf)
      /\ script w' = rs.
Proof.
  intros buf w w1 pre r rs e Ht Ew Hs Hlen Hret Hr.
  destruct (call_seq_raises (tick_calls buf) w1 pre r rs e Hs Hlen Hret Hr)
    as (w' & Et & T & S).
  exists w'. split; [| split; [exact T | exact S]].
  destruct (bind_cases _ _ _ _ _ Ew) as [([] & w0 & E0 & E1) | [_ Hn]];
    [| now destruct (Hn tt)].
  rewrite (main_run_step buf w Ht). unfold main_cycle.
  rewrite bind_assoc. erewrite bind_eq by exact E0. cbv beta.
  rewrite bind_assoc. erewrite bind_eq by exact E1. cbv beta.
  apply bind_error. rewrite main_tick_seq. exact Et.
Qed.

(** ** One iteration whose calls all return *)

Lemma Forall_firstn_S {A} (P : A -> Prop) n :
  forall l, Forall P (firstn (S n) l) -> Forall P (firstn n l).
Proof.
  induction n as [| n IH]; intros l H; [constructor |].
  destruct l as [| a l]; [constructor |].
  rewrite firstn_cons in H. apply Forall_cons_iff in H. destruct H as [Ha H].
  rewrite firstn_cons. constructor; [exact Ha | now apply IH].
Qed.

Lemma signals_of_cons r rs : signals_of (r :: rs) = delivered r ++ signals_of rs.
Proof. reflexivity. Qed.

Lemma got_sigterm_flags sigs s :
  got_sigterm (signal_flags sigs s) = got_sigterm s || has_signal SIGTERM sigs.
Proof. reflexivity. Qed.

Lemma got_sighup_flags sigs s :
  got_sighup (signal_flags sigs s) = got_sighup s || has_signal SIGHUP sigs.
Proof. reflexivity. Qed.

(** The loop body when the postmaster is alive and every call returns:
    whether the configuration is re-read depends on the [SIGHUP]s
    received so far; the unit of work is run in either case. *)
Lemma main_cycle_returns buf w r0 r1 r2 rs :
  ready w ->
  script w = r0 :: r1 :: r2 :: rs ->
  (13 <= List.length rs)%nat ->
  Forall returns (r0 :: r1 :: r2 :: firstn 13 rs) ->
  Z.land (rv r0) WL_POSTMASTER_DEATH = 0 ->
  exists w',
    main_cycle buf w = (Return tt, w')
    /\ trace w' =
         trace w ++
         [wait_call (pglogical_ticker_naptime (vars w)); ResetLatch;
          CHECK_FOR_INTERRUPTS] ++
         (if got_sighup (signal_flags (signals_of [r0; r1; r2]) (vars w))
          then [ProcessConfigFile PGC_SIGHUP] else []) ++
         tick_calls buf
    /\ script w' =
         skipn
           (if got_sighup (signal_flags (signals_of [r0; r1; r2]) (vars w))
            then 13 else 12) rs
    /\ ready w'
    /\ got_sigterm (vars w') =
         got_sigterm (vars w)
         || has_signal SIGTERM
              (signals_of
                 (r0 :: r1 :: r2 ::
                  firstn
                    (if got_sighup
                          (signal_flags (signals_of [r0; r1; r2]) (vars w))
                     then 13 else 12) rs)).
Proof.
  intros Hw Hs Hlen Hret Hrc.
  split_returns Hret.
  destruct (main_wait_returns w r0 r1 r2 rs Hs Hret0 Hret1 Hret2 Hrc)
    as (w1 & E1 & T1 & S1 & G1 & R1).
  destruct (R1 Hw) as [Hw1 V1]. clear R1.
  unfold main_cycle.
  erewrite bind_eq by exact E1. cbv beta.
  rewrite <- V1.
  destruct (got_sighup (vars w1)) eqn:Hhup.
  - destruct rs as [| r3 rs]; [cbn in Hlen; lia |].
    cbn [List.length] in Hlen. rewrite firstn_cons in Hret.
    apply Forall_returns_cons in Hret. destruct Hret as [Hret3 Hret].
    destruct (main_reload_runs w1 r3 rs Hhup S1 Hret3)
      as (w2 & E2 & T2 & S2 & G2 & R2).
    destruct (R2 Hw1) as (Hw2 & _ & V2). clear R2.
    erewrite bind_eq by exact E2. cbv beta.
    assert (L : List.length (firstn 12 rs) = List.length (tick_calls buf)).
    { rewrite length_firstn. cbn [tick_calls List.length]. lia. }
    rewrite <- (firstn_skipn 12 rs) in S2 at 1.
    destruct (call_seq_returns (tick_calls buf) w2 _ _ S2 L Hret)
      as (w3 & E3 & T3 & S3 & G3 & R3).
    destruct (R3 Hw2) as [Hw3 V3]. clear R3.
    exists w3. split; [rewrite main_tick_seq; exact E3 |].
    split; [rewrite T3, T2, T1, <- !app_assoc; reflexivity |].
    split; [exact S3 |]. split; [exact Hw3 |].
    rewrite V3, got_sigterm_flags, V2, V1, got_sigterm_flags.
    rewrite firstn_cons, !signals_of_cons, !has_signal_app.
    change (has_signal SIGTERM (signals_of [])) with false.
    rewrite orb_false_r, !orb_assoc. reflexivity.
  - rewrite (bind_eq _ _ _ _ _ (main_reload_skips w1 Hhup)).
    assert (L : List.length (firstn 12 rs) = List.length (tick_calls buf)).
    { rewrite length_firstn. cbn [tick_calls List.length]. lia. }
    rewrite <- (firstn_skipn 12 rs) in S1 at 1.
    apply Forall_firstn_S in Hret.
    destruct (call_seq_returns (tick_calls buf) w1 _ _ S1 L Hret)
      as (w3 & E3 & T3 & S3 & G3 & R3).
    destruct (R3 Hw1) as [Hw3 V3]. clear R3.
    exists w3. split; [rewrite main_tick_seq; exact E3 |].
    split; [rewrite T3, T1, <- !app_assoc; reflexivity |].
    split; [exact S3 |]. split; [exact Hw3 |].
    rewrite V3, got_sigterm_flags, V1, got_sigterm_flags.
    rewrite !signals_of_cons, !has_signal_app.
    change (has_signal SIGTERM (signals_of [])) with false.
    rewrite orb_false_r, !orb_assoc. reflexivity.
Qed.

(** ** What a reload changes *)

Lemma same_gucs_trans s1 s2 s3 :
  same_gucs s1 s2 -> same_gucs s2 s3 -> same_gucs s1 s3.
Proof. unfold same_gucs. intuition congruence. Qed.

Lemma same_gucs_flags sigs s : same_gucs s (signal_flags sigs s).
Proof. repeat split. Qed.

Lemma apply_setting_same_gucs table st s s' :
  same_gucs s s' ->
  same_gucs (apply_setting table s st) (apply_setting table s' st).
Proof.
  intros (N & D & R). unfold apply_setting.
  destruct (find_guc (fst st) table) as [[d | d] |]; destruct (snd st);
    try (repeat split; assumption).
  unfold assign_int. destruct (int_in_range d v);
    [| repeat split; assumption].
  destruct (ci_variable d); repeat split; assumption.
Qed.

Lemma apply_settings_same_gucs table sts :
  forall s s',
    same_gucs s s' ->
    same_gucs (apply_settings table sts s) (apply_settings table sts s').
Proof.
  unfold apply_settings.
  induction sts as [| st sts IH]; intros s s' H; cbn [fold_left];
    [exact H |].
  apply IH. now apply apply_setting_same_gucs.
Qed.

Lemma main_reload_vars w r rest :
  ready w ->
  got_sighup (vars w) = true ->
  script w = r :: rest -> returns r ->
  exists w',
    main_reload w = (Return tt, w')
    /\ script w' = rest
    /\ gucs w' = gucs w
    /\ ready w'
    /\ vars w' =
         apply_settings (gucs w) (reread r)
           (signal_flags (delivered r) (set_got_sighup false (vars w))).
Proof.
  intros Hw Hh Hs Hr. unfold main_reload.
  erewrite bind_eq by reflexivity. rewrite Hh.
  erewrite bind_eq by reflexivity.
  set (w1 := set_vars (set_got_sighup false (vars w)) w).
  assert (S1 : script w1 = r :: rest) by exact Hs.
  erewrite bind_eq by (apply call_returns; eassumption).
  set (c := ProcessConfigFile PGC_SIGHUP).
  destruct (answered_frame c r rest w1) as (_ & S2 & G2 & _).
  assert (R1 : ready w1) by exact Hw.
  destruct (answered_ready c r rest w1 R1) as [R2 V2].
  set (w2 := answered c r rest w1) in *.
  eexists. split; [reflexivity |].
  cbn [script gucs vars set_vars].
  split; [exact S2 |]. split; [exact G2 |]. split; [exact R2 |].
  now rewrite V2, G2.
Qed.

(** An iteration that re-reads the configuration, with the variables as
    it leaves them. *)
Lemma main_cycle_reload_vars buf w r0 r1 r2 r3 rs :
  ready w ->
  script w = r0 :: r1 :: r2 :: r3 :: rs ->
  got_sighup (signal_flags (signals_of [r0; r1; r2]) (vars w)) = true ->
  Z.land (rv r0) WL_POSTMASTER_DEATH = 0 ->
  (12 <= List.length rs)%nat ->
  Forall returns (r0 :: r1 :: r2 :: r3 :: firstn 12 rs) ->
  exists w',
    main_cycle buf w = (Return tt, w')
    /\ gucs w' = gucs w
    /\ ready w'
    /\ vars w' =
         signal_flags (signals_of (firstn 12 rs))
           (apply_settings (gucs w) (reread r3)
              (signal_flags (delivered r3)
                 (set_got_sighup false
                    (signal_flags (signals_of [r0; r1; r2]) (vars w))))).
Proof.
  intros Hw Hs Hsig Hrc Hlen Hret. split_returns Hret.
  destruct (main_wait_returns w r0 r1 r2 (r3 :: rs) Hs Hret0 Hret1 Hret2 Hrc)
    as (w1 & E1 & _ & S1 & G1 & R1).
  destruct (R1 Hw) as [Hw1 V1]. clear R1.
  assert (Hh : got_sighup (vars w1) = true) by (rewrite V1; exact Hsig).
  destruct (main_reload_vars w1 r3 rs Hw1 Hh S1 Hret3)
    as (w2 & E2 & S2 & G2 & Hw2 & V2).
  assert (L : List.length (firstn 12 rs) = List.length (tick_calls buf)).
  { rewrite length_firstn. cbn [tick_calls List.length]. lia. }
  rewrite <- (firstn_skipn 12 rs) in S2 at 1.
  destruct (call_seq_returns (tick_calls buf) w2 _ _ S2 L Hret)
    as (w3 & E3 & _ & _ & G3 & R3).
  destruct (R3 Hw2) as [Hw3 V3]. clear R3.
  exists w3. split; [| split; [| split]].
  - unfold main_cycle.
    erewrite bind_eq by exact E1. cbv beta.
    erewrite bind_eq by exact E2. cbv beta.
    rewrite main_tick_seq. exact E3.
  - now rewrite G3, G2.
  - exact Hw3.
  - now rewrite V3, V2, V1, G1.
Qed.

(** The flag and the variables after an iteration that re-reads the
    configuration. *)
Lemma reloaded_flag table sts sigs sigs' s :
  got_sighup
    (signal_flags sigs'
       (apply_settings table sts
          (signal_flags sigs (set_got_sighup false s))))
  = has_signal SIGHUP (sigs ++ sigs').
Proof.
  rewrite got_sighup_flags.
  destruct (apply_settings_flags table sts
              (signal_flags sigs (set_got_sighup false s))) as [-> _].
  rewrite got_sighup_flags, has_signal_app. reflexivity.
Qed.

Lemma reloaded_gucs table sts sigs sigs' sigs'' s :
  same_gucs (apply_settings table sts s)
    (signal_flags sigs''
       (apply_settings table sts
          (signal_flags sigs' (set_got_sighup false (signal_flags sigs s))))).
Proof.
  apply (same_gucs_trans _
           (apply_settings table sts
              (signal_flags sigs'
                 (set_got_sighup false (signal_flags sigs s)))));
    [| apply same_gucs_flags].
  apply apply_settings_same_gucs. repeat split.
Qed.

(** ** Shutdown and reload requests during the wait *)



(* ===================================================================== *)
(** * Registration of the workers *)
(* ===================================================================== *)

(** C9: the definitions made by [_PG_init] give the tick interval the
    range [[1, INT_MAX]] and the restart delay the range [[-1, INT_MAX]];
    with the host refusing values outside the declared range, the two
    variables stay within these ranges, from the loading of the library
    through any number of reloads.  The restart delay that [_PG_init]
    hands to the host is the value the host holds for
    [pglogical_ticker.restart_time] when the library is loaded, on every
    descriptor it registers, and it registers one exactly when the
    library is preloaded and the host holds a database name, whatever the
    restart delay is.  In particular, when the host's last setting of the
    restart delay is -1, the worker is registered with a restart time of
    -1.  [pglogical_ticker_launch] too registers its descriptor with the
    current value of the variable, -1 included. *)
Theorem config_bounds_and_restart_passthrough :
  (forall env p,
      exists dn ds dr,
        l_gucs (_PG_init env p) =
          l_gucs p ++ [ConfigInt dn; ConfigString ds; ConfigInt dr]
        /\ ci_variable dn = addr_naptime
        /\ ci_min dn = 1 /\ ci_max dn = INT_MAX
        /\ ci_variable dr = addr_restart_time
        /\ ci_min dr = -1 /\ ci_max dr = INT_MAX)
  /\ (forall env (reloads : list (list Setting)),
        let p' := _PG_init env loader_init in
        let s :=
          fold_left (fun s sts => apply_settings (l_gucs p') sts s)
            reloads (l_vars p') in
        1 <= pglogical_ticker_naptime s <= INT_MAX
        /\ -1 <= pglogical_ticker_restart_time s <= INT_MAX)
  /\ (forall env p,
        let restart :=
          last_int "pglogical_ticker.restart_time" (-1) INT_MAX
            (config_file env) (pglogical_ticker_restart_time (l_vars p)) in
        let database :=
          last_string "pglogical_ticker.database" (config_file env)
            (pglogical_ticker_database (l_vars p)) in
        pglogical_ticker_restart_time (l_vars (_PG_init env p)) = restart
        /\ pglogical_ticker_database (l_vars (_PG_init env p)) = database
        /\ exists new,
             l_registered (_PG_init env p) = l_registered p ++ new
             /\ Forall (fun worker => bgw_restart_time worker = restart) new
             /\ List.length new =
                  if process_shared_preload_libraries_in_progress env
                  then
                    match database with
                    | Some _ => 1%nat
                    | None => 0%nat
                    end
                  else 0%nat)
  /\ (forall env p name pre post,
        process_shared_preload_libraries_in_progress env = true ->
        last_string "pglogical_ticker.database" (config_file env)
          (pglogical_ticker_database (l_vars p)) = Some name ->
        config_file env =
          pre ++ ("pglogical_ticker.restart_time"%string, GucInt (-1))
                 :: post ->
        Forall (fun st => fst st <> "pglogical_ticker.restart_time"%string)
          post ->
        exists worker,
          l_registered (_PG_init env p) = l_registered p ++ [worker]
          /\ bgw_restart_time worker = -1)
  /\ (forall s env arg0,
        exists worker rest,
          fst (pglogical_ticker_launch s env arg0) =
            RegisterDynamicBackgroundWorker worker :: rest
          /\ bgw_restart_time worker = pglogical_ticker_restart_time s).
Proof.
  split; [| split; [| split; [| split]]].
  - intros env p.
    destruct (PG_init_vars env p) as [_ ->]. rewrite defined_gucs.
    do 3 eexists. split; [reflexivity |]. simpl. repeat split.
  - intros env reloads p' s.
    assert (Hb : in_bounds (l_vars p')
                 /\ Forall narrow (l_gucs p')).
    { subst p'. destruct (PG_init_vars env loader_init) as [-> ->].
      apply defined_bounds. }
    destruct Hb as [Hv Ht]. subst s.
    generalize dependent (l_vars p'). generalize dependent (l_gucs p').
    intros table Ht. induction reloads as [| sts reloads IH]; intros s0 Hs0.
    + exact Hs0.
    + simpl. apply IH. now apply apply_settings_bounds.
  - intros env p restart database.
    destruct (PG_init_vars env p) as [V _].
    destruct (defined_vars env p) as (_ & D & R).
    rewrite V. split; [exact R |]. split; [exact D |].
    rewrite PG_init_registered, defined_registered, D, R.
    fold restart database.
    eexists. split; [reflexivity |].
    destruct (process_shared_preload_libraries_in_progress env);
      [| split; [constructor | reflexivity]].
    destruct database; [| split; [constructor | reflexivity]].
    split; [| reflexivity].
    repeat constructor. unfold fill_bgw_type.
    destruct (110000 <=? PG_VERSION_NUM); reflexivity.
  - intros env p name pre post Hpre Hdb Hcf Hpost.
    destruct (defined_vars env p) as (_ & D & R).
    rewrite PG_init_registered, defined_registered, D, R, Hpre, Hdb, Hcf.
    rewrite last_int_last; [| unfold INT_MAX; lia | exact Hpost].
    eexists. split; [reflexivity |].
    unfold fill_bgw_type. destruct (110000 <=? PG_VERSION_NUM); reflexivity.
  - intros s env arg0. unfold pglogical_ticker_launch.
    destruct (registration env) as [handle |].
    + destruct (startup env) as [[[] pid] | | | | |];
        (do 2 eexists; split; [reflexivity |]; simpl; unfold fill_bgw_type;
         destruct (110000 <=? PG_VERSION_NUM); reflexivity).
    + do 2 eexists. split; [reflexivity |]. simpl. unfold fill_bgw_type.
      destruct (110000 <=? PG_VERSION_NUM); reflexivity.
Qed.

(** C10: [_PG_init] registers a static worker exactly when the library is
    being preloaded and the host holds a value for
    [pglogical_ticker.database], which is then the value of the
    variable; it registers one worker, whose main argument is the datum
    0, read back by the worker as [InvalidOid].  So a worker started with
    that argument connects to the database that the variable names, and,
    should the variable be unset in its process, asks for [InvalidOid],
    which is no database: the argument never supplies a target. *)
Theorem PG_init_static_registration :
  forall env p,
    let p' := _PG_init env p in
    let database :=
      last_string "pglogical_ticker.database" (config_file env)
        (pglogical_ticker_database (l_vars p)) in
    pglogical_ticker_database (l_vars p') = database
    /\ l_registered p' =
         l_registered p ++
         (if process_shared_preload_libraries_in_progress env
          then
            match database with
            | Some _ =>
                [ {| bgw_name := snprintf_bgw "pglogical_ticker worker 1";
                     bgw_type :=
                       if 110000 <=? PG_VERSION_NUM
                       then snprintf_bgw "pglogical_ticker" else EmptyString;
                     bgw_flags :=
                       Z.lor BGWORKER_SHMEM_ACCESS
                         BGWORKER_BACKEND_DATABASE_CONNECTION;
                     bgw_start_time := BgWorkerStart_RecoveryFinished;
                     bgw_restart_time :=
                       pglogical_ticker_restart_time (l_vars p');
                     bgw_library_name := "pglogical_ticker";
                     bgw_function_name := "pglogical_ticker_main";
                     bgw_main_arg := Int32GetDatum 0;
                     bgw_notify_pid := 0 |} ]
            | None => []
            end
          else [])
    /\ Int32GetDatum 0 = 0
    /\ DatumGetObjectId (Int32GetDatum 0) = InvalidOid
    /\ (forall s entry table r1 r2 r3 r4 r5 r6 rest,
          Forall returns [r1; r2; r3; r4; r5; r6] ->
          exists w',
            main_startup (Int32GetDatum 0)
              (worker_entry s entry table
                 (r1 :: r2 :: r3 :: r4 :: r5 :: r6 :: rest))
            = (Return "SELECT pglogical_ticker.tick();"%string, w')
            /\ nth 3 (trace w') ResetLatch =
                 match pglogical_ticker_database s with
                 | Some name =>
                     BackgroundWorkerInitializeConnection name
                       (if 110000 <=? PG_VERSION_NUM then Some 0 else None)
                 | None =>
                     BackgroundWorkerInitializeConnectionByOid InvalidOid
                       InvalidOid
                       (if 110000 <=? PG_VERSION_NUM then Some 0 else None)
                 end).
Proof.
  intros env p p' database.
  assert (D : pglogical_ticker_database (l_vars p') = database).
  { subst p'. destruct (PG_init_vars env p) as [-> _].
    now destruct (defined_vars env p) as (_ & -> & _). }
  split; [exact D |]. split; [| split; [| split]].
  - rewrite <- D. subst p'. destruct (PG_init_vars env p) as [-> _].
    rewrite PG_init_registered, defined_registered.
    destruct (process_shared_preload_libraries_in_progress env);
      [| reflexivity].
    destruct (pglogical_ticker_database (l_vars (defined env p)));
      [| reflexivity].
    unfold fill_bgw_type.
    destruct (110000 <=? PG_VERSION_NUM); reflexivity.
  - unfold Int32GetDatum, to_Datum. apply Z.mod_0_l.
    unfold datum_bits. destruct SIZEOF_DATUM; compute; congruence.
  - apply DatumGetObjectId_zero.
  - intros s entry table r1 r2 r3 r4 r5 r6 rest Hret.
    split_returns Hret.
    destruct (main_startup_entry (Int32GetDatum 0) s entry table
                r1 r2 r3 r4 r5 r6 rest
                Hret0 Hret1 Hret2 Hret3 Hret4 Hret5)
      as (w' & E & T & _).
    exists w'. split; [exact E |].
    rewrite T. unfold startup_calls. cbn [nth].
    now rewrite DatumGetObjectId_zero.
Qed.

(* ===================================================================== *)
(** * Further properties *)
(* ===================================================================== *)

(** ** [pglogical_ticker_launch] *)


(** X2: the descriptor that [pglogical_ticker_launch] registers carries
    the Oid it was given: read back as the worker reads its main
    argument, it is the Oid of the call's first argument, for 4-byte and
    8-byte [Datum] alike; and the descriptor names the calling backend as
    the process to notify, which is what lets the function wait for the
    start. *)
Theorem launch_descriptor_roundtrip :
  forall (s : Statics) (env : LaunchEnv) (arg0 : Datum),
    exists worker rest,
      fst (pglogical_ticker_launch s env arg0)
      = RegisterDynamicBackgroundWorker worker :: rest
      /\ DatumGetObjectId (bgw_main_arg worker) = DatumGetObjectId arg0
      /\ 0 <= DatumGetObjectId (bgw_main_arg worker) < 2 ^ 32
      /\ bgw_notify_pid worker = MyProcPid env
      /\ bgw_function_name worker = "pglogical_ticker_main"%string
      /\ bgw_library_name worker = "pglogical_ticker"%string.
Proof.
  intros s env arg0. unfold pglogical_ticker_launch.
  assert (R : 0 <= DatumGetObjectId
                     (ObjectIdGetDatum (DatumGetObjectId arg0)) < 2 ^ 32).
  { unfold DatumGetObjectId at 1. unfold to_uint32.
    apply Z.mod_pos_bound. reflexivity. }
  destruct (registration env) as [handle |].
  - destruct (startup env) as [[[] pid] | | | | |];
      (do 2 eexists; split; [reflexivity |]; cbn;
       unfold fill_bgw_type; destruct (110000 <=? PG_VERSION_NUM); cbn;
       (split; [apply launched_oid_roundtrip |]);
       (split; [exact R |]); repeat split).
  - do 2 eexists. split; [reflexivity |]. cbn.
    unfold fill_bgw_type; destruct (110000 <=? PG_VERSION_NUM); cbn;
      (split; [apply launched_oid_roundtrip |]);
      (split; [exact R |]); repeat split.
Qed.

(** ** [_PG_init] *)

Lemma apply_setting_other_name d s st :
  String.eqb (guc_name d) (fst st) = false ->
  apply_setting [d] s st = s.
Proof.
  intros Hn. unfold apply_setting. cbn [find_guc]. rewrite Hn. reflexivity.
Qed.

Lemma apply_settings_other_names d sts s :
  Forall (fun st => String.eqb (guc_name d) (fst st) = false) sts ->
  apply_settings [d] sts s = s.
Proof.
  unfold apply_settings. intros H. revert s.
  induction H as [| st sts Hst _ IH]; intros s; cbn [fold_left];
    [reflexivity |].
  rewrite (apply_setting_other_name d s st Hst). apply IH.
Qed.

(** X3: when the host holds no setting under one of the three names that
    [_PG_init] defines, the variables keep the values of their
    initialisers, a tick every 10 seconds, no database, a restart after 10
    seconds, and, the database being unset, no worker is registered, in a
    preloading host as in any other. *)
Theorem PG_init_defaults :
  forall env,
    Forall (fun st => ~ In (fst st) guc_names) (config_file env) ->
    l_vars (_PG_init env loader_init) = statics_init
    /\ l_registered (_PG_init env loader_init) = [].
Proof.
  intros env Hconf.
  assert (Hd : forall d,
             In (guc_name d) guc_names ->
             Forall (fun st => String.eqb (guc_name d) (fst st) = false)
               (config_file env)).
  { intros d Hin. eapply Forall_impl; [| exact Hconf].
    intros st Hst. cbv beta in Hst. apply String.eqb_neq.
    intros Heq. apply Hst. rewrite <- Heq. exact Hin. }
  assert (V : l_vars (defined env loader_init) = statics_init).
  { unfold defined.
    cbn [DefineCustomIntVariable DefineCustomStringVariable l_vars l_gucs
         l_registered loader_init].
    rewrite (apply_settings_other_names
               (ConfigInt (naptime_guc statics_init)))
      by (apply Hd; cbn; auto).
    cbn [naptime_guc ci_variable ci_boot_val store_int].
    change (set_naptime (pglogical_ticker_naptime statics_init) statics_init)
      with statics_init.
    rewrite (apply_settings_other_names
               (ConfigString (database_guc statics_init)))
      by (apply Hd; cbn; auto).
    change (set_database (cs_boot_val (database_guc statics_init))
              statics_init) with statics_init.
    rewrite (apply_settings_other_names
               (ConfigInt (restart_time_guc statics_init)))
      by (apply Hd; cbn; auto).
    reflexivity. }
  destruct (PG_init_vars env loader_init) as [-> _].
  split; [exact V |].
  rewrite PG_init_registered, defined_registered, V.
  destruct (process_shared_preload_libraries_in_progress env); reflexivity.
Qed.

(** ** Signals during start-up *)

(** X4: no signal that arrives during the start-up is lost.  A signal
    delivered before [BackgroundWorkerUnblockSignals], while signals are
    still blocked, reaches the module's handler when signals are
    unblocked, both handlers being installed by then; one delivered later
    reaches the handler at once.  When the start-up returns, each flag is
    set exactly when it was set before or its signal has arrived during
    one of the six calls, and the configuration variables are
    untouched. *)
Theorem startup_keeps_signals :
  forall main_arg s entry table r1 r2 r3 r4 r5 r6 rest,
    Forall returns [r1; r2; r3; r4; r5; r6] ->
    exists buf w',
      main_startup main_arg
        (worker_entry s entry table
           (r1 :: r2 :: r3 :: r4 :: r5 :: r6 :: rest))
      = (Return buf, w')
      /\ ready w'
      /\ got_sigterm (vars w') =
           got_sigterm s
           || has_signal SIGTERM (signals_of [r1; r2; r3; r4; r5; r6])
      /\ got_sighup (vars w') =
           got_sighup s
           || has_signal SIGHUP (signals_of [r1; r2; r3; r4; r5; r6])
      /\ same_gucs s (vars w')
      /\ script w' = rest.
Proof.
  intros main_arg s entry table r1 r2 r3 r4 r5 r6 rest Hret.
  split_returns Hret.
  destruct (main_startup_entry main_arg s entry table r1 r2 r3 r4 r5 r6 rest
              Hret0 Hret1 Hret2 Hret3 Hret4 Hret5)
    as (w' & E & _ & S & _ & _ & R & V).
  exists "SELECT pglogical_ticker.tick();"%string, w'.
  split; [exact E |]. split; [exact R |].
  rewrite V. split; [reflexivity |]. split; [reflexivity |].
  split; [repeat split | exact S].
Qed.

(** X5: a [SIGTERM] that arrives during the start-up, blocked or not,
    ends the worker before its first wait: the loop is not entered, no
    unit of work is run, and the process exits with status 1 right after
    the six start-up calls. *)
Theorem shutdown_during_startup :
  forall main_arg s entry table r1 r2 r3 r4 r5 r6 rest,
    Forall returns [r1; r2; r3; r4; r5; r6] ->
    has_signal SIGTERM (signals_of [r1; r2; r3; r4; r5; r6]) = true ->
    exists w',
      pglogical_ticker_main main_arg
        (worker_entry s entry table
           (r1 :: r2 :: r3 :: r4 :: r5 :: r6 :: rest))
      = (ProcExit 1, w')
      /\ trace w' =
           startup_calls main_arg (pglogical_ticker_database s)
             (bgw_name entry)
           ++ [proc_exit 1]
      /\ script w' = rest.
Proof.
  intros main_arg s entry table r1 r2 r3 r4 r5 r6 rest Hret Hsig.
  split_returns Hret.
  destruct (main_startup_entry main_arg s entry table r1 r2 r3 r4 r5 r6 rest
              Hret0 Hret1 Hret2 Hret3 Hret4 Hret5)
    as (w' & E & T & S & _ & _ & R & V).
  assert (Ht : got_sigterm (vars w') = true).
  { rewrite V, got_sigterm_flags, Hsig. apply orb_true_r. }
  exists (log (proc_exit 1) w').
  split; [| split].
  - unfold pglogical_ticker_main.
    rewrite (bind_eq _ _ _ _ _ E). now apply main_run_stops.
  - cbn [trace log set_trace]. now rewrite T.
  - exact S.
Qed.

(** X6: a worker launched by [pglogical_ticker_launch], started by the
    host with the registered descriptor in a process where
    [pglogical_ticker.database] is not set, connects to the database whose
    Oid was the argument of the call. *)
Theorem launched_worker_connects :
  forall s env arg0 worker calls s' table r1 r2 r3 r4 r5 r6 rest,
    fst (pglogical_ticker_launch s env arg0)
    = RegisterDynamicBackgroundWorker worker :: calls ->
    pglogical_ticker_database s' = None ->
    Forall returns [r1; r2; r3; r4; r5; r6] ->
    exists buf w',
      main_startup (bgw_main_arg worker)
        (worker_entry s' worker table
           (r1 :: r2 :: r3 :: r4 :: r5 :: r6 :: rest))
      = (Return buf, w')
      /\ nth 3 (trace w') ResetLatch =
           BackgroundWorkerInitializeConnectionByOid (DatumGetObjectId arg0)
             InvalidOid (if 110000 <=? PG_VERSION_NUM then Some 0 else None)
      /\ Forall not_connect (skipn 4 (trace w'))
      /\ Forall not_connect (firstn 3 (trace w')).
Proof.
  intros s env arg0 worker calls s' table r1 r2 r3 r4 r5 r6 rest
    Hl Hdb Hret.
  split_returns Hret.
  destruct (main_startup_entry (bgw_main_arg worker) s' worker table
              r1 r2 r3 r4 r5 r6 rest
              Hret0 Hret1 Hret2 Hret3 Hret4 Hret5)
    as (w' & E & T & _).
  exists "SELECT pglogical_ticker.tick();"%string, w'.
  split; [exact E |]. rewrite T, Hdb. unfold startup_calls.
  cbn [nth skipn firstn].
  assert (A : bgw_main_arg worker
              = ObjectIdGetDatum (DatumGetObjectId arg0)).
  { unfold pglogical_ticker_launch in Hl.
    destruct (registration env) as [handle |].
    - destruct (startup env) as [[[] pid] | | | | |];
        cbn [fst] in Hl; injection Hl as <- _; cbn;
        unfold fill_bgw_type; destruct (110000 <=? PG_VERSION_NUM);
        reflexivity.
    - cbn [fst] in Hl. injection Hl as <- _. cbn.
      unfold fill_bgw_type; destruct (110000 <=? PG_VERSION_NUM);
        reflexivity. }
  rewrite A, launched_oid_roundtrip.
  split; [reflexivity |]. split; repeat constructor.
Qed.

(** X14: every worker that [_PG_init] registers, started by the host in
    the process state [_PG_init] left, connects by name to the database
    that [pglogical_ticker.database] names, and sets its application name
    to the name it was registered under. *)
Theorem static_worker_connects_by_name :
  forall env worker r1 r2 r3 r4 r5 r6 rest,
    In worker (l_registered (_PG_init env loader_init)) ->
    Forall returns [r1; r2; r3; r4; r5; r6] ->
    exists name w',
      pglogical_ticker_database (l_vars (_PG_init env loader_init))
      = Some name
      /\ main_startup (bgw_main_arg worker)
           (worker_entry (l_vars (_PG_init env loader_init)) worker
              (l_gucs (_PG_init env loader_init))
              (r1 :: r2 :: r3 :: r4 :: r5 :: r6 :: rest))
         = (Return "SELECT pglogical_ticker.tick();"%string, w')
      /\ nth 3 (trace w') ResetLatch =
           BackgroundWorkerInitializeConnection name
             (if 110000 <=? PG_VERSION_NUM then Some 0 else None)
      /\ nth 4 (trace w') ResetLatch =
           SetConfigOption "application_name"
             (snprintf_bgw "pglogical_ticker worker 1")
             PGC_USERSET PGC_S_SESSION.
Proof.
  intros env worker r1 r2 r3 r4 r5 r6 rest Hin Hret.
  split_returns Hret.
  destruct (main_startup_entry (bgw_main_arg worker)
              (l_vars (_PG_init env loader_init)) worker
              (l_gucs (_PG_init env loader_init))
              r1 r2 r3 r4 r5 r6 rest
              Hret0 Hret1 Hret2 Hret3 Hret4 Hret5)
    as (w' & E & T & _).
  rewrite PG_init_registered, defined_registered in Hin.
  cbn [l_registered loader_init app] in Hin.
  destruct (PG_init_vars env loader_init) as [V _].
  rewrite V in *.
  destruct (process_shared_preload_libraries_in_progress env);
    [| destruct Hin].
  destruct (pglogical_ticker_database (l_vars (defined env loader_init)))
    as [name |]; [| destruct Hin].
  destruct Hin as [<- | []].
  exists name, w'. split; [reflexivity |]. split; [exact E |].
  rewrite T. unfold startup_calls. cbn [nth]. split; [reflexivity |].
  unfold fill_bgw_type. destruct (110000 <=? PG_VERSION_NUM); reflexivity.
Qed.

(** ** One unit of work per wait *)

Lemma paced_quiet q :
  Forall quiet q -> forall armed p, paced armed (q ++ p) = paced armed p.
Proof.
  induction 1 as [| c q [Hw Ht] _ IH]; intros armed p; [reflexivity |].
  cbn [app paced]. rewrite Hw, Ht. apply IH.
Qed.

Lemma steady_quiet q : Forall quiet q -> steady q.
Proof.
  intros Hq armed. rewrite <- (app_nil_r q).
  now rewrite (paced_quiet q Hq).
Qed.

Lemma steady_app l1 l2 : steady l1 -> steady l2 -> steady (l1 ++ l2).
Proof.
  intros H1 H2 armed. specialize (H1 armed). revert armed H1.
  induction l1 as [| c l1 IH]; intros armed H1; [apply H2 |].
  cbn [app paced] in *.
  destruct (is_wait c); [now apply IH |].
  destruct (is_tick c); [| now apply IH].
  apply andb_true_iff in H1. destruct H1 as [-> H1].
  cbn [andb]. now apply IH.
Qed.

Lemma paced_counts l :
  forall armed,
    paced armed l = true ->
    (ticks l <= waits l + (if armed then 1 else 0))%nat.
Proof.
  unfold ticks, waits.
  induction l as [| c l IH]; intros armed H; [cbn; lia |].
  cbn [paced] in H. cbn [filter].
  destruct (is_wait c) eqn:Hw.
  - specialize (IH true H). cbv beta iota in IH.
    destruct (is_tick c) eqn:Ht; [destruct c; discriminate |].
    cbn [List.length]. destruct armed; lia.
  - destruct (is_tick c) eqn:Ht.
    + apply andb_true_iff in H. destruct H as [-> H].
      specialize (IH false H). cbv beta iota in IH.
      cbn [List.length]. lia.
    + exact (IH armed H).
Qed.

(** The calls of a sequence that the host stops answering, or answers
    with an error, at some point. *)
Lemma call_seq_prefix cs :
  forall w o w',
    call_seq cs w = (o, w') ->
    exists k, trace w' = trace w ++ firstn k cs.
Proof.
  induction cs as [| c cs IH]; intros w o w' E; cbn [call_seq] in E.
  - injection E as _ <-. exists 0%nat. now rewrite app_nil_r.
  - destruct (call_cases c w)
      as [[Hs E'] | (r & rs & Hs & [[_ E'] | (e & _ & E')])].
    + unfold bind in E. rewrite E' in E. injection E as _ <-.
      exists 1%nat. reflexivity.
    + rewrite (bind_eq _ _ _ _ _ E') in E.
      destruct (IH _ _ _ E) as (k & T).
      exists (S k). rewrite T.
      destruct (answered_frame c r rs w) as (-> & _).
      now rewrite <- app_assoc.
    + unfold bind in E. rewrite E' in E. injection E as _ <-.
      exists 1%nat. now destruct (answered_frame c r rs w) as (-> & _).
Qed.

Lemma tick_prefix_paced buf k : paced true (firstn k (tick_calls buf)) = true.
Proof.
  do 13 (destruct k as [| k]; [reflexivity |]). reflexivity.
Qed.

Lemma emits_quiet_main_reload : emits quiet main_reload.
Proof.
  unfold main_reload.
  apply emits_bind; [apply emits_gets | intros sighup].
  apply emits_if; [| apply emits_ret].
  apply emits_bind; [apply emits_modify; reflexivity | intros _].
  apply emits_bind; [apply emits_call; split; reflexivity | intros r].
  apply emits_modify. reflexivity.
Qed.

(** The calls of the first part of an iteration, however it ends: the
    wait, then calls that are neither waits nor units of work. *)
Lemma main_wait_shape w o w' :
  main_wait w = (o, w') ->
  exists q,
    trace w' = trace w ++ wait_call (pglogical_ticker_naptime (vars w)) :: q
    /\ Forall quiet q.
Proof.
  intros E. unfold main_wait in E.
  erewrite bind_eq in E by reflexivity. cbv beta in E.
  revert E. apply call_then_emits. intros r.
  apply emits_bind; [apply emits_modify; reflexivity | intros _].
  apply emits_bind; [apply emits_call; split; reflexivity | intros _].
  apply emits_bind;
    [apply emits_if;
     [apply emits_terminate; split; reflexivity | apply emits_ret]
    | intros _].
  apply emits_bind; [apply emits_call; split; reflexivity | intros _].
  apply emits_ret.
Qed.

(** The calls of one iteration, however it ends. *)
Lemma main_cycle_steady buf w o w' :
  main_cycle buf w = (o, w') ->
  exists new, trace w' = trace w ++ new /\ steady new.
Proof.
  intros E. unfold main_cycle in E.
  assert (W : forall q p,
             Forall quiet q ->
             (exists k, p = firstn k (tick_calls buf)) ->
             steady (wait_call (pglogical_ticker_naptime (vars w))
                     :: q ++ p)).
  { intros q p Hq (k & ->) armed. cbn [paced wait_call is_wait].
    rewrite (paced_quiet q Hq). apply tick_prefix_paced. }
  destruct (bind_cases _ _ _ _ _ E) as [([] & w1 & E1 & E2) | [E1 _]].
  - destruct (main_wait_shape _ _ _ E1) as (q1 & T1 & Q1).
    destruct (bind_cases _ _ _ _ _ E2) as [([] & w2 & E3 & E4) | [E3 _]].
    + destruct (emits_quiet_main_reload _ _ _ E3) as (q2 & T2 & Q2).
      rewrite main_tick_seq in E4.
      destruct (call_seq_prefix _ _ _ _ E4) as (k & T3).
      exists (wait_call (pglogical_ticker_naptime (vars w))
              :: (q1 ++ q2) ++ firstn k (tick_calls buf)).
      split.
      * rewrite T3, T2, T1, <- !app_assoc. reflexivity.
      * apply W; [now apply Forall_app | now exists k].
    + destruct (emits_quiet_main_reload _ _ _ E3) as (q2 & T2 & Q2).
      exists (wait_call (pglogical_ticker_naptime (vars w))
              :: (q1 ++ q2) ++ firstn 0 (tick_calls buf)).
      split.
      * rewrite T2, T1, <- !app_assoc. cbn [firstn app].
        rewrite app_nil_r. reflexivity.
      * apply W; [now apply Forall_app | now exists 0%nat].
  - destruct (main_wait_shape _ _ _ E1) as (q1 & T1 & Q1).
    exists (wait_call (pglogical_ticker_naptime (vars w))
            :: q1 ++ firstn 0 (tick_calls buf)).
    split.
    + rewrite T1. cbn [firstn]. rewrite app_nil_r. reflexivity.
    + apply W; [exact Q1 | now exists 0%nat].
Qed.

Lemma main_loop_steady fuel buf :
  forall w o w',
    main_loop fuel buf w = (o, w') ->
    exists new, trace w' = trace w ++ new /\ steady new.
Proof.
  induction fuel as [| fuel IH]; intros w o w' E; cbn [main_loop] in E.
  - destruct (got_sigterm (vars w)); injection E as _ <-;
      exists []; (split; [now rewrite app_nil_r | now intros armed]).
  - destruct (got_sigterm (vars w)).
    + injection E as _ <-. exists [].
      split; [now rewrite app_nil_r | now intros armed].
    + destruct (bind_cases _ _ _ _ _ E) as [([] & w1 & E1 & E2) | [E1 _]].
      * destruct (main_cycle_steady _ _ _ _ E1) as (n1 & T1 & P1).
        destruct (IH _ _ _ E2) as (n2 & T2 & P2).
        exists (n1 ++ n2). split; [now rewrite T2, T1, app_assoc |].
        now apply steady_app.
      * exact (main_cycle_steady _ _ _ _ E1).
Qed.

Lemma emits_quiet_main_startup main_arg : emits quiet (main_startup main_arg).
Proof.
  unfold main_startup.
  repeat (apply emits_bind; [| intros ?]);
    try (apply emits_modify; intros; rewrite ?deliver_all_trace; reflexivity);
    try (apply emits_call; split; reflexivity);
    try apply emits_gets; try apply emits_ret.
  - apply emits_modify. intros w.
    now destruct (deliver_all_frame (sig_pending w)
                    (set_sig_pending [] (set_sig_blocked false w)))
      as (-> & _).
  - match goal with
    | |- emits _ (match ?x with _ => _ end) => destruct x
    end; apply emits_call; split; reflexivity.
Qed.

(** X7: in every run of [pglogical_ticker_main], whatever the host
    answers and whenever signals arrive, every unit of work comes after a
    return from [WaitLatch] that no earlier unit of work has used: the
    worker never runs its statement before its first wait, and never
    twice without waiting in between.  In particular there are never more
    units of work than waits. *)
Theorem ticks_are_paced :
  forall main_arg w o w',
    pglogical_ticker_main main_arg w = (o, w') ->
    exists new,
      trace w' = trace w ++ new
      /\ paced false new = true
      /\ (ticks new <= waits new)%nat.
Proof.
  intros main_arg w o w' E.
  assert (H : exists new, trace w' = trace w ++ new /\ steady new).
  { unfold pglogical_ticker_main in E.
    destruct (bind_cases _ _ _ _ _ E) as [(buf & w1 & E1 & E2) | [E1 _]].
    - destruct (emits_quiet_main_startup main_arg _ _ _ E1) as (n1 & T1 & Q1).
      unfold main_run in E2.
      erewrite bind_eq in E2 by reflexivity. cbv beta in E2.
      destruct (bind_cases _ _ _ _ _ E2) as [([] & w2 & E3 & E4) | [E3 _]].
      + destruct (main_loop_steady _ _ _ _ _ E3) as (n2 & T2 & P2).
        injection E4 as _ <-.
        exists (n1 ++ n2 ++ [proc_exit 1]).
        split; [cbn [trace log set_trace];
                now rewrite T2, T1, <- !app_assoc |].
        apply steady_app; [now apply steady_quiet |].
        apply steady_app; [exact P2 |].
        apply steady_quiet. repeat constructor.
      + destruct (main_loop_steady _ _ _ _ _ E3) as (n2 & T2 & P2).
        exists (n1 ++ n2). split; [now rewrite T2, T1, app_assoc |].
        apply steady_app; [now apply steady_quiet | exact P2].
    - destruct (emits_quiet_main_startup main_arg _ _ _ E1) as (n1 & T1 & Q1).
      exists n1. split; [exact T1 | now apply steady_quiet]. }
  destruct H as (new & T & P). exists new.
  split; [exact T |]. split; [apply P |].
  pose proof (paced_counts new false (P false)) as C.
  cbv beta iota in C. lia.
Qed.

(** ** The timeout of every wait *)

(** Where [long] has 64 bits, the timeout given to [WaitLatch],
    [pglogical_ticker_naptime * 1000L], is the nap time in milliseconds
    for every nap time of the declared range. *)
Lemma wait_timeout_fits s :
  SIZEOF_LONG = Long8 ->
  in_bounds s ->
  to_long (pglogical_ticker_naptime s * 1000)
  = pglogical_ticker_naptime s * 1000
  /\ 1000 <= to_long (pglogical_ticker_naptime s * 1000) < 2 ^ 63.
Proof.
  unfold in_bounds, INT_MAX, to_long, long_bits. intros -> [[Hlo Hhi] _].
  change (64 - 1) with 63.
  change (2 ^ 63) with 9223372036854775808.
  change (2 ^ 64) with 18446744073709551616.
  Z.div_mod_to_equations. lia.
Qed.

(** Where [long] has 32 bits the product wraps for the nap times above
    2147483 seconds. *)
Lemma to_long_wraps_long4 n :
  SIZEOF_LONG = Long4 ->
  2147483 < n <= INT_MAX ->
  - 2 ^ 31 <= to_long (n * 1000) < 2 ^ 31
  /\ to_long (n * 1000) < n * 1000
  /\ (n * 1000 - to_long (n * 1000)) mod 2 ^ 32 = 0.
Proof.
  unfold INT_MAX, to_long, long_bits. intros -> [Hlo Hhi].
  change (32 - 1) with 31.
  change (2 ^ 31) with 2147483648.
  change (2 ^ 32) with 4294967296.
  Z.div_mod_to_equations. lia.
Qed.

Lemma configured_frame w w' :
  gucs w' = gucs w ->
  pglogical_ticker_naptime (vars w') = pglogical_ticker_naptime (vars w) ->
  pglogical_ticker_restart_time (vars w')
  = pglogical_ticker_restart_time (vars w) ->
  configured w -> configured w'.
Proof.
  unfold configured, in_bounds. intros -> -> ->. trivial.
Qed.

Lemma configured_answered c r rs w :
  configured w -> configured (answered c r rs w).
Proof.
  destruct (answered_frame c r rs w) as (_ & _ & G & _ & N & _ & R).
  now apply configured_frame.
Qed.

Lemma keeps_ret {A} (a : A) : keeps (ret a).
Proof.
  intros w o w' Hc [= <- <-]. split; [exact Hc |].
  exists []. now rewrite app_nil_r.
Qed.

Lemma keeps_gets {A} (f : Worker -> A) : keeps (gets f).
Proof.
  intros w o w' Hc [= <- <-]. split; [exact Hc |].
  exists []. now rewrite app_nil_r.
Qed.

Lemma keeps_modify (f : Worker -> Worker) :
  (forall w, configured w -> configured (f w)) ->
  (forall w, trace (f w) = trace w) ->
  keeps (modify f).
Proof.
  intros Hf Ht w o w' Hc [= <- <-]. split; [now apply Hf |].
  exists []. now rewrite app_nil_r, Ht.
Qed.

Lemma keeps_terminate {A} code : keeps (@terminate A code).
Proof.
  intros w o w' Hc [= <- <-]. split; [exact Hc |].
  exists [proc_exit code]. split; [reflexivity | now repeat constructor].
Qed.

Lemma keeps_call c : good_wait c -> keeps (call c).
Proof.
  intros Hg w o w' Hc E.
  destruct (call_cases c w)
    as [[Hs E'] | (r & rs & Hs & [[_ E'] | (e & _ & E')])];
    rewrite E' in E; injection E as <- <-.
  - split; [exact Hc |]. exists [c]. split; [reflexivity |].
    now repeat constructor.
  - split; [now apply configured_answered |]. exists [c].
    split; [now destruct (answered_frame c r rs w) as (-> & _) |].
    now repeat constructor.
  - split; [now apply configured_answered |]. exists [c].
    split; [now destruct (answered_frame c r rs w) as (-> & _) |].
    now repeat constructor.
Qed.

Lemma keeps_bind {A B} (m : M A) (k : A -> M B) :
  keeps m -> (forall a, keeps (k a)) -> keeps (bind m k).
Proof.
  intros Hm Hk w o w' Hc E.
  destruct (bind_cases m k w o w' E) as [(a & w1 & E1 & E2) | [E1 _]].
  - destruct (Hm _ _ _ Hc E1) as (C1 & n1 & T1 & F1).
    destruct (Hk a _ _ _ C1 E2) as (C2 & n2 & T2 & F2).
    split; [exact C2 |]. exists (n1 ++ n2). rewrite T2, T1, app_assoc.
    split; [reflexivity | now apply Forall_app].
  - exact (Hm _ _ _ Hc E1).
Qed.

Lemma keeps_if {A} (b : bool) (m1 m2 : M A) :
  keeps m1 -> keeps m2 -> keeps (if b then m1 else m2).
Proof. now destruct b. Qed.

Lemma keeps_call_seq cs : Forall good_wait cs -> keeps (call_seq cs).
Proof.
  induction 1; cbn [call_seq];
    [apply keeps_ret | apply keeps_bind; [now apply keeps_call | trivial]].
Qed.

Section Long64.

Hypothesis long64 : SIZEOF_LONG = Long8.

Lemma keeps_main_wait : keeps main_wait.
Proof.
  intros w o w' Hc E. unfold main_wait in E.
  erewrite bind_eq in E by reflexivity. cbv beta in E.
  revert E. apply keeps_bind; [| | exact Hc].
  - apply keeps_call. cbn [good_wait].
    destruct Hc as [Hb _]. now apply wait_timeout_fits.
  - intros r.
    apply keeps_bind; [apply keeps_modify; trivial | intros _].
    apply keeps_bind; [apply keeps_call; exact I | intros _].
    apply keeps_bind;
      [apply keeps_if; [apply keeps_terminate | apply keeps_ret] | intros _].
    apply keeps_bind; [apply keeps_call; exact I | intros _].
    apply keeps_ret.
Qed.

Lemma keeps_main_reload : keeps main_reload.
Proof.
  unfold main_reload.
  apply keeps_bind; [apply keeps_gets | intros sighup].
  apply keeps_if; [| apply keeps_ret].
  apply keeps_bind; [apply keeps_modify; trivial | intros _].
  apply keeps_bind; [apply keeps_call; exact I | intros r].
  apply keeps_modify; [| reflexivity].
  intros w [Hb Hn]. split; [| exact Hn].
  cbn [vars set_vars]. now apply apply_settings_bounds.
Qed.

Lemma keeps_main_cycle buf : keeps (main_cycle buf).
Proof.
  unfold main_cycle.
  apply keeps_bind; [apply keeps_main_wait | intros _].
  apply keeps_bind; [apply keeps_main_reload | intros _].
  rewrite main_tick_seq. apply keeps_call_seq. repeat constructor.
Qed.

Lemma keeps_main_loop fuel buf : keeps (main_loop fuel buf).
Proof.
  induction fuel as [| fuel IH]; intros w o w' Hc E; cbn [main_loop] in E.
  - destruct (got_sigterm (vars w)); injection E as <- <-;
      (split; [exact Hc |]); exists []; now rewrite app_nil_r.
  - destruct (got_sigterm (vars w)).
    + injection E as <- <-. split; [exact Hc |].
      exists []. now rewrite app_nil_r.
    + revert E.
      apply keeps_bind; [apply keeps_main_cycle | intros _; exact IH
                        | exact Hc].
Qed.

Lemma keeps_main_run buf : keeps (main_run buf).
Proof.
  unfold main_run.
  apply keeps_bind; [apply keeps_gets | intros fuel].
  apply keeps_bind; [apply keeps_main_loop | intros _].
  apply keeps_terminate.
Qed.

End Long64.

Lemma keeps_main_startup main_arg : keeps (main_startup main_arg).
Proof.
  unfold main_startup.
  apply keeps_bind; [apply keeps_modify; trivial | intros _].
  apply keeps_bind; [apply keeps_call; exact I | intros _].
  apply keeps_bind; [apply keeps_modify; trivial | intros _].
  apply keeps_bind; [apply keeps_call; exact I | intros _].
  apply keeps_bind.
  { apply keeps_modify.
    - intros w Hc.
      destruct (deliver_all_frame (sig_pending w)
                  (set_sig_pending [] (set_sig_blocked false w)))
        as (_ & _ & G & _ & N & _ & R).
      revert Hc. now apply configured_frame.
    - intros w.
      now destruct (deliver_all_frame (sig_pending w)
                      (set_sig_pending [] (set_sig_blocked false w)))
        as (-> & _). }
  intros _.
  apply keeps_bind; [apply keeps_call; exact I | intros _].
  apply keeps_bind; [apply keeps_gets | intros database].
  apply keeps_bind;
    [destruct database; apply keeps_call; exact I | intros _].
  apply keeps_bind; [apply keeps_gets | intros name].
  apply keeps_bind; [apply keeps_call; exact I | intros _].
  apply keeps_bind; [apply keeps_call; exact I | intros _].
  apply keeps_ret.
Qed.

(** X8: on a host whose [long] has 64 bits, in a worker whose
    configuration is within the ranges declared by [_PG_init], the
    timeout of every [WaitLatch] call of the whole run is at least 1000
    milliseconds and below 2^63, through every reload, whatever the host
    then assigns: the loop never spins on a zero timeout.  The
    configuration is still within the ranges when the run ends. *)
Theorem waits_are_bounded :
  forall main_arg w o w',
    SIZEOF_LONG = Long8 ->
    in_bounds (vars w) ->
    Forall narrow (gucs w) ->
    pglogical_ticker_main main_arg w = (o, w') ->
    in_bounds (vars w')
    /\ exists new, trace w' = trace w ++ new /\ Forall good_wait new.
Proof.
  intros main_arg w o w' L Hb Hn E.
  assert (K : keeps (pglogical_ticker_main main_arg)).
  { unfold pglogical_ticker_main.
    apply keeps_bind; [apply keeps_main_startup | intros buf].
    apply keeps_main_run. exact L. }
  destruct (K w o w' (conj Hb Hn) E) as ([Hb' _] & new & T & F).
  split; [exact Hb' |]. exists new. split; [exact T | exact F].
Qed.

(** X15: on a host whose [long] has 32 bits, a nap time above 2147483
    seconds, which the declared range allows, makes
    [pglogical_ticker_naptime * 1000L] wrap: the timeout that
    [WaitLatch] is called with is a 32-bit value below the nap time in
    milliseconds, from which it differs by a multiple of 2^32. *)
Theorem wait_timeout_wraps :
  forall w o w',
    SIZEOF_LONG = Long4 ->
    2147483 < pglogical_ticker_naptime (vars w) <= INT_MAX ->
    main_wait w = (o, w') ->
    exists events timeout info q,
      trace w' = trace w ++ WaitLatch events timeout info :: q
      /\ - 2 ^ 31 <= timeout < 2 ^ 31
      /\ timeout < pglogical_ticker_naptime (vars w) * 1000
      /\ (pglogical_ticker_naptime (vars w) * 1000 - timeout) mod 2 ^ 32 = 0.
Proof.
  intros w o w' L Hn E.
  destruct (main_wait_shape _ _ _ E) as (q & T & _).
  unfold wait_call in T.
  do 4 eexists. split; [exact T |].
  now apply to_long_wraps_long4.
Qed.

(** ** Reload requests *)

Lemma emits_any {A} (P : HostCall -> Prop) (m : M A) :
  emits P m -> emits (fun _ => True) m.
Proof.
  intros H w o w' E. destruct (H w o w' E) as (new & T & _).
  exists new. split; [exact T |]. apply Forall_forall. trivial.
Qed.

(** Every iteration starts with the wait, with the nap time of that
    moment. *)
Lemma main_cycle_first_wait buf w o w' :
  main_cycle buf w = (o, w') ->
  exists q,
    trace w' = trace w ++ wait_call (pglogical_ticker_naptime (vars w)) :: q.
Proof.
  intros E. unfold main_cycle in E.
  destruct (bind_cases _ _ _ _ _ E) as [([] & w1 & E1 & E2) | [E1 _]].
  - destruct (main_wait_shape _ _ _ E1) as (q1 & T1 & _).
    assert (K : emits (fun _ => True)
                  (bind main_reload (fun _ => main_tick buf))).
    { apply emits_bind;
        [apply (emits_any quiet), emits_quiet_main_reload | intros _].
      rewrite main_tick_seq. apply emits_call_seq.
      apply Forall_forall. trivial. }
    destruct (K _ _ _ E2) as (n2 & T2 & _).
    exists (q1 ++ n2). now rewrite T2, T1, <- app_assoc.
  - destruct (main_wait_shape _ _ _ E1) as (q1 & T1 & _).
    now exists q1.
Qed.

(** X9: a reload takes effect from the next wait on.  In an iteration
    that re-reads the configuration, because [got_sighup] was set before
    it or a [SIGHUP] arrives before its test of the flag, the unit of
    work is run all the same, after the one call of [ProcessConfigFile];
    the three variables come out as the host's assignments during that
    call leave them (one outside a declared range changing nothing),
    whatever signals arrive meanwhile; and the wait of the following
    iteration is made with the new nap time. *)
Theorem reload_takes_effect :
  forall buf w r rs,
    ready w ->
    script w = r :: rs ->
    reloads w (r :: rs) = true ->
    Z.land (rv r) WL_POSTMASTER_DEATH = 0 ->
    (15 <= List.length rs)%nat ->
    Forall returns (r :: firstn 15 rs) ->
    exists w',
      main_cycle buf w = (Return tt, w')
      /\ trace w' =
           trace w ++
           [wait_call (pglogical_ticker_naptime (vars w)); ResetLatch;
            CHECK_FOR_INTERRUPTS; ProcessConfigFile PGC_SIGHUP] ++
           tick_calls buf
      /\ gucs w' = gucs w
      /\ same_gucs
           (apply_settings (gucs w) (reread (nth 2 rs r)) (vars w))
           (vars w')
      /\ (forall o w'',
            main_cycle buf w' = (o, w'') ->
            exists q,
              trace w'' =
                trace w' ++
                wait_call
                  (pglogical_ticker_naptime
                     (apply_settings (gucs w) (reread (nth 2 rs r))
                        (vars w)))
                :: q).
Proof.
  intros buf w r rs Hw Hs Hsig Hrc Hlen Hret.
  do 3 (split_script rs Hlen).
  rewrite !firstn_cons in Hret.
  assert (Hlen' : (12 <= List.length rs)%nat) by lia.
  change (got_sighup (signal_flags (signals_of [r; r0; r1]) (vars w)) = true)
    in Hsig.
  destruct (main_cycle_reload_vars buf w r r0 r1 r2 rs Hw Hs Hsig Hrc Hlen'
              Hret)
    as (w' & E & G & _ & V).
  destruct (main_cycle_returns buf w r r0 r1 (r2 :: rs) Hw Hs
              ltac:(cbn [List.length]; lia) Hret Hrc)
    as (w1 & E1 & T1 & _).
  rewrite E in E1. injection E1 as <-. rewrite Hsig in T1.
  cbn [nth].
  assert (SG : same_gucs (apply_settings (gucs w) (reread r2) (vars w))
                 (vars w'))
    by (rewrite V; apply reloaded_gucs).
  exists w'. split; [exact E |]. split; [exact T1 |].
  split; [exact G |]. split; [exact SG |].
  intros o w'' E'.
  destruct (main_cycle_first_wait _ _ _ _ E') as (q & T).
  exists q. destruct SG as (N & _). now rewrite <- N.
Qed.

(** X10: no reload request is lost.  [got_sighup] is cleared before
    [ProcessConfigFile] is called, so at the end of any iteration that
    re-reads the configuration, whether the flag was set before the
    iteration or by a [SIGHUP] that arrived before its test, the flag is
    set exactly when a [SIGHUP] has arrived during [ProcessConfigFile] or
    during the unit of work that follows. *)
Theorem reload_requests_are_kept :
  forall buf w r rs,
    ready w ->
    script w = r :: rs ->
    reloads w (r :: rs) = true ->
    Z.land (rv r) WL_POSTMASTER_DEATH = 0 ->
    (15 <= List.length rs)%nat ->
    Forall returns (r :: firstn 15 rs) ->
    exists w',
      main_cycle buf w = (Return tt, w')
      /\ ready w'
      /\ got_sighup (vars w') =
           has_signal SIGHUP (signals_of (firstn 13 (skipn 2 rs))).
Proof.
  intros buf w r rs Hw Hs Hsig Hrc Hlen Hret.
  do 3 (split_script rs Hlen).
  rewrite !firstn_cons in Hret.
  assert (Hlen' : (12 <= List.length rs)%nat) by lia.
  change (got_sighup (signal_flags (signals_of [r; r0; r1]) (vars w)) = true)
    in Hsig.
  destruct (main_cycle_reload_vars buf w r r0 r1 r2 rs Hw Hs Hsig Hrc Hlen'
              Hret)
    as (w' & E & _ & Hw' & V).
  exists w'. split; [exact E |]. split; [exact Hw' |].
  cbn [skipn]. rewrite firstn_cons, signals_of_cons, V.
  apply reloaded_flag.
Qed.

(** ** A shutdown request anywhere in an iteration *)

(** An iteration whose calls all return, the host having answers for
    the calls of that iteration: sixteen when the configuration is
    re-read, fifteen otherwise. *)
Lemma main_cycle_returns_exact buf w r0 r1 r2 rs :
  ready w ->
  script w = r0 :: r1 :: r2 :: rs ->
  (cycle_calls (reloads w (r0 :: r1 :: r2 :: rs))
   <= List.length (r0 :: r1 :: r2 :: rs))%nat ->
  Forall returns
    (firstn (cycle_calls (reloads w (r0 :: r1 :: r2 :: rs)))
       (r0 :: r1 :: r2 :: rs)) ->
  Z.land (rv r0) WL_POSTMASTER_DEATH = 0 ->
  exists w',
    main_cycle buf w = (Return tt, w')
    /\ trace w' =
         trace w ++
         [wait_call (pglogical_ticker_naptime (vars w)); ResetLatch;
          CHECK_FOR_INTERRUPTS] ++
         (if reloads w (r0 :: r1 :: r2 :: rs)
          then [ProcessConfigFile PGC_SIGHUP] else []) ++
         tick_calls buf
    /\ script w' =
         skipn (cycle_calls (reloads w (r0 :: r1 :: r2 :: rs)))
           (r0 :: r1 :: r2 :: rs)
    /\ got_sigterm (vars w') =
         got_sigterm (vars w)
         || has_signal SIGTERM
              (signals_of
                 (firstn (cycle_calls (reloads w (r0 :: r1 :: r2 :: rs)))
                    (r0 :: r1 :: r2 :: rs))).
Proof.
  intros Hw Hs Hlen Hret Hrc.
  change (reloads w (r0 :: r1 :: r2 :: rs))
    with (got_sighup (signal_flags (signals_of [r0; r1; r2]) (vars w))) in *.
  destruct (got_sighup (signal_flags (signals_of [r0; r1; r2]) (vars w)))
    eqn:Hb; cbn [cycle_calls List.length] in Hlen, Hret |- *;
    rewrite !firstn_cons in Hret; rewrite !firstn_cons.
  - destruct (main_cycle_returns buf w r0 r1 r2 rs Hw Hs ltac:(lia) Hret Hrc)
      as (w1 & E1 & T1 & S1 & _ & V1).
    rewrite Hb in T1, S1, V1.
    exists w1. split; [exact E1 |]. split; [exact T1 |].
    split; [exact S1 | exact V1].
  - split_returns Hret.
    destruct (main_wait_returns w r0 r1 r2 rs Hs Hret0 Hret1 Hret2 Hrc)
      as (w1 & E1 & T1 & S1 & G1 & R1).
    destruct (R1 Hw) as [Hw1 V1]. clear R1.
    assert (Hhup : got_sighup (vars w1) = false) by (rewrite V1; exact Hb).
    unfold main_cycle.
    erewrite bind_eq by exact E1. cbv beta.
    rewrite (bind_eq _ _ _ _ _ (main_reload_skips w1 Hhup)).
    assert (L : List.length (firstn 12 rs) = List.length (tick_calls buf)).
    { rewrite length_firstn. cbn [tick_calls List.length]. lia. }
    rewrite <- (firstn_skipn 12 rs) in S1 at 1.
    destruct (call_seq_returns (tick_calls buf) w1 _ _ S1 L Hret)
      as (w3 & E3 & T3 & S3 & G3 & R3).
    destruct (R3 Hw1) as [Hw3 V3]. clear R3.
    exists w3. split; [rewrite main_tick_seq; exact E3 |].
    split; [rewrite T3, T1, <- !app_assoc; reflexivity |].
    split; [exact S3 |].
    rewrite V3, got_sigterm_flags, V1, got_sigterm_flags.
    rewrite !signals_of_cons, !has_signal_app.
    change (has_signal SIGTERM (signals_of [])) with false.
    rewrite orb_false_r, !orb_assoc. reflexivity.
Qed.

(** X11: a [SIGTERM] that arrives during any host call of an iteration,
    the wait, the re-read of the configuration when there is one, or any
    call of the unit of work, the last included, does not interrupt the
    iteration: its transaction is committed; the loop is then left at its
    next test, without another wait, and the process exits with status
    1.  The host answers the calls of that iteration, sixteen when the
    configuration is re-read and fifteen otherwise, and no other. *)
Theorem shutdown_in_iteration_finishes_it :
  forall buf w r rs,
    ready w ->
    got_sigterm (vars w) = false ->
    script w = r :: rs ->
    has_signal SIGTERM
      (signals_of (firstn (cycle_calls (reloads w (r :: rs))) (r :: rs)))
    = true ->
    Z.land (rv r) WL_POSTMASTER_DEATH = 0 ->
    (cycle_calls (reloads w (r :: rs)) <= List.length (r :: rs))%nat ->
    Forall returns (firstn (cycle_calls (reloads w (r :: rs))) (r :: rs)) ->
    exists w',
      main_run buf w = (ProcExit 1, w')
      /\ trace w' =
           trace w ++
           [wait_call (pglogical_ticker_naptime (vars w)); ResetLatch;
            CHECK_FOR_INTERRUPTS] ++
           (if reloads w (r :: rs)
            then [ProcessConfigFile PGC_SIGHUP] else []) ++
           tick_calls buf ++ [proc_exit 1]
      /\ script w' = skipn (cycle_calls (reloads w (r :: rs))) (r :: rs).
Proof.
  intros buf w r rs Hw Ht Hs Hsig Hrc Hlen Hret.
  assert (Hlen2 : (2 <= List.length rs)%nat).
  { destruct (reloads w (r :: rs)); cbn [cycle_calls List.length] in Hlen;
      lia. }
  do 2 (split_script rs Hlen2).
  destruct (main_cycle_returns_exact buf w r r0 r1 rs Hw Hs Hlen Hret Hrc)
    as (w1 & E1 & T1 & S1 & V1).
  assert (Ht1 : got_sigterm (vars w1) = true)
    by (rewrite V1, Ht, Hsig; reflexivity).
  exists (log (proc_exit 1) w1).
  split; [| split].
  - rewrite (main_run_step buf w Ht).
    erewrite bind_eq by exact E1. cbv beta.
    erewrite bind_eq by (now apply main_loop_stops).
    reflexivity.
  - cbn [trace log set_trace]. rewrite T1, <- !app_assoc. reflexivity.
  - exact S1.
Qed.

(** ** Interrupts *)

(** X12: an error raised by [CHECK_FOR_INTERRUPTS] ends the run of
    [pglogical_ticker_main] on the spot: the configuration is not
    re-read, even when a reload is pending, and no transaction is
    started. *)
Theorem interrupt_ends_the_run :
  forall buf w r0 r1 r2 rest e,
    got_sigterm (vars w) = false ->
    script w = r0 :: r1 :: r2 :: rest ->
    returns r0 -> returns r1 ->
    Z.land (rv r0) WL_POSTMASTER_DEATH = 0 ->
    raises r2 = Some e ->
    exists w',
      main_run buf w = (Error e, w')
      /\ trace w' =
           trace w ++
           [wait_call (pglogical_ticker_naptime (vars w)); ResetLatch;
            CHECK_FOR_INTERRUPTS]
      /\ script w' = rest.
Proof.
  intros buf w r0 r1 r2 rest e Ht Hs H0 H1 Hrc H2.
  assert (E : exists w',
             main_wait w = (Error e, w')
             /\ trace w' =
                  trace w ++
                  [wait_call (pglogical_ticker_naptime (vars w)); ResetLatch;
                   CHECK_FOR_INTERRUPTS]
             /\ script w' = rest).
  { unfold main_wait.
    erewrite bind_eq by reflexivity.
    erewrite bind_eq by (apply call_returns; eassumption).
    erewrite bind_eq by reflexivity.
    fold (wait_call (pglogical_ticker_naptime (vars w))).
    set (c0 := wait_call (pglogical_ticker_naptime (vars w))).
    destruct (answered_frame c0 r0 (r1 :: r2 :: rest) w) as (T1 & S1 & _).
    set (w1 := answered c0 r0 (r1 :: r2 :: rest) w) in *.
    set (w2 := set_latch_is_set false w1).
    assert (S2 : script w2 = r1 :: r2 :: rest) by exact S1.
    erewrite bind_eq by (apply call_returns; eassumption).
    destruct (answered_frame ResetLatch r1 (r2 :: rest) w2) as (T3 & S3 & _).
    set (w3 := answered ResetLatch r1 (r2 :: rest) w2) in *.
    rewrite Hrc. cbn [Z.eqb negb].
    erewrite bind_eq by reflexivity.
    erewrite bind_error by (apply call_raises; eassumption).
    destruct (answered_frame CHECK_FOR_INTERRUPTS r2 rest w3)
      as (T4 & S4 & _).
    eexists. split; [reflexivity |]. split; [| exact S4].
    rewrite T4, T3. change (trace w2) with (trace w1).
    rewrite T1, <- !app_assoc. reflexivity. }
  destruct E as (w' & E & T & S). exists w'.
  split; [| split; [exact T | exact S]].
  rewrite (main_run_step buf w Ht). unfold main_cycle.
  rewrite bind_assoc. now apply bind_error.
Qed.

(** ** The signal handlers *)

Lemma deliver_latch w sig :
  ready w -> latch_is_set (deliver w sig) = true.
Proof.
  intros (Hb & Hh & Ht). unfold deliver. rewrite Hb.
  destruct sig; cbn [handler_of]; rewrite ?Hh, ?Ht; reflexivity.
Qed.

Lemma deliver_all_latch sigs :
  forall w,
    ready w ->
    latch_is_set (deliver_all sigs w)
    = latch_is_set w || negb (Nat.eqb (List.length sigs) 0).
Proof.
  unfold deliver_all.
  induction sigs as [| sig sigs IH]; intros w Hw; cbn [fold_left].
  - cbn. now rewrite orb_false_r.
  - destruct (deliver_ready w sig Hw) as [Hw1 _].
    rewrite (IH _ Hw1), (deliver_latch w sig Hw).
    cbn. now rewrite orb_true_r.
Qed.

(** X13: each handler sets its own flag and the latch and touches nothing
    else.  So, in a process where both handlers are installed and signals
    are unblocked, after any signals, in any order and any number, each
    flag is set exactly when it was set before or its signal is among
    them, the latch is set exactly when it was set before or some signal
    came, and the configuration variables, the calls made and the answers
    to come are as before. *)
Theorem handlers_set_flag_and_latch :
  forall sigs w,
    ready w ->
    got_sigterm (vars (deliver_all sigs w))
    = got_sigterm (vars w) || has_signal SIGTERM sigs
    /\ got_sighup (vars (deliver_all sigs w))
       = got_sighup (vars w) || has_signal SIGHUP sigs
    /\ latch_is_set (deliver_all sigs w)
       = latch_is_set w || negb (Nat.eqb (List.length sigs) 0)
    /\ same_gucs (vars w) (vars (deliver_all sigs w))
    /\ trace (deliver_all sigs w) = trace w
    /\ script (deliver_all sigs w) = script w
    /\ ready (deliver_all sigs w).
Proof.
  intros sigs w Hw.
  destruct (deliver_all_ready sigs w Hw) as [R V].
  destruct (deliver_all_frame sigs w) as (T & S & _).
  rewrite V, T, S.
  split; [reflexivity |]. split; [reflexivity |].
  split; [now apply deliver_all_latch |].
  split; [repeat split |]. split; [reflexivity |]. split; [reflexivity |].
  exact R.
Qed.

End Properties.

(* ===================================================================== *)
(** * The properties at concrete inputs *)
(* ===================================================================== *)

Lemma looping_worker_ready answers : ready (looping_worker answers).
Proof. unfold ready. repeat split. Qed.

(** The run [shutdown_run], call by call. *)
Example shutdown_run_trace :
  shutdown_run =
    (ProcExit 1,
     snd shutdown_run)
  /\ trace (snd shutdown_run) =
       [pqsignal SIGHUP fn_pglogical_ticker_sighup;
        pqsignal SIGTERM fn_pglogical_ticker_sigterm;
        BackgroundWorkerUnblockSignals;
        BackgroundWorkerInitializeConnection "postgres" (Some 0);
        SetConfigOption "application_name" "pglogical_ticker worker 1"
          PGC_USERSET PGC_S_SESSION;
        elog LOG "pglogical_ticker worker 1 initialized";
        WaitLatch 25 10000 (Some 117440512);
        ResetLatch;
        CHECK_FOR_INTERRUPTS;
        SetCurrentStatementStartTimestamp;
        StartTransactionCommand;
        SPI_connect;
        GetTransactionSnapshot;
        PushActiveSnapshot;
        pgstat_report_activity STATE_RUNNING (Some tick_sql);
        SPI_execute tick_sql false 0;
        SPI_finish;
        PopActiveSnapshot;
        CommitTransactionCommand;
        pgstat_report_stat false;
        pgstat_report_activity STATE_IDLE None;
        proc_exit 1].
Proof. split; vm_compute; reflexivity. Qed.





(** C3, counterexample: [SPI_execute] raises an error in the first
    iteration; the run of [pglogical_ticker_main] ends with that error,
    [SPI_execute] is its last call, there is no second wait, and forty
    answers of the host are left unused. *)
Lemma tick_error_ends_the_worker :
  fst failing_run = Error tick_failed
  /\ last (trace (snd failing_run)) ResetLatch = SPI_execute tick_sql false 0
  /\ waits (trace (snd failing_run)) = 1%nat
  /\ ticks (trace (snd failing_run)) = 1%nat
  /\ List.length (script (snd failing_run)) = 40%nat.
Proof. repeat split; vm_compute; reflexivity. Qed.

Lemma tick_error_leaves_the_loop_witness :
  raises failing = Some tick_failed
  /\ exists w',
       @main_run pg11_headers tick_sql
         (looping_worker
            (timed_out :: repeat ok 8 ++ failing :: repeat ok 40))
       = (Error tick_failed, w')
       /\ script w' = repeat ok 40.
Proof.
  split; [reflexivity |].
  destruct (@tick_error_leaves_the_loop pg11_headers tick_sql
              (looping_worker
                 (timed_out :: repeat ok 8 ++ failing :: repeat ok 40))
              (snd (bind (@main_wait pg11_headers) (fun _ => main_reload)
                      (looping_worker
                         (timed_out :: repeat ok 8 ++ failing
                          :: repeat ok 40))))
              (repeat ok 6) failing (repeat ok 40) tick_failed)
    as (w' & E & _ & S).
  - vm_compute. reflexivity.
  - vm_compute. reflexivity.
  - vm_compute. reflexivity.
  - simpl. lia.
  - repeat constructor.
  - reflexivity.
  - exists w'. split; [exact E | exact S].
Defined.

(** C4, counterexample: the registry is full; the function returns SQL
    NULL and raises no error. *)
Lemma launch_registration_failure_is_no_error :
  registration registry_full = None
  /\ snd (@pglogical_ticker_launch pg11_headers statics_init registry_full
            16384)
     = Return PG_RETURN_NULL
  /\ forall e,
       snd (@pglogical_ticker_launch pg11_headers statics_init registry_full
              16384)
       <> Error e.
Proof.
  split; [reflexivity |].
  split; [vm_compute; reflexivity | vm_compute; discriminate].
Qed.

Lemma launch_registration_failure_returns_null_witness :
  registration registry_full = None
  /\ exists worker,
       @pglogical_ticker_launch pg11_headers statics_init registry_full 16384
       = ([RegisterDynamicBackgroundWorker worker], Return PG_RETURN_NULL).
Proof.
  split; [reflexivity |].
  destruct (@launch_registration_failure_returns_null pg11_headers
              statics_init registry_full 16384 eq_refl)
    as (worker & E & _).
  exists worker. exact E.
Defined.

(** C5, counterexample: the error raised when the postmaster has died
    and the error raised when the worker has stopped carry the same error
    code. *)
Lemma launch_postmaster_died_errcode_not_distinct :
  exists e_died e_stopped,
    snd (@pglogical_ticker_launch pg11_headers statics_init postmaster_died
           16384) = Error e_died
    /\ snd (@pglogical_ticker_launch pg11_headers statics_init stopped 16384)
       = Error e_stopped
    /\ ~ sqlerrcode e_died <> sqlerrcode e_stopped.
Proof.
  do 2 eexists. split; [vm_compute; reflexivity |].
  split; [vm_compute; reflexivity |].
  intros H. apply H. reflexivity.
Qed.

Lemma launch_postmaster_died_same_errcode_witness :
  startup postmaster_died = Return (BGWH_POSTMASTER_DIED, 0)
  /\ snd (@pglogical_ticker_launch pg11_headers statics_init postmaster_died
            16384)
     = Error (@without_postmaster pg11_headers).
Proof.
  split; [reflexivity |].
  exact (proj1 (@launch_postmaster_died_same_errcode pg11_headers
                  statics_init postmaster_died 16384 1 0 eq_refl eq_refl)).
Defined.

Lemma launch_started_returns_pid_witness :
  startup started_4242 = Return (BGWH_STARTED, 4242)
  /\ exists result,
       snd (@pglogical_ticker_launch pg11_headers statics_init started_4242
              16384) = Return result
       /\ isnull result = false
       /\ @DatumGetInt32 (value result) = 4242.
Proof.
  split; [reflexivity |].
  apply (@launch_started_returns_pid pg11_headers statics_init started_4242
           16384 1 4242); [reflexivity | reflexivity | lia].
Defined.

Lemma worker_exit_status_witness :
  (exists c w',
      @pglogical_ticker_main pg11_headers 0
        (static_worker (repeat ok 6 ++ woken_by SIGTERM :: repeat ok 14))
      = (ProcExit c, w')
      /\ c = 1 /\ c <> 0)
  /\ @main_run pg11_headers tick_sql
       (set_vars (set_got_sigterm true (vars (looping_worker [])))
          (looping_worker []))
     = (ProcExit 1,
        log (proc_exit 1)
          (set_vars (set_got_sigterm true (vars (looping_worker [])))
             (looping_worker [])))
  /\ exists w',
       @main_run pg11_headers tick_sql (looping_worker [postmaster_gone; ok])
       = (ProcExit 1, w')
       /\ skipn 6 (trace w') =
            [WaitLatch 25 10000 (Some 117440512); ResetLatch; proc_exit 1].
Proof.
  destruct (@worker_exit_status pg11_headers) as (X & S & D).
  split; [| split].
  - assert (E : @pglogical_ticker_main pg11_headers 0
                  (static_worker
                     (repeat ok 6 ++ woken_by SIGTERM :: repeat ok 14))
                = (ProcExit 1, snd shutdown_run))
      by (vm_compute; reflexivity).
    exists 1, (snd shutdown_run). split; [exact E |].
    exact (X _ _ _ _ E).
  - apply S. vm_compute. reflexivity.
  - destruct (D tick_sql (looping_worker [postmaster_gone; ok])
                postmaster_gone ok []) as (w' & E & T).
    + vm_compute. reflexivity.
    + vm_compute. reflexivity.
    + reflexivity.
    + reflexivity.
    + vm_compute. discriminate.
    + exists w'. split; [exact E |]. rewrite T. vm_compute. reflexivity.
Defined.

Lemma connection_target_witness :
  exists rest,
    trace (snd shutdown_run) =
      [pqsignal SIGHUP fn_pglogical_ticker_sighup;
       pqsignal SIGTERM fn_pglogical_ticker_sigterm;
       BackgroundWorkerUnblockSignals;
       BackgroundWorkerInitializeConnection "postgres" (Some 0)] ++ rest
    /\ Forall not_connect rest.
Proof.
  destruct (@connection_target pg11_headers 0
              (static_worker
                 (repeat ok 6 ++ woken_by SIGTERM :: repeat ok 14))
              ok ok ok (repeat ok 3 ++ woken_by SIGTERM :: repeat ok 14)
              (fst shutdown_run) (snd shutdown_run))
    as (rest & T & F).
  - vm_compute. reflexivity.
  - reflexivity.
  - reflexivity.
  - reflexivity.
  - vm_compute. reflexivity.
  - exists rest. split; [| exact F].
    rewrite T. vm_compute. reflexivity.
Defined.

Lemma config_bounds_and_restart_passthrough_witness :
  (exists worker,
      l_registered (@_PG_init pg11_headers preload_env loader_init)
      = [worker]
      /\ bgw_restart_time worker = -1)
  /\ (exists worker rest,
        fst (@pglogical_ticker_launch pg11_headers
               (set_restart_time (-1) statics_init) started_4242 16384)
        = RegisterDynamicBackgroundWorker worker :: rest
        /\ bgw_restart_time worker = -1).
Proof.
  destruct (@config_bounds_and_restart_passthrough pg11_headers)
    as (_ & _ & _ & S & L).
  split.
  - destruct (S preload_env loader_init "postgres"%string
                [("pglogical_ticker.database"%string,
                  GucString (Some "postgres"%string))]
                [])
      as (worker & R & V).
    + reflexivity.
    + vm_compute. reflexivity.
    + reflexivity.
    + constructor.
    + exists worker. split; [exact R | exact V].
  - destruct (L (set_restart_time (-1) statics_init) started_4242 16384)
      as (worker & rest & R & V).
    exists worker, rest. split; [exact R | exact V].
Defined.

Lemma PG_init_static_registration_witness :
  l_registered (@_PG_init pg11_headers preload_env loader_init) =
    [ {| bgw_name := "pglogical_ticker worker 1";
         bgw_type := "pglogical_ticker";
         bgw_flags := 3;
         bgw_start_time := BgWorkerStart_RecoveryFinished;
         bgw_restart_time := -1;
         bgw_library_name := "pglogical_ticker";
         bgw_function_name := "pglogical_ticker_main";
         bgw_main_arg := 0;
         bgw_notify_pid := 0 |} ]
  /\ exists w',
       @main_startup pg11_headers (@Int32GetDatum pg11_headers 0)
         (worker_entry (l_vars preloaded)
            (hd worker_zero (l_registered preloaded)) (l_gucs preloaded)
            (ok :: ok :: ok :: ok :: ok :: ok :: []))
       = (Return "SELECT pglogical_ticker.tick();"%string, w')
       /\ nth 3 (trace w') ResetLatch =
            BackgroundWorkerInitializeConnection "postgres" (Some 0).
Proof.
  pose proof (@PG_init_static_registration pg11_headers preload_env
                loader_init) as H.
  cbv zeta in H. destruct H as (_ & R & _ & _ & C).
  split.
  - rewrite R. vm_compute. reflexivity.
  - destruct (C (l_vars preloaded)
                (hd worker_zero (l_registered preloaded)) (l_gucs preloaded)
                ok ok ok ok ok ok [])
      as (w' & E & N); [repeat constructor |].
    exists w'. split; [exact E |]. rewrite N. vm_compute. reflexivity.
Defined.

(** The static registration at [preload_env]: one worker, restart time
    -1 as configured, main argument 0. *)
Example preloaded_registration :
  l_registered preloaded =
    [ {| bgw_name := "pglogical_ticker worker 1";
         bgw_type := "pglogical_ticker";
         bgw_flags := 3;
         bgw_start_time := BgWorkerStart_RecoveryFinished;
         bgw_restart_time := -1;
         bgw_library_name := "pglogical_ticker";
         bgw_function_name := "pglogical_ticker_main";
         bgw_main_arg := 0;
         bgw_notify_pid := 0 |} ]
  /\ l_registered (@_PG_init pg11_headers backend_env loader_init) = [].
Proof. split; vm_compute; reflexivity. Qed.

(** A dynamically launched worker, no database name being configured,
    connects to the database whose Oid was given to
    [pglogical_ticker_launch]. *)
Example launched_worker_connects_by_oid :
  nth 3
    (trace
       (snd (@pglogical_ticker_main pg11_headers
               (bgw_main_arg launched_descriptor)
               (launched_worker (repeat ok 6)))))
    ResetLatch
  = BackgroundWorkerInitializeConnectionByOid 16384 InvalidOid (Some 0).
Proof. vm_compute. reflexivity. Qed.

(** Against PostgreSQL 9.6 the descriptor has no [bgw_type]. *)
Example preloaded_96_registration :
  map bgw_type (l_registered preloaded_96) = [EmptyString]
  /\ map bgw_name (l_registered preloaded_96)
     = ["pglogical_ticker worker 1"%string]
  /\ map bgw_main_arg (l_registered preloaded_96) = [0].
Proof. repeat split; vm_compute; reflexivity. Qed.

(* ===================================================================== *)
(** * The further properties at concrete inputs *)
(* ===================================================================== *)


(** After a status [BGWH_NOT_YET_STARTED] a build without assertion
    checking returns what [pid] holds; a build with it stops at the
    assertion. *)
Example launch_not_yet_started :
  snd (@pglogical_ticker_launch pg11_headers statics_init not_yet_started
         16384)
  = Return {| isnull := false; value := 0 |}
  /\ snd (@pglogical_ticker_launch cassert_headers statics_init
            not_yet_started 16384)
     = AssertionFailure.
Proof. split; vm_compute; reflexivity. Qed.

Lemma PG_init_defaults_witness :
  Forall (fun st => ~ In (fst st) guc_names) (config_file unrelated_env)
  /\ l_vars (@_PG_init pg11_headers unrelated_env loader_init) = statics_init
  /\ l_registered (@_PG_init pg11_headers unrelated_env loader_init) = [].
Proof.
  assert (H : Forall (fun st => ~ In (fst st) guc_names)
                (config_file unrelated_env)).
  { repeat constructor. cbn. intros [H | [H | [H | []]]]; discriminate H. }
  split; [exact H |].
  exact (@PG_init_defaults pg11_headers unrelated_env H).
Defined.

Lemma startup_keeps_signals_witness :
  exists buf w',
    @main_startup pg11_headers 0
      (worker_entry (l_vars preloaded)
         (hd worker_zero (l_registered preloaded)) (l_gucs preloaded)
         (signalled SIGHUP :: ok :: ok :: ok :: ok :: ok :: []))
    = (Return buf, w')
    /\ got_sighup (vars w') = true
    /\ got_sigterm (vars w') = false.
Proof.
  destruct (@startup_keeps_signals pg11_headers 0 (l_vars preloaded)
              (hd worker_zero (l_registered preloaded)) (l_gucs preloaded)
              (signalled SIGHUP) ok ok ok ok ok [])
    as (buf & w' & E & _ & Ht & Hh & _).
  - repeat constructor.
  - exists buf, w'. split; [exact E |].
    split; [rewrite Hh | rewrite Ht]; vm_compute; reflexivity.
Defined.

Lemma shutdown_during_startup_witness :
  exists w',
    @pglogical_ticker_main pg11_headers 0
      (worker_entry (l_vars preloaded)
         (hd worker_zero (l_registered preloaded)) (l_gucs preloaded)
         (signalled SIGTERM :: ok :: ok :: ok :: ok :: ok :: repeat ok 20))
    = (ProcExit 1, w')
    /\ waits (trace w') = 0%nat
    /\ ticks (trace w') = 0%nat
    /\ List.length (script w') = 20%nat.
Proof.
  destruct (@shutdown_during_startup pg11_headers 0 (l_vars preloaded)
              (hd worker_zero (l_registered preloaded)) (l_gucs preloaded)
              (signalled SIGTERM) ok ok ok ok ok (repeat ok 20))
    as (w' & E & T & S).
  - repeat constructor.
  - vm_compute. reflexivity.
  - exists w'. split; [exact E |].
    rewrite T, S. repeat split; vm_compute; reflexivity.
Defined.

Lemma launched_worker_connects_witness :
  exists buf w',
    @main_startup pg11_headers (bgw_main_arg launched_descriptor)
      (worker_entry statics_init launched_descriptor []
         (ok :: ok :: ok :: ok :: ok :: ok :: []))
    = (Return buf, w')
    /\ nth 3 (trace w') ResetLatch
       = BackgroundWorkerInitializeConnectionByOid 16384 InvalidOid (Some 0).
Proof.
  destruct (@launched_worker_connects pg11_headers statics_init started_4242
              16384 launched_descriptor [WaitForBackgroundWorkerStartup 1]
              statics_init [] ok ok ok ok ok ok [])
    as (buf & w' & E & N & _).
  - vm_compute. reflexivity.
  - reflexivity.
  - repeat constructor.
  - exists buf, w'. split; [exact E |].
    rewrite N. vm_compute. reflexivity.
Defined.

Lemma ticks_are_paced_witness :
  exists new,
    trace (snd failing_run) = new
    /\ paced false new = true
    /\ (ticks new <= waits new)%nat.
Proof.
  destruct (@ticks_are_paced pg11_headers 0
              (static_worker
                 (repeat ok 6 ++ timed_out :: repeat ok 8 ++ failing
                  :: repeat ok 40))
              (fst failing_run) (snd failing_run))
    as (new & T & P & C).
  - vm_compute. reflexivity.
  - exists new. split; [| split; [exact P | exact C]].
    rewrite T. reflexivity.
Defined.

Lemma waits_are_bounded_witness :
  in_bounds (vars (static_worker (repeat ok 6 ++ reload_to_3)))
  /\ exists new,
       trace (snd (@pglogical_ticker_main pg11_headers 0
                     (static_worker (repeat ok 6 ++ reload_to_3))))
       = new
       /\ Forall (@good_wait) new.
Proof.
  assert (B : in_bounds (l_vars preloaded)
              /\ Forall narrow (l_gucs preloaded)).
  { unfold preloaded.
    destruct (@PG_init_vars pg11_headers preload_env loader_init) as [-> ->].
    apply defined_bounds. }
  destruct B as [Hb Hn].
  split; [exact Hb |].
  destruct (@waits_are_bounded pg11_headers 0
              (static_worker (repeat ok 6 ++ reload_to_3))
              (fst (@pglogical_ticker_main pg11_headers 0
                      (static_worker (repeat ok 6 ++ reload_to_3))))
              (snd (@pglogical_ticker_main pg11_headers 0
                      (static_worker (repeat ok 6 ++ reload_to_3))))
              eq_refl Hb Hn (surjective_pairing _))
    as (_ & new & T & F).
  exists new. split; [| exact F]. rewrite T. reflexivity.
Defined.

Lemma reload_takes_effect_witness :
  exists w',
    @main_cycle pg11_headers tick_sql (looping_worker reload_to_3)
    = (Return tt, w')
    /\ ticks (trace w') = 1%nat
    /\ pglogical_ticker_naptime (vars w') = 3.
Proof.
  destruct (@reload_takes_effect pg11_headers tick_sql
              (looping_worker reload_to_3)
              (woken_by SIGHUP)
              (ok :: ok :: naptime_read 3 :: repeat ok 12))
    as (w' & E & T & _ & (N & _) & _).
  - apply looping_worker_ready.
  - vm_compute. reflexivity.
  - vm_compute. reflexivity.
  - vm_compute. reflexivity.
  - simpl. lia.
  - repeat constructor.
  - exists w'. split; [exact E |].
    split; [rewrite T; vm_compute; reflexivity |].
    rewrite N. vm_compute. reflexivity.
Defined.

(** A nap time of 0 in the configuration file is refused: the worker
    keeps its nap time of 10 seconds. *)
Example reload_to_0_is_refused :
  pglogical_ticker_naptime
    (vars (snd (@main_cycle pg11_headers tick_sql
                  (looping_worker reload_to_0))))
  = 10.
Proof. vm_compute. reflexivity. Qed.

Lemma reload_requests_are_kept_witness :
  has_signal SIGHUP (delivered timed_out) = false
  /\ exists w',
       @main_cycle pg11_headers tick_sql (looping_worker reload_late)
       = (Return tt, w')
       /\ got_sighup (vars w') = true.
Proof.
  split; [reflexivity |].
  destruct (@reload_requests_are_kept pg11_headers tick_sql
              (looping_worker reload_late)
              timed_out
              (signalled SIGHUP :: ok :: signalled SIGHUP :: repeat ok 12))
    as (w' & E & _ & H).
  - apply looping_worker_ready.
  - vm_compute. reflexivity.
  - vm_compute. reflexivity.
  - vm_compute. reflexivity.
  - simpl. lia.
  - repeat constructor.
  - exists w'. split; [exact E |]. rewrite H. vm_compute. reflexivity.
Defined.

Lemma shutdown_in_iteration_finishes_it_witness :
  has_signal SIGTERM (signals_of (firstn 15 term_in_last_call)) = false
  /\ exists w',
       @main_run pg11_headers tick_sql (looping_worker term_in_last_call)
       = (ProcExit 1, w')
       /\ skipn 6 (trace w') =
            [WaitLatch 25 10000 (Some 117440512); ResetLatch;
             CHECK_FOR_INTERRUPTS; ProcessConfigFile PGC_SIGHUP] ++
            tick_calls tick_sql ++ [proc_exit 1]
       /\ List.length (script w') = 4%nat.
Proof.
  split; [vm_compute; reflexivity |].
  destruct (@shutdown_in_iteration_finishes_it pg11_headers tick_sql
              (looping_worker term_in_last_call)
              (woken_by SIGHUP)
              (repeat ok 14 ++ signalled SIGTERM :: repeat ok 4))
    as (w' & E & T & S).
  - apply looping_worker_ready.
  - vm_compute. reflexivity.
  - vm_compute. reflexivity.
  - vm_compute. reflexivity.
  - vm_compute. reflexivity.
  - vm_compute. lia.
  - vm_compute. repeat constructor.
  - exists w'. split; [exact E |].
    split; [rewrite T | rewrite S]; vm_compute; reflexivity.
Defined.

Lemma interrupt_ends_the_run_witness :
  exists w',
    @main_run pg11_headers tick_sql
      (looping_worker (woken_by SIGHUP :: ok :: cancelling :: repeat ok 20))
    = (Error query_cancelled, w')
    /\ skipn 6 (trace w') =
         [WaitLatch 25 10000 (Some 117440512); ResetLatch;
          CHECK_FOR_INTERRUPTS]
    /\ List.length (script w') = 20%nat.
Proof.
  destruct (@interrupt_ends_the_run pg11_headers tick_sql
              (looping_worker
                 (woken_by SIGHUP :: ok :: cancelling :: repeat ok 20))
              (woken_by SIGHUP) ok cancelling (repeat ok 20) query_cancelled)
    as (w' & E & T & S).
  - vm_compute. reflexivity.
  - vm_compute. reflexivity.
  - reflexivity.
  - reflexivity.
  - vm_compute. reflexivity.
  - reflexivity.
  - exists w'. split; [exact E |].
    rewrite T, S. split; vm_compute; reflexivity.
Defined.

Lemma handlers_set_flag_and_latch_witness :
  got_sigterm
    (vars (deliver_all [SIGHUP; SIGTERM; SIGHUP] (looping_worker [])))
  = true
  /\ got_sighup
       (vars (deliver_all [SIGHUP; SIGTERM; SIGHUP] (looping_worker [])))
     = true
  /\ latch_is_set (deliver_all [SIGHUP; SIGTERM; SIGHUP] (looping_worker []))
     = true.
Proof.
  destruct (@handlers_set_flag_and_latch [SIGHUP; SIGTERM; SIGHUP]
              (looping_worker []) (looping_worker_ready []))
    as (Ht & Hh & Hl & _).
  rewrite Ht, Hh, Hl. repeat split; vm_compute; reflexivity.
Defined.

Lemma static_worker_connects_by_name_witness :
  exists w',
    @main_startup pg11_headers
      (bgw_main_arg (hd worker_zero (l_registered preloaded)))
      (worker_entry
         (l_vars (@_PG_init pg11_headers preload_env loader_init))
         (hd worker_zero (l_registered preloaded))
         (l_gucs (@_PG_init pg11_headers preload_env loader_init))
         (ok :: ok :: ok :: ok :: ok :: ok :: []))
    = (Return "SELECT pglogical_ticker.tick();"%string, w')
    /\ nth 3 (trace w') ResetLatch =
         BackgroundWorkerInitializeConnection "postgres" (Some 0).
Proof.
  destruct (@static_worker_connects_by_name pg11_headers preload_env
              (hd worker_zero (l_registered preloaded))
              ok ok ok ok ok ok [])
    as (name & w' & D & E & N & _).
  - vm_compute. left. reflexivity.
  - repeat constructor.
  - exists w'. split; [exact E |]. rewrite N.
    assert (X : name = "postgres"%string).
    { vm_compute in D. injection D as <-. reflexivity. }
    rewrite X. reflexivity.
Defined.

Lemma wait_timeout_wraps_witness :
  2147483 < pglogical_ticker_naptime (vars (long_nap [ok; ok; ok]))
  <= INT_MAX
  /\ exists events timeout info q,
       trace (snd (@main_wait win64_headers (long_nap [ok; ok; ok])))
       = WaitLatch events timeout info :: q
       /\ timeout < 2147484 * 1000.
Proof.
  assert (B : 2147483
              < pglogical_ticker_naptime (vars (long_nap [ok; ok; ok]))
              <= INT_MAX)
    by (unfold INT_MAX; cbn; lia).
  split; [exact B |].
  destruct (@wait_timeout_wraps win64_headers (long_nap [ok; ok; ok])
              _ _ eq_refl B (surjective_pairing _))
    as (events & timeout & info & q & T & _ & L & _).
  exists events, timeout, info, q. split; [exact T | exact L].
Defined.

(** The timeout of that wait: 2147484000 less 2^32. *)
Example long_nap_timeout :
  trace (snd (@main_wait win64_headers (long_nap [ok; ok; ok])))
  = [WaitLatch 25 (-2147483296) (Some 117440512); ResetLatch;
     CHECK_FOR_INTERRUPTS].
Proof. vm_compute. reflexivity. Qed.
